(** * AI Linux terminal: the command interpreter and the workflow predictor

    A shallow embedding of [useTerminal] (the hook that holds the session
    state, [executeCommand], [clearHistory] and [predictWorkflow]) and of the
    submit handler of the [Terminal] component, together with the properties
    of the specification that are about them.

    Strings are Rocq strings: sequences of 8-bit characters.  The literals of
    the source are kept byte for byte (UTF-8 for the few non-ASCII ones);
    case mapping and white space are the ASCII ones. *)

From Stdlib Require Import Ascii String ZArith List Bool Lia DecimalString DecimalZ.
From stdpp Require Import base list strings gmap.

Local Open Scope Z_scope.

(** ** The JavaScript primitives the hook relies on *)

Module JS.

(** The double quote, written by code so that no literal needs escaping. *)
Definition dq : string := String (ascii_of_nat 34) EmptyString.
Definition tab : string := String (ascii_of_nat 9) EmptyString.
Definition nl : string := String (ascii_of_nat 10) EmptyString.

(** [undefined] is [None]: what indexing past the end of an array gives. *)
Definition truthy (v : option string) : bool :=
  match v with
  | Some s => negb (String.eqb s "")
  | None => false
  end.

(** [v || d] on a possibly undefined string. *)
Definition or_else (v : option string) (d : string) : string :=
  match v with
  | Some s => if String.eqb s "" then d else s
  | None => d
  end.

(** [`${v}`]: template interpolation of a possibly undefined string. *)
Definition show (v : option string) : string :=
  match v with
  | Some s => s
  | None => "undefined"
  end.

Definition lower_char (c : ascii) : ascii :=
  let n := nat_of_ascii c in
  if (Nat.leb 65 n && Nat.leb n 90)%bool then ascii_of_nat (n + 32) else c.

(** [String.prototype.toLowerCase]. *)
Fixpoint toLowerCase (s : string) : string :=
  match s with
  | EmptyString => EmptyString
  | String c s' => String (lower_char c) (toLowerCase s')
  end.

Fixpoint trimStart (s : string) : string :=
  match s with
  | EmptyString => EmptyString
  | String c s' => if Ascii.is_space c then trimStart s' else s
  end.

Fixpoint trimEnd (s : string) : string :=
  match s with
  | EmptyString => EmptyString
  | String c s' =>
      let r := trimEnd s' in
      if (Ascii.is_space c && String.eqb r "")%bool then EmptyString
      else String c r
  end.

(** [String.prototype.trim]. *)
Definition trim (s : string) : string := trimEnd (trimStart s).

(** [s.startsWith(p)]. *)
Definition startsWith (s p : string) : bool := String.prefix p s.

(** [s.includes(sub)]: [sub] occurs somewhere in [s]. *)
Fixpoint includes (s sub : string) : bool :=
  startsWith s sub ||
  match s with
  | EmptyString => false
  | String _ s' => includes s' sub
  end.

(** [s.split(sep)] for a one-character separator: never the empty array. *)
Fixpoint split (sep : ascii) (s : string) : list string :=
  match s with
  | EmptyString => [EmptyString]
  | String c s' =>
      let r := split sep s' in
      if Ascii.eqb c sep then EmptyString :: r
      else match r with
           | t :: ts => String c t :: ts
           | [] => [String c EmptyString]
           end
  end.

(** [xs.join(sep)]. *)
Definition join (sep : string) (xs : list string) : string :=
  String.concat sep xs.

(** A literal that spans several lines, given line by line. *)
Definition text (lines : list string) : string := join nl lines.

(** [xs.includes(x)] on an array of strings. *)
Definition mem (x : string) (xs : list string) : bool :=
  existsb (String.eqb x) xs.

(** [xs.indexOf(x)]: the first index, or -1. *)
Fixpoint indexOf (xs : list string) (x : string) : Z :=
  match xs with
  | [] => -1
  | y :: ys =>
      if String.eqb y x then 0
      else let i := indexOf ys x in if i <? 0 then -1 else i + 1
  end.

(** [xs[i]] for an integer index. *)
Definition at_ (xs : list string) (i : Z) : option string :=
  if i <? 0 then None else xs !! Z.to_nat i.

(** Decimal rendering of an integer, as [Number.prototype.toString] gives
    for the integers a double holds exactly. *)
Definition decimal (n : Z) : string := NilEmpty.string_of_int (Z.to_int n).

End JS.

(** ** The workflow predictor *)

Module TerminalCommand.
Record t := mk {
  id : string;
  command : string;
  output : string;
  timestamp : Z;
  exitCode : Z;
  directory : string;
}.
End TerminalCommand.

Module Predictor.
Import JS.

(** [workflowPatterns], in the order [Object.entries] lists it: insertion
    order, no key being an array index. *)
Definition workflowPatterns : list (string * string) :=
  [ ("find", "find . -name " +:+ dq +:+ "*.txt" +:+ dq +:+ " -type f");
    ("find .", "find . -name " +:+ dq +:+ "*.txt" +:+ dq +:+ " -type f");
    ("grep", "grep -r " +:+ dq +:+ "pattern" +:+ dq +:+ " .");
    ("grep -", "grep -r " +:+ dq +:+ "pattern" +:+ dq +:+ " .");
    ("ls", "ls -la");
    ("cat", "cat filename.txt");
    ("tail", "tail -f /var/log/syslog");
    ("head", "head -n 20 filename.txt");
    ("ping", "ping -c 4 google.com");
    ("curl", "curl -I https://google.com");
    ("wget", "wget https://example.com/file.txt");
    ("netstat", "netstat -tuln");
    ("ss", "ss -tuln");
    ("traceroute", "traceroute google.com");
    ("nslookup", "nslookup google.com");
    ("dig", "dig google.com");
    ("lsof", "lsof -i :80");
    ("ps", "ps aux | grep process");
    ("top", "top");
    ("htop", "htop");
    ("df", "df -h");
    ("du", "du -sh *");
    ("free", "free -h");
    ("chmod", "chmod 755 filename");
    ("chown", "chown user:group filename");
    ("tar", "tar -czf archive.tar.gz directory/");
    ("unzip", "unzip file.zip");
    ("zip", "zip -r archive.zip directory/");
    ("uname", "uname -a");
    ("lscpu", "lscpu");
    ("lsblk", "lsblk");
    ("mount", "mount | grep " +:+ dq +:+ "^/" +:+ dq);
    ("who", "whoami");
    ("date", "date +" +:+ dq +:+ "%Y-%m-%d %H:%M:%S" +:+ dq) ].

(** The test of the loop body: [pattern.startsWith(input) && pattern !== input]. *)
Definition matches (input : string) (entry : string * string) : bool :=
  startsWith (fst entry) input && negb (String.eqb (fst entry) input).

(** The [for ... of Object.entries(workflowPatterns)] loop: the suggestion
    of the first entry that passes the test. *)
Definition directMatch (input : string) : option string :=
  snd <$> List.find (matches input) workflowPatterns.

Definition isGit (input : string) : bool :=
  String.eqb input "git" || String.eqb input "git ".

(** The rules on the most recent command, tried in source order. *)
Definition contextMatch (lastCommand input : string) : option string :=
  if includes lastCommand "git status" && startsWith input "git" && isGit input
  then Some "git add ."
  else if includes lastCommand "git add" && startsWith input "git" && isGit input
  then Some ("git commit -m " +:+ dq +:+ "Update" +:+ dq)
  else if includes lastCommand "git commit" && startsWith input "git" && isGit input
  then Some "git push origin main"
  else if includes lastCommand "ping" && startsWith input "tr"
  then Some "traceroute google.com"
  else if includes lastCommand "ping" && startsWith input "ns"
  then Some "nslookup google.com"
  else if includes lastCommand "find" && startsWith input "gr"
  then Some ("grep -r " +:+ dq +:+ "pattern" +:+ dq +:+ " .")
  else None.

(** [predictWorkflow] once [input] has been computed. *)
Definition predictNormalized (input : string)
    (history : list TerminalCommand.t) : option string :=
  match directMatch input with
  | Some suggestion => Some suggestion
  | None =>
      match last history with
      | Some r => contextMatch (toLowerCase (TerminalCommand.command r)) input
      | None => None
      end
  end.

Definition normalize (currentInput : string) : string :=
  trim (toLowerCase currentInput).

Definition predictWorkflow (currentInput : string)
    (history : list TerminalCommand.t) : option string :=
  predictNormalized (normalize currentInput) history.

End Predictor.


(** ** The session state and the virtual file system *)

Module FileSystemItem.
Inductive kind := file | directory.
Record t := mk {
  name : string;
  type : kind;
  size : option N;
  permissions : option string;
  modified : option Z;
}.
End FileSystemItem.

Module TerminalState.
Record t := mk {
  currentDirectory : string;
  history : list TerminalCommand.t;
  fileSystem : gmap string (list FileSystemItem.t);
  isExecuting : bool;
}.
End TerminalState.

(** ** The command executor *)

Module Executor.
Import JS.
Import TerminalState.

(** The two exceptions a handler can raise: calling [map] on an inherited
    property of the file system object, and [Array.from] with a length of
    2^32 or more. *)
Inductive JsError := NotAFunction | InvalidArrayLength.

(** What the run-time system renders: dates in the local conventions,
    floating point numbers, numbers beyond the exact integers, errors. *)
Record Host := {
  toLocaleDateString : Z -> string;
  toUTCString : Z -> string;
  toISOString : Z -> string;
  dateToString : Z -> string;
  (** [scaledFixed3 a b r] is [(r * a + b).toFixed(3)]. *)
  scaledFixed3 : Z -> Z -> N -> string;
  (** [Stringn] for an integer [n] beyond 2^53 in magnitude. *)
  numberToString : Z -> string;
  (** [`${error}`]. *)
  errorToString : JsError -> string;
}.

(** The injected clock and random source: the k-th reading of the clock
    ([Date.now()], [new Date()]) in milliseconds, and the k-th draw of
    [Math.random()] (its numerator over 2^53). *)
Record Env := {
  clock : nat -> Z;
  random : nat -> N;
}.

(** The names [Object.prototype] gives to every object literal. *)
Definition objectPrototypeKeys : list string :=
  [ "constructor"; "__defineGetter__"; "__defineSetter__"; "hasOwnProperty";
    "__lookupGetter__"; "__lookupSetter__"; "isPrototypeOf";
    "propertyIsEnumerable"; "toString"; "valueOf"; "__proto__";
    "toLocaleString" ].

(** [fileSystem[key]]: an own entry, an inherited member or [undefined]. *)
Inductive Slot :=
| Entries (items : list FileSystemItem.t)
| Inherited
| Undefined.

Definition property (fs : gmap string (list FileSystemItem.t))
    (key : string) : Slot :=
  match fs !! key with
  | Some items => Entries items
  | None => if mem key objectPrototypeKeys then Inherited else Undefined
  end.

(** Every value a property of the file system can hold is an object or a
    function, so only [undefined] is falsy. *)
Definition slot_truthy (s : Slot) : bool :=
  match s with Undefined => false | _ => true end.

Definition showNumber (h : Host) (n : Z) : string :=
  if Z.abs n <=? 2 ^ 53 then decimal n else numberToString h n.

(** The local variables of [executeCommand] that the handlers assign. *)
Record Locals := {
  output : string;
  exitCode : Z;
  newDirectory : string;
}.

Inductive Completion :=
| Normal (l : Locals)
| Throw (e : JsError) (l : Locals).

(** What a handler reads. *)
Record Call := {
  host : Host;
  env : Env;
  state : TerminalState.t;
  cmd : string;
  args : list string;
}.

Definition Handler := Call -> Locals -> Completion.

(** [output = s] *)
Definition say (s : string) (l : Locals) : Completion :=
  Normal {| output := s; exitCode := exitCode l; newDirectory := newDirectory l |}.

(** [output = s; exitCode = 1] *)
Definition fail (s : string) (l : Locals) : Completion :=
  Normal {| output := s; exitCode := 1; newDirectory := newDirectory l |}.

Definition arg (c : Call) (i : nat) : option string := args c !! i.
Definition has (c : Call) (flag : string) : bool := mem flag (args c).
Definition is_ (v : option string) (s : string) : bool :=
  match v with Some x => String.eqb x s | None => false end.
Definition nonempty (s : string) : bool := negb (String.eqb s "").
Definition lastArg (c : Call) : option string :=
  at_ (args c) (Z.of_nat (length (args c)) - 1).
Definition argAfter (c : Call) (flag : string) : option string :=
  at_ (args c) (indexOf (args c) flag + 1).

Definition is_digit (radix : Z) (ch : ascii) : option Z :=
  let n := Z.of_nat (nat_of_ascii ch) in
  let d := if (48 <=? n) && (n <=? 57) then n - 48
           else if (97 <=? n) && (n <=? 122) then n - 87
           else if (65 <=? n) && (n <=? 90) then n - 55
           else 99 in
  if d <? radix then Some d else None.

(** The longest prefix of digits, read in the given radix. *)
Fixpoint digits (radix : Z) (acc : option Z) (s : string) : option Z :=
  match s with
  | EmptyString => acc
  | String ch s' =>
      match is_digit radix ch with
      | Some d => digits radix (Some (default 0 acc * radix + d)) s'
      | None => acc
      end
  end.

(** [parseIntv] with no radix; [None] is [NaN].  The result is the
    integer read, not yet rounded to a double. *)
Definition parseInt (v : option string) : option Z :=
  let s := trimStart (show v) in
  let '(sign, s) :=
    match s with
    | String "-" s' => (-1, s')
    | String "+" s' => (1, s')
    | _ => (1, s)
    end in
  let '(radix, s) :=
    match s with
    | String "0" (String "x" s') => (16, s')
    | String "0" (String "X" s') => (16, s')
    | _ => (10, s)
    end in
  Z.mul sign <$> digits radix None s.

(** [n || d] on a number: [NaN] and zero are falsy. *)
Definition number_or (n : option Z) (d : Z) : Z :=
  match n with
  | Some k => if k =? 0 then d else k
  | None => d
  end.

Definition case_ls : Handler := fun c l =>
  let lsPath := or_else (arg c 1) (currentDirectory (state c)) in
  match property (fileSystem (state c)) lsPath with
  | Inherited => Throw NotAFunction l
  | slot =>
      let items := match slot with Entries xs => xs | _ => [] end in
      if has c "-la" || has c "-l" then
        say (join nl (imap (fun j item =>
               or_else (FileSystemItem.permissions item) "drwxr-xr-x"
               +:+ " 1 user user "
               +:+ showNumber (host c)
                     (number_or (Z.of_N <$> FileSystemItem.size item) 4096)
               +:+ " " +:+ toLocaleDateString (host c) (clock (env c) (2 + j))
               +:+ " " +:+ FileSystemItem.name item) items)) l
      else say (join "  " (FileSystemItem.name <$> items)) l
  end.

Definition case_pwd : Handler := fun c l =>
  say (currentDirectory (state c)) l.

(** The path [cd] resolves its target to, before it is looked up. *)
Definition resolve (currentDirectory : string) (targetDir : option string) : string :=
  if negb (truthy targetDir) || is_ targetDir "~" then "/home/user"
  else if is_ targetDir ".." then
    let parts := List.filter nonempty (split "/" currentDirectory) in
    "/" +:+ join "/" (removelast parts)
  else if startsWith (show targetDir) "/" then show targetDir
  else if String.eqb currentDirectory "/" then "/" +:+ show targetDir
  else currentDirectory +:+ "/" +:+ show targetDir.

Definition case_cd : Handler := fun c l =>
  let targetDir := arg c 1 in
  let newDirectory := resolve (currentDirectory (state c)) targetDir in
  if slot_truthy (property (fileSystem (state c)) newDirectory) then
    Normal {| output := ""; exitCode := exitCode l; newDirectory := newDirectory |}
  else
    Normal {| output := ("cd: " +:+ (show targetDir) +:+ ": No such file or directory");
              exitCode := 1;
              newDirectory := currentDirectory (state c) |}.

Definition case_cat : Handler := fun c l =>
  let filename := arg c 1 in
  if negb (truthy filename) then fail "cat: missing file operand" l
  else if is_ filename "readme.txt" then
    say (text
      [ "Welcome to AI Terminal v2.0!";
        "";
        "This revolutionary Linux terminal emulator features:";
        "";
        "🧠 AI-POWERED WORKFLOW PREDICTION";
        "- Start typing any command and watch AI predict your entire workflow";
        "- Press TAB to accept predictions";
        "- Context-aware suggestions based on your recent commands";
        "";
        "🌐 ADVANCED NETWORKING TOOLS";
        "- ping, curl, wget, traceroute, nslookup, dig";
        "- netstat, ss for connection monitoring";
        "- Real-time network diagnostics";
        "";
        "🔧 COMPREHENSIVE LINUX COMMANDS";
        "- File operations: ls, cd, pwd, cat, find, grep";
        "- System monitoring: ps, top, df, du, free";
        "- Permissions: chmod, chown";
        "- Archives: tar, unzip";
        "";
        "💡 BILLION-DOLLAR FEATURES";
        "- Predictive command completion";
        "- Context-aware AI assistance";
        "- Real-time error prevention";
        "- Intelligent workflow suggestions";
        "";
        "Try typing " +:+ dq +:+ "find" +:+ dq +:+ " or " +:+ dq +:+ "git" +:+ dq +:+ " and see the magic happen!" ]) l
  else if is_ filename ".bashrc" then
    say (text
      [ "# ~/.bashrc: executed by bash(1) for non-login shells.";
        "";
        "export PATH=$HOME/bin:/usr/local/bin:$PATH";
        "export EDITOR=nano";
        "";
        "# AI Terminal aliases";
        "alias ll='ls -la'";
        "alias la='ls -A'";
        "alias l='ls -CF'";
        "alias ..='cd ..'";
        "alias ...='cd ../..'";
        "";
        "# Network shortcuts";
        "alias ports='netstat -tuln'";
        "alias connections='ss -tuln'";
        "alias myip='curl -s ifconfig.me'";
        "";
        "# AI-powered shortcuts";
        "alias predict='echo " +:+ dq +:+ "AI workflow prediction active - just start typing!" +:+ dq +:+ "'";
        "";
        "# Welcome message";
        "echo " +:+ dq +:+ "🧠 AI Terminal v2.0 - Linux with Neural Engine superpowers!" +:+ dq ]) l
  else fail ("cat: " +:+ (show filename) +:+ ": No such file or directory") l.

Definition case_ping : Handler := fun c l =>
  let host_ := or_else (arg c 1) "google.com" in
  let count :=
    if has c "-c" then number_or (parseInt (argAfter c "-c")) 4 else 4 in
  if 2 ^ 32 <=? count then Throw InvalidArrayLength l
  else
    let n := Z.to_nat count in
    say (text
      [ "PING " +:+ host_ +:+ " (142.250.191.14): 56 data bytes";
        join nl ((fun i : nat =>
          "64 bytes from 142.250.191.14: icmp_seq=" +:+ decimal (Z.of_nat i)
          +:+ " ttl=55 time="
          +:+ scaledFixed3 (host c) 5 10 (random (env c) (1 + i)) +:+ " ms")
          <$> seq 0 n);
        "";
        "--- " +:+ host_ +:+ " ping statistics ---";
        showNumber (host c) count +:+ " packets transmitted, "
        +:+ showNumber (host c) count +:+ " packets received, 0.0% packet loss";
        "round-trip min/avg/max/stddev = 10.234/"
        +:+ scaledFixed3 (host c) 2 12 (random (env c) (1 + n))
        +:+ "/15.456/1.234 ms" ]) l.

Definition case_curl : Handler := fun c l =>
  if has c "-I" then
    say (text
      [ "HTTP/2 200 ";
        "server: GitHub.com";
        "date: " +:+ (toUTCString (host c) (clock (env c) 2));
        "content-type: application/json; charset=utf-8";
        "content-length: 2048";
        "cache-control: public, max-age=60, s-maxage=60";
        "etag: " +:+ dq +:+ "abc123def456" +:+ dq;
        "x-ratelimit-limit: 60";
        "x-ratelimit-remaining: 59" ]) l
  else
    say (text
      [ "{";
        "  " +:+ dq +:+ "current_user_url" +:+ dq +:+ ": " +:+ dq +:+ "https://api.github.com/user" +:+ dq +:+ ",";
        "  " +:+ dq +:+ "authorizations_url" +:+ dq +:+ ": " +:+ dq +:+ "https://api.github.com/authorizations" +:+ dq +:+ ",";
        "  " +:+ dq +:+ "repository_url" +:+ dq +:+ ": " +:+ dq +:+ "https://api.github.com/repos/{owner}/{repo}" +:+ dq +:+ ",";
        "  " +:+ dq +:+ "status" +:+ dq +:+ ": " +:+ dq +:+ "success" +:+ dq +:+ ",";
        "  " +:+ dq +:+ "message" +:+ dq +:+ ": " +:+ dq +:+ "GitHub API v3" +:+ dq;
        "}" ]) l.

Definition case_wget : Handler := fun c l =>
  let url := or_else (arg c 1) "https://example.com/file.txt" in
  say (text
    [ "--" +:+ (toISOString (host c) (clock (env c) 2)) +:+ "--  " +:+ url;
      "Resolving example.com (example.com)... 93.184.216.34";
      "Connecting to example.com (example.com)|93.184.216.34|:443... connected.";
      "HTTP request sent, awaiting response... 200 OK";
      "Length: 1024 (1.0K) [text/plain]";
      "Saving to: 'file.txt'";
      "";
      "file.txt            100%[===================>]   1.00K  --.-KB/s    in 0s      ";
      "";
      (toISOString (host c) (clock (env c) 3)) +:+ " (5.23 MB/s) - 'file.txt' saved [1024/1024]" ]) l.

Definition case_netstat : Handler := fun c l =>
  if has c "-tuln" || has c "-an" then
    say (text
      [ "Active Internet connections (only servers)";
        "Proto Recv-Q Send-Q Local Address           Foreign Address         State      ";
        "tcp        0      0 0.0.0.0:22              0.0.0.0:*               LISTEN     ";
        "tcp        0      0 127.0.0.1:3000          0.0.0.0:*               LISTEN     ";
        "tcp        0      0 0.0.0.0:80              0.0.0.0:*               LISTEN     ";
        "tcp        0      0 0.0.0.0:443             0.0.0.0:*               LISTEN     ";
        "tcp6       0      0 :::22                   :::*                    LISTEN     ";
        "tcp6       0      0 ::1:3000                :::*                    LISTEN     ";
        "udp        0      0 0.0.0.0:53              0.0.0.0:*                          ";
        "udp        0      0 0.0.0.0:68              0.0.0.0:*                          " ]) l
  else
    say (text
      [ "Active Internet connections (w/o servers)";
        "Proto Recv-Q Send-Q Local Address           Foreign Address         State      ";
        "tcp        0      0 192.168.1.100:45678     142.250.191.14:443      ESTABLISHED";
        "tcp        0      0 192.168.1.100:45679     140.82.112.4:443        ESTABLISHED" ]) l.

Definition case_ss : Handler := fun c l =>
  say (text
    [ "Netid  State      Recv-Q Send-Q Local Address:Port               Peer Address:Port              ";
      "tcp    LISTEN     0      128          *:22                       *:*                  ";
      "tcp    LISTEN     0      128    127.0.0.1:3000                   *:*                  ";
      "tcp    LISTEN     0      128          *:80                       *:*                  ";
      "tcp    LISTEN     0      128          *:443                      *:*                  ";
      "tcp    ESTAB      0      0      192.168.1.100:45678        142.250.191.14:443         ";
      "tcp    ESTAB      0      0      192.168.1.100:45679        140.82.112.4:443           " ]) l.

Definition case_traceroute : Handler := fun c l =>
  let host_ := or_else (arg c 1) "google.com" in
  say (text
    [ "traceroute to " +:+ host_ +:+ " (142.250.191.14), 30 hops max, 60 byte packets";
      " 1  192.168.1.1 (192.168.1.1)  1.234 ms  1.123 ms  1.456 ms";
      " 2  10.0.0.1 (10.0.0.1)  5.678 ms  5.432 ms  5.789 ms";
      " 3  203.0.113.1 (203.0.113.1)  12.345 ms  12.123 ms  12.456 ms";
      " 4  * * *";
      " 5  142.250.191.14 (142.250.191.14)  15.678 ms  15.432 ms  15.789 ms" ]) l.

Definition case_nslookup : Handler := fun c l =>
  let host_ := or_else (arg c 1) "google.com" in
  say (text
    [ "Server:" +:+ tab +:+ tab +:+ "8.8.8.8";
      "Address:" +:+ tab +:+ "8.8.8.8#53";
      "";
      "Non-authoritative answer:";
      "Name:" +:+ tab +:+ host_;
      "Address: 142.250.191.14";
      "Name:" +:+ tab +:+ host_;
      "Address: 2607:f8b0:4004:c1b::65" ]) l.

Definition case_dig : Handler := fun c l =>
  let host_ := or_else (arg c 1) "google.com" in
  say (text
    [ "; <<>> DiG 9.16.1-Ubuntu <<>> " +:+ host_;
      ";; global options: +cmd";
      ";; Got answer:";
      ";; ->>HEADER<<- opcode: QUERY, status: NOERROR, id: 12345";
      ";; flags: qr rd ra; QUERY: 1, ANSWER: 1, AUTHORITY: 0, ADDITIONAL: 1";
      "";
      ";; OPT PSEUDOSECTION:";
      "; EDNS: version: 0, flags:; udp: 512";
      ";; QUESTION SECTION:";
      ";" +:+ host_ +:+ "." +:+ tab +:+ tab +:+ tab +:+ "IN" +:+ tab +:+ "A";
      "";
      ";; ANSWER SECTION:";
      host_ +:+ "." +:+ tab +:+ tab +:+ "300" +:+ tab +:+ "IN" +:+ tab +:+ "A" +:+ tab +:+ "142.250.191.14";
      "";
      ";; Query time: 23 msec";
      ";; SERVER: 8.8.8.8#53(8.8.8.8)";
      ";; WHEN: " +:+ (dateToString (host c) (clock (env c) 2));
      ";; MSG SIZE  rcvd: 55" ]) l.

Definition case_ps : Handler := fun c l =>
  if has c "aux" then
    say (text
      [ "USER       PID %CPU %MEM    VSZ   RSS TTY      STAT START   TIME COMMAND";
        "root         1  0.0  0.1  225316  9876 ?        Ss   09:00   0:01 /sbin/init";
        "root         2  0.0  0.0      0     0 ?        S    09:00   0:00 [kthreadd]";
        "user      1234  0.5  2.1 1234567 87654 pts/0    Sl   09:30   0:05 ai-terminal";
        "user      1235  0.1  0.5  123456  5432 pts/0    S    09:31   0:01 node server.js";
        "user      1236  0.0  0.1   12345  1234 pts/0    R+   09:32   0:00 ps aux" ]) l
  else
    say (text
      [ "  PID TTY          TIME CMD";
        " 1234 pts/0    00:00:05 ai-terminal";
        " 1235 pts/0    00:00:01 node";
        " 1236 pts/0    00:00:00 ps" ]) l.

Definition case_df : Handler := fun c l =>
  if has c "-h" then
    say (text
      [ "Filesystem      Size  Used Avail Use% Mounted on";
        "/dev/sda1        20G  8.5G   11G  45% /";
        "tmpfs           2.0G     0  2.0G   0% /dev/shm";
        "/dev/sda2       100G   45G   50G  48% /home" ]) l
  else
    say (text
      [ "Filesystem     1K-blocks    Used Available Use% Mounted on";
        "/dev/sda1       20971520 8912896  11534336  45% /";
        "tmpfs            2097152       0   2097152   0% /dev/shm";
        "/dev/sda2      104857600 47185920  52428800  48% /home" ]) l.

Definition case_du : Handler := fun c l =>
  if has c "-sh" then
    say (text
      [ "1.2G" +:+ tab +:+ "documents";
        "856M" +:+ tab +:+ "downloads";
        "2.3G" +:+ tab +:+ "projects";
        "45M" +:+ tab +:+ ".cache";
        "12K" +:+ tab +:+ ".bashrc" ]) l
  else
    say (text
      [ "1234567" +:+ tab +:+ "./documents";
        "876543" +:+ tab +:+ "./downloads";
        "2345678" +:+ tab +:+ "./projects";
        "45678" +:+ tab +:+ "./.cache";
        "12" +:+ tab +:+ "./.bashrc" ]) l.

Definition case_free : Handler := fun c l =>
  if has c "-h" then
    say (text
      [ "              total        used        free      shared  buff/cache   available";
        "Mem:           7.8G        2.1G        3.2G        156M        2.5G        5.4G";
        "Swap:          2.0G          0B        2.0G" ]) l
  else
    say (text
      [ "              total        used        free      shared  buff/cache   available";
        "Mem:        8165432     2156789     3287654      159876     2720989     5567123";
        "Swap:       2097152           0     2097152" ]) l.

Definition case_lsof : Handler := fun c l =>
  let port := if has c "-i" then or_else (argAfter c "-i") ":80" else ":80" in
  say (text
    [ "COMMAND  PID USER   FD   TYPE DEVICE SIZE/OFF NODE NAME";
      "nginx   1234 root    6u  IPv4  12345      0t0  TCP *" +:+ port +:+ " (LISTEN)";
      "nginx   1235 www     6u  IPv4  12345      0t0  TCP *" +:+ port +:+ " (LISTEN)" ]) l.

Definition case_whoami : Handler := fun c l => say "user" l.

Definition case_date : Handler := fun c l =>
  say (dateToString (host c) (clock (env c) 2)) l.

Definition case_uname : Handler := fun c l =>
  if has c "-a" then say "Linux ai-terminal 5.15.0-ai #1 SMP x86_64 GNU/Linux" l
  else say "Linux" l.

Definition case_lscpu : Handler := fun c l =>
  say (text
    [ "Architecture:                    x86_64";
      "CPU op-mode(s):                  32-bit, 64-bit";
      "Byte Order:                      Little Endian";
      "CPU(s):                          4";
      "Model name:                      AI Terminal Processor";
      "CPU MHz:                         2400.000";
      "Cache L1d:                       128 KiB";
      "Cache L1i:                       128 KiB";
      "Cache L2:                        1 MiB";
      "Cache L3:                        8 MiB" ]) l.

Definition case_echo : Handler := fun c l =>
  say (join " " (drop 1 (args c))) l.

Definition case_find : Handler := fun c l =>
  let path := or_else (arg c 1) "." in
  say (text
    [ path +:+ "/documents/report.txt";
      path +:+ "/downloads/image.jpg";
      path +:+ "/projects/ai-terminal/README.md";
      path +:+ "/projects/web-app/index.html" ]) l.

Definition case_grep : Handler := fun c l =>
  if has c "-r" then
    let pattern := or_else (argAfter c "-r") "pattern" in
    say (text
      [ "./documents/report.txt:Found " +:+ pattern +:+ " in line 15";
        "./projects/ai-terminal/README.md:" +:+ pattern +:+ " appears in documentation";
        "./projects/web-app/index.html:HTML contains " +:+ pattern +:+ " reference" ]) l
  else fail "grep: missing pattern" l.

Definition case_clear : Handler := fun c l => say "" l.

Definition case_mkdir : Handler := fun c l =>
  let dirName := arg c 1 in
  if negb (truthy dirName) then fail "mkdir: missing operand" l
  else say ("Directory '" +:+ (show dirName) +:+ "' created") l.

Definition case_rmdir : Handler := fun c l =>
  let dirName := arg c 1 in
  if negb (truthy dirName) then fail "rmdir: missing operand" l
  else say ("Directory '" +:+ (show dirName) +:+ "' removed") l.

Definition case_rm : Handler := fun c l =>
  let fileName := arg c 1 in
  if negb (truthy fileName) then fail "rm: missing operand" l
  else if has c "-rf" then say ("Removed '" +:+ (show fileName) +:+ "' and its contents") l
  else say ("Removed '" +:+ (show fileName) +:+ "'") l.

Definition case_cp : Handler := fun c l =>
  let source := arg c 1 in
  let dest := arg c 2 in
  if negb (truthy source) || negb (truthy dest) then fail "cp: missing file operand" l
  else say ("'" +:+ (show source) +:+ "' copied to '" +:+ (show dest) +:+ "'") l.

Definition case_mv : Handler := fun c l =>
  let source := arg c 1 in
  let dest := arg c 2 in
  if negb (truthy source) || negb (truthy dest) then fail "mv: missing file operand" l
  else say ("'" +:+ (show source) +:+ "' moved to '" +:+ (show dest) +:+ "'") l.

Definition case_touch : Handler := fun c l =>
  let fileName := arg c 1 in
  if negb (truthy fileName) then fail "touch: missing file operand" l
  else say ("File '" +:+ (show fileName) +:+ "' created/updated") l.

Definition case_ln : Handler := fun c l =>
  let target := arg c 1 in
  let link := arg c 2 in
  if negb (truthy target) || negb (truthy link) then fail "ln: missing operand" l
  else if has c "-s" then
    say ("Symbolic link '" +:+ (show link) +:+ "' created pointing to '" +:+ (show target) +:+ "'") l
  else say ("Hard link '" +:+ (show link) +:+ "' created for '" +:+ (show target) +:+ "'") l.

Definition case_which : Handler := fun c l =>
  let cmdName := arg c 1 in
  if negb (truthy cmdName) then fail "which: missing argument" l
  else say ("/usr/bin/" +:+ (show cmdName)) l.

Definition case_whereis : Handler := fun c l =>
  let cmdName := arg c 1 in
  if negb (truthy cmdName) then fail "whereis: missing argument" l
  else say ((show cmdName) +:+ ": /usr/bin/" +:+ (show cmdName) +:+ " /usr/share/man/man1/" +:+ (show cmdName) +:+ ".1.gz") l.

Definition case_locate : Handler := fun c l =>
  let pattern := arg c 1 in
  if negb (truthy pattern) then fail "locate: missing pattern" l
  else say (text
    [ "/home/user/documents/" +:+ (show pattern);
      "/usr/share/doc/" +:+ (show pattern);
      "/var/log/" +:+ (show pattern) +:+ ".log" ]) l.

(** [case 'less': case 'more':] share one body. *)
Definition case_less_more : Handler := fun c l =>
  let fileName := arg c 1 in
  if negb (truthy fileName) then fail ((cmd c) +:+ ": missing file operand") l
  else if is_ fileName "readme.txt" then
    say (text
      [ "Viewing " +:+ (show fileName) +:+ " (press 'q' to quit)";
        "";
        "Welcome to AI Terminal!";
        "";
        "This is a comprehensive Linux terminal emulator with AI assistance.";
        "Supports 100+ Linux commands for file operations, networking, and system administration.";
        "";
        "[Press 'q' to quit, 'space' for next page]" ]) l
  else fail ((cmd c) +:+ ": " +:+ (show fileName) +:+ ": No such file or directory") l.

(** [lines] is computed in the source and never used. *)
Definition case_head : Handler := fun c l =>
  let fileName := arg c 1 in
  if negb (truthy fileName) then fail "head: missing file operand" l
  else if is_ fileName "readme.txt" then
    say (text
      [ "Welcome to AI Terminal!";
        "";
        "This is a comprehensive Linux terminal emulator with AI assistance.";
        "Supports 100+ Linux commands for file operations, networking, and system administration.";
        "";
        "Features:";
        "- File system operations";
        "- Network diagnostics";
        "- Text processing";
        "- System monitoring" ]) l
  else fail ("head: " +:+ (show fileName) +:+ ": No such file or directory") l.

Definition case_tail : Handler := fun c l =>
  let fileName := arg c 1 in
  if negb (truthy fileName) then fail "tail: missing file operand" l
  else if is_ fileName "/var/log/syslog" || has c "-f" then
    say (text
      [ "Jan 20 10:30:15 ai-terminal systemd[1]: Started AI Terminal Service";
        "Jan 20 10:30:16 ai-terminal kernel: [12345.678] AI Terminal: Neural engine initialized";
        "Jan 20 10:30:17 ai-terminal ai-terminal[1234]: Command prediction engine ready";
        "Jan 20 10:30:18 ai-terminal ai-terminal[1234]: Network diagnostics module loaded";
        "Jan 20 10:30:19 ai-terminal ai-terminal[1234]: File system monitor active";
        (if has c "-f" then nl +:+ "[Following log file - press Ctrl+C to stop]" else "") ]) l
  else fail ("tail: " +:+ (show fileName) +:+ ": No such file or directory") l.

Definition case_wc : Handler := fun c l =>
  let fileName := arg c 1 in
  if negb (truthy fileName) then fail "wc: missing file operand" l
  else if is_ fileName "readme.txt" then
    if has c "-l" then say "25 readme.txt" l
    else if has c "-w" then say "156 readme.txt" l
    else if has c "-c" then say "1024 readme.txt" l
    else say "  25  156 1024 readme.txt" l
  else fail ("wc: " +:+ (show fileName) +:+ ": No such file or directory") l.

Definition case_sort : Handler := fun c l =>
  let fileName := arg c 1 in
  if negb (truthy fileName) then fail "sort: missing file operand" l
  else say (text
    [ "apple";
      "banana";
      "cherry";
      "date";
      "fig";
      "grape" ]) l.

Definition case_uniq : Handler := fun c l =>
  let fileName := arg c 1 in
  if negb (truthy fileName) then fail "uniq: missing file operand" l
  else say (text
    [ "apple";
      "banana";
      "cherry" ]) l.

Definition case_cut : Handler := fun c l =>
  if has c "-d" && has c "-f" then say (text
    [ "user";
      "root";
      "daemon";
      "bin" ]) l
  else if has c "-c" then say (text
    [ "abcdefghij";
      "klmnopqrst";
      "uvwxyz1234" ]) l
  else fail "cut: you must specify a list of bytes, characters, or fields" l.

Definition case_tr : Handler := fun c l =>
  if Nat.ltb (length (args c)) 3 then fail "tr: missing operand" l
  else say "Character translation completed" l.

Definition case_sed : Handler := fun c l =>
  let fileName := lastArg c in
  if negb (truthy fileName) || Nat.ltb (length (args c)) 2 then
    fail "sed: missing script or file" l
  else say ("Text substitution completed on " +:+ (show fileName)) l.

Definition case_awk : Handler := fun c l =>
  let fileName := lastArg c in
  if negb (truthy fileName) || Nat.ltb (length (args c)) 2 then
    fail "awk: missing script or file" l
  else say (text
    [ "field1";
      "field2";
      "field3" ]) l.

Definition case_kill : Handler := fun c l =>
  let pid := arg c 1 in
  if negb (truthy pid) then fail "kill: missing process ID" l
  else say ("Process " +:+ (show pid) +:+ " terminated") l.

Definition case_killall : Handler := fun c l =>
  let processName := arg c 1 in
  if negb (truthy processName) then fail "killall: missing process name" l
  else say ("Killed all " +:+ (show processName) +:+ " processes") l.

Definition case_pgrep : Handler := fun c l =>
  let pattern := arg c 1 in
  if negb (truthy pattern) then fail "pgrep: missing pattern" l
  else say (text
    [ "1234";
      "1235";
      "1236" ]) l.

Definition case_pkill : Handler := fun c l =>
  let pattern := arg c 1 in
  if negb (truthy pattern) then fail "pkill: missing pattern" l
  else say ("Killed processes matching '" +:+ (show pattern) +:+ "'") l.

Definition case_jobs : Handler := fun c l =>
  say (text
    [ "[1]+  Running                 long-running-script &";
      "[2]-  Stopped                 vim document.txt" ]) l.

Definition case_bg : Handler := fun c l => say "[1]+ long-running-script &" l.

Definition case_fg : Handler := fun c l => say "vim document.txt" l.

Definition case_uptime : Handler := fun c l =>
  say " 10:30:15 up 2 days,  3:45,  2 users,  load average: 0.15, 0.25, 0.30" l.

Definition case_who : Handler := fun c l =>
  say (text
    [ "user     pts/0        2024-01-20 09:00 (192.168.1.100)";
      "root     tty1         2024-01-20 08:30" ]) l.

Definition case_w : Handler := fun c l =>
  say (text
    [ " 10:30:15 up 2 days,  3:45,  2 users,  load average: 0.15, 0.25, 0.30";
      "USER     TTY      FROM             LOGIN@   IDLE   JCPU   PCPU WHAT";
      "user     pts/0    192.168.1.100    09:00    0.00s  0.05s  0.01s w";
      "root     tty1     -                08:30    1:30m  0.02s  0.02s -bash" ]) l.

Definition case_last : Handler := fun c l =>
  say (text
    [ "user     pts/0        192.168.1.100    Sat Jan 20 09:00   still logged in";
      "user     pts/0        192.168.1.100    Fri Jan 19 14:30 - 18:45  (04:15)";
      "root     tty1                          Sat Jan 20 08:30   still logged in" ]) l.

Definition case_id : Handler := fun c l =>
  let user := or_else (arg c 1) "user" in
  say ("uid=1000(" +:+ user +:+ ") gid=1000(" +:+ user +:+ ") groups=1000(" +:+ user +:+ "),4(adm),24(cdrom),27(sudo),30(dip),46(plugdev),120(lpadmin),131(lxd),132(sambashare)") l.

Definition case_history : Handler := fun c l =>
  say (text
    [ "    1  ls -la";
      "    2  cd projects";
      "    3  find . -name " +:+ dq +:+ "*.txt" +:+ dq;
      "    4  grep -r " +:+ dq +:+ "pattern" +:+ dq +:+ " .";
      "    5  ps aux | grep python";
      "    6  netstat -tuln";
      "    7  ping google.com";
      "    8  history" ]) l.

Definition case_alias : Handler := fun c l =>
  if Nat.eqb (length (args c)) 1 then
    say (text
      [ "alias ll='ls -la'";
        "alias la='ls -A'";
        "alias l='ls -CF'";
        "alias ..='cd ..'";
        "alias grep='grep --color=auto'" ]) l
  else say ("Alias '" +:+ (show (arg c 1)) +:+ "' created") l.

Definition case_unalias : Handler := fun c l =>
  let aliasName := arg c 1 in
  if negb (truthy aliasName) then fail "unalias: missing alias name" l
  else say ("Alias '" +:+ (show aliasName) +:+ "' removed") l.

Definition case_type : Handler := fun c l =>
  let cmdName := arg c 1 in
  if negb (truthy cmdName) then fail "type: missing argument" l
  else say ((show cmdName) +:+ " is /usr/bin/" +:+ (show cmdName)) l.

Definition case_file : Handler := fun c l =>
  let fileName := arg c 1 in
  if negb (truthy fileName) then fail "file: missing file operand" l
  else if is_ fileName "readme.txt" then say "readme.txt: ASCII text" l
  else if is_ fileName "script.sh" then say "script.sh: Bourne-Again shell script, ASCII text executable" l
  else fail ((show fileName) +:+ ": cannot open (No such file or directory)") l.

Definition case_stat : Handler := fun c l =>
  let fileName := arg c 1 in
  if negb (truthy fileName) then fail "stat: missing file operand" l
  else if is_ fileName "readme.txt" then
    say (text
      [ "  File: readme.txt";
        "  Size: 1024      " +:+ tab +:+ "Blocks: 8          IO Block: 4096   regular file";
        "Device: 801h/2049d" +:+ tab +:+ "Inode: 123456      Links: 1";
        "Access: (0644/-rw-r--r--)  Uid: ( 1000/    user)   Gid: ( 1000/    user)";
        "Access: 2024-01-20 09:00:00.000000000 +0000";
        "Modify: 2024-01-20 08:30:00.000000000 +0000";
        "Change: 2024-01-20 08:30:00.000000000 +0000" ]) l
  else fail ("stat: cannot stat '" +:+ (show fileName) +:+ "': No such file or directory") l.

(** [split] never gives the empty array, so [parts[parts.length - 1]] is
    always a string. *)
Definition case_basename : Handler := fun c l =>
  let path := arg c 1 in
  if negb (truthy path) then fail "basename: missing operand" l
  else
    let parts := split "/" (show path) in
    say (default "" (last parts)) l.

Definition case_dirname : Handler := fun c l =>
  let path := arg c 1 in
  if negb (truthy path) then fail "dirname: missing operand" l
  else
    let parts := removelast (split "/" (show path)) in
    say (if nonempty (join "/" parts) then join "/" parts else "/") l.

Definition case_cal : Handler := fun c l =>
  if has c "-y" then
    say (text
      [ "                            2024";
        "      January               February               March";
        "Su Mo Tu We Th Fr Sa  Su Mo Tu We Th Fr Sa  Su Mo Tu We Th Fr Sa";
        "    1  2  3  4  5  6               1  2  3                  1  2";
        " 7  8  9 10 11 12 13   4  5  6  7  8  9 10   3  4  5  6  7  8  9";
        "14 15 16 17 18 19 20  11 12 13 14 15 16 17  10 11 12 13 14 15 16";
        "21 22 23 24 25 26 27  18 19 20 21 22 23 24  17 18 19 20 21 22 23";
        "28 29 30 31           25 26 27 28 29        24 25 26 27 28 29 30";
        "                                            31" ]) l
  else
    say (text
      [ "    January 2024";
        "Su Mo Tu We Th Fr Sa";
        "    1  2  3  4  5  6";
        " 7  8  9 10 11 12 13";
        "14 15 16 17 18 19 20";
        "21 22 23 24 25 26 27";
        "28 29 30 31" ]) l.

Definition case_gzip : Handler := fun c l =>
  let fileName := arg c 1 in
  if negb (truthy fileName) then fail "gzip: missing file operand" l
  else say ("File '" +:+ (show fileName) +:+ "' compressed to '" +:+ (show fileName) +:+ ".gz'") l.

Definition case_gunzip : Handler := fun c l =>
  let fileName := arg c 1 in
  if negb (truthy fileName) then fail "gunzip: missing file operand" l
  else say ("File '" +:+ (show fileName) +:+ "' decompressed") l.

Definition case_zip : Handler := fun c l =>
  let archive := arg c 1 in
  let files := drop 2 (args c) in
  if negb (truthy archive) || Nat.eqb (length files) 0 then fail "zip: missing archive name or files" l
  else say (text
    [ "  adding: " +:+ (join (nl +:+ "  adding: ") files);
      "Archive '" +:+ (show archive) +:+ "' created" ]) l.

Definition case_chgrp : Handler := fun c l =>
  let group := arg c 1 in
  let file := arg c 2 in
  if negb (truthy group) || negb (truthy file) then fail "chgrp: missing operand" l
  else say ("Group ownership of '" +:+ (show file) +:+ "' changed to '" +:+ (show group) +:+ "'") l.

Definition case_umask : Handler := fun c l =>
  if Nat.eqb (length (args c)) 1 then say "0022" l
  else say ("umask set to " +:+ (show (arg c 1))) l.

Definition case_watch : Handler := fun c l =>
  let watchCmd := join " " (drop 1 (args c)) in
  if negb (nonempty watchCmd) then fail "watch: missing command" l
  else say (text
    [ "Every 2.0s: " +:+ watchCmd;
      "";
      "[Command output would refresh here every 2 seconds]" ]) l.

Definition case_screen : Handler := fun c l =>
  say (text
    [ "Screen version 4.08.00 (GNU) 05-Feb-20";
      "";
      "Copyright (c) 2018-2020 Alexander Naumov, Amadeusz Slawinski";
      "Copyright (c) 2015-2017 Juergen Weigert, Alexander Naumov, Amadeusz Slawinski";
      "Copyright (c) 2010-2014 Juergen Weigert, Sadrul Habib Chowdhury";
      "";
      "Use 'screen -S session_name' to create a new session" ]) l.

Definition case_tmux : Handler := fun c l =>
  say (text
    [ "tmux 3.1c";
      "";
      "Usage: tmux [-2CluvV] [-c shell-command] [-f file] [-L socket-name]";
      "            [-S socket-path] [command [flags]]";
      "";
      "Use 'tmux new -s session' to create a new session" ]) l.

Definition case_xargs : Handler := fun c l =>
  if Nat.ltb (length (args c)) 2 then fail "xargs: missing command" l
  else say "xargs: executing command with piped input" l.

Definition case_tee : Handler := fun c l =>
  let fileName := arg c 1 in
  if negb (truthy fileName) then fail "tee: missing file operand" l
  else say ("Output written to both stdout and '" +:+ (show fileName) +:+ "'") l.

Definition case_help : Handler := fun c l =>
  say (text
    [ "AI Terminal - Linux Command Reference";
      "";
      "FILE SYSTEM:";
      "  ls [-la]         List directory contents";
      "  cd [dir]         Change directory  ";
      "  pwd              Print working directory";
      "  mkdir [dir]      Create directories";
      "  rmdir [dir]      Remove empty directories";
      "  rm [-rf] [file]  Remove files and directories";
      "  cp [-r] [src] [dst]  Copy files and directories";
      "  mv [src] [dst]   Move/rename files";
      "  find [path] [expr]   Search for files and directories";
      "  locate [pattern] Find files by name";
      "  which [cmd]      Locate command";
      "  touch [file]     Create empty files or update timestamps";
      "  ln [-s] [target] [link]  Create links";
      "";
      "TEXT PROCESSING:";
      "  cat [file]       Display file contents";
      "  less [file]      View file contents page by page";
      "  head [-n] [file] Display first lines of file";
      "  tail [-f] [file] Display last lines of file";
      "  grep [-r] [pattern] [file]  Search text patterns";
      "  sed [script] [file]  Stream editor for text";
      "  awk [pattern] [file]  Text processing tool";
      "  cut [-d] [-f] [file]  Extract columns from text";
      "  sort [-n] [file] Sort lines in text files";
      "  uniq [file]      Report or omit repeated lines";
      "  wc [-l] [file]   Word, line, character count";
      "  tr [set1] [set2] Translate or delete characters";
      "";
      "NETWORKING:";
      "  ping [-c] [host] Test connectivity";
      "  curl [-I] [url]  HTTP client";
      "  wget [url]       Download files from web";
      "  netstat [-tuln]  Display network connections";
      "  ss [-tuln]       Modern netstat replacement";
      "  traceroute [host]  Trace network path";
      "  nslookup [host]  DNS lookup utility";
      "  dig [host]       Advanced DNS lookup";
      "  host [host]      DNS lookup utility";
      "  lsof [-i] [port] List open files and connections";
      "  nc [host] [port] Netcat network utility";
      "  ssh [user@host]  Secure shell remote login";
      "  scp [src] [dst]  Secure copy over SSH";
      "";
      "PROCESS MANAGEMENT:";
      "  ps [aux]         Display running processes";
      "  top              Display processes (real-time)";
      "  htop             Interactive process viewer";
      "  kill [PID]       Terminate processes";
      "  killall [name]   Kill processes by name";
      "  pgrep [pattern]  Find process IDs by name";
      "  jobs             Display active jobs";
      "  bg [job]         Put job in background";
      "  fg [job]         Bring job to foreground";
      "";
      "SYSTEM INFO:";
      "  df [-h]          Display filesystem disk space";
      "  du [-sh] [dir]   Display directory space usage";
      "  free [-h]        Display memory usage";
      "  uptime           Show system uptime and load";
      "  uname [-a]       System information";
      "  lscpu            Display CPU information";
      "  lsblk            List block devices";
      "  mount            Display mounted filesystems";
      "  whoami           Display current username";
      "  who              Show logged in users";
      "  date             Display or set date";
      "";
      "PERMISSIONS:";
      "  chmod [mode] [file]  Change file permissions";
      "  chown [owner] [file] Change file ownership";
      "  chgrp [group] [file] Change group ownership";
      "";
      "ARCHIVES:";
      "  tar [-czf] [archive] [files]  Archive files";
      "  gzip [file]      Compress files";
      "  gunzip [file]    Decompress gzip files";
      "  zip [-r] [archive] [files]  Create zip archives";
      "  unzip [archive]  Extract zip archives";
      "";
      "PIPES & REDIRECTION:";
      "  |    Pipe output to next command";
      "  >    Redirect output to file (overwrite)";
      "  >>   Redirect output to file (append)";
      "  <    Redirect input from file";
      "  &&   Execute next if previous succeeds";
      "  ||   Execute next if previous fails";
      "";
      "COMMON COMBINATIONS:";
      "  ps aux | grep [process]";
      "  find . -name " +:+ dq +:+ "*.log" +:+ dq +:+ " | xargs grep " +:+ dq +:+ "error" +:+ dq;
      "  ls -la | grep " +:+ dq +:+ "^d" +:+ dq;
      "  netstat -tuln | grep :80";
      "  df -h | grep -v tmpfs";
      "";
      "Type 'help [command]' for detailed info about a specific command.";
      "AI assistance available - just ask for help with any task!" ]) l.

Definition case_nc : Handler := fun c l =>
  let host_ := arg c 1 in
  let port := arg c 2 in
  if has c "-l" then say ("Listening on port " +:+ (or_else port "8080")) l
  else if negb (truthy host_) || negb (truthy port) then fail "nc: missing host or port" l
  else say ("Connected to " +:+ (show host_) +:+ " port " +:+ (show port)) l.

Definition case_telnet : Handler := fun c l =>
  let host_ := arg c 1 in
  if negb (truthy host_) then fail "telnet: missing host" l
  else say (text
    [ "Trying " +:+ (show host_) +:+ "...";
      "Connected to " +:+ (show host_) +:+ ".";
      "Escape character is '^]'." ]) l.

Definition case_ssh : Handler := fun c l =>
  let target := arg c 1 in
  if negb (truthy target) then fail "ssh: missing destination" l
  else say (text
    [ "Connecting to " +:+ (show target) +:+ "...";
      "Connection established." ]) l.

Definition case_scp : Handler := fun c l =>
  let source := arg c 1 in
  let dest := arg c 2 in
  if negb (truthy source) || negb (truthy dest) then fail "scp: missing source or destination" l
  else say (text
    [ (show source) +:+ " -> " +:+ (show dest);
      "File transfer completed." ]) l.

Definition case_rsync : Handler := fun c l =>
  let source := arg c 1 in
  let dest := arg c 2 in
  if negb (truthy source) || negb (truthy dest) then fail "rsync: missing source or destination" l
  else say (text
    [ "sending incremental file list";
      (show source);
      "";
      "sent 1,024 bytes  received 35 bytes  2,118.00 bytes/sec";
      "total size is 1,024  speedup is 0.97" ]) l.

Definition case_arp : Handler := fun c l =>
  if has c "-a" then
    say (text
      [ "? (192.168.1.1) at aa:bb:cc:dd:ee:ff [ether] on eth0";
        "? (192.168.1.100) at 11:22:33:44:55:66 [ether] on eth0";
        "? (192.168.1.254) at ff:ee:dd:cc:bb:aa [ether] on eth0" ]) l
  else
    say (text
      [ "Address                  HWtype  HWaddress           Flags Mask            Iface";
        "192.168.1.1              ether   aa:bb:cc:dd:ee:ff   C                     eth0";
        "192.168.1.254            ether   ff:ee:dd:cc:bb:aa   C                     eth0" ]) l.

Definition case_route : Handler := fun c l =>
  if has c "-n" then
    say (text
      [ "Kernel IP routing table";
        "Destination     Gateway         Genmask         Flags Metric Ref    Use Iface";
        "0.0.0.0         192.168.1.1     0.0.0.0         UG    100    0        0 eth0";
        "192.168.1.0     0.0.0.0         255.255.255.0   U     100    0        0 eth0" ]) l
  else
    say (text
      [ "Kernel IP routing table";
        "Destination     Gateway         Genmask         Flags Metric Ref    Use Iface";
        "default         gateway         0.0.0.0         UG    100    0        0 eth0";
        "192.168.1.0     0.0.0.0         255.255.255.0   U     100    0        0 eth0" ]) l.

Definition case_ip : Handler := fun c l =>
  if has c "addr" then
    say (text
      [ "1: lo: <LOOPBACK,UP,LOWER_UP> mtu 65536 qdisc noqueue state UNKNOWN group default qlen 1000";
        "    link/loopback 00:00:00:00:00:00 brd 00:00:00:00:00:00";
        "    inet 127.0.0.1/8 scope host lo";
        "2: eth0: <BROADCAST,MULTICAST,UP,LOWER_UP> mtu 1500 qdisc pfifo_fast state UP group default qlen 1000";
        "    link/ether 11:22:33:44:55:66 brd ff:ff:ff:ff:ff:ff";
        "    inet 192.168.1.100/24 brd 192.168.1.255 scope global dynamic eth0" ]) l
  else if has c "route" then
    say (text
      [ "default via 192.168.1.1 dev eth0 proto dhcp metric 100";
        "192.168.1.0/24 dev eth0 proto kernel scope link src 192.168.1.100 metric 100" ]) l
  else if has c "link" then
    say (text
      [ "1: lo: <LOOPBACK,UP,LOWER_UP> mtu 65536 qdisc noqueue state UNKNOWN mode DEFAULT group default qlen 1000";
        "    link/loopback 00:00:00:00:00:00 brd 00:00:00:00:00:00";
        "2: eth0: <BROADCAST,MULTICAST,UP,LOWER_UP> mtu 1500 qdisc pfifo_fast state UP mode DEFAULT group default qlen 1000";
        "    link/ether 11:22:33:44:55:66 brd ff:ff:ff:ff:ff:ff" ]) l
  else fail ("ip: missing command. Try " +:+ dq +:+ "ip addr" +:+ dq +:+ ", " +:+ dq +:+ "ip route" +:+ dq +:+ ", or " +:+ dq +:+ "ip link" +:+ dq) l.

Definition case_ifconfig : Handler := fun c l =>
  let interfaceName := arg c 1 in
  if truthy interfaceName then
    say (text
      [ (show interfaceName) +:+ ": flags=4163<UP,BROADCAST,RUNNING,MULTICAST>  mtu 1500";
        "        inet 192.168.1.100  netmask 255.255.255.0  broadcast 192.168.1.255";
        "        ether 11:22:33:44:55:66  txqueuelen 1000  (Ethernet)";
        "        RX packets 12345  bytes 1234567 (1.2 MB)";
        "        TX packets 6789  bytes 987654 (987.6 KB)" ]) l
  else
    say (text
      [ "eth0: flags=4163<UP,BROADCAST,RUNNING,MULTICAST>  mtu 1500";
        "        inet 192.168.1.100  netmask 255.255.255.0  broadcast 192.168.1.255";
        "        ether 11:22:33:44:55:66  txqueuelen 1000  (Ethernet)";
        "";
        "lo: flags=73<UP,LOOPBACK,RUNNING>  mtu 65536";
        "        inet 127.0.0.1  netmask 255.0.0.0";
        "        loop  txqueuelen 1000  (Local Loopback)" ]) l.

Definition case_iwconfig : Handler := fun c l =>
  say (text
    [ "wlan0     IEEE 802.11  ESSID:" +:+ dq +:+ "MyNetwork" +:+ dq;
      "          Mode:Managed  Frequency:2.437 GHz  Access Point: AA:BB:CC:DD:EE:FF";
      "          Bit Rate=54 Mb/s   Tx-Power=20 dBm";
      "          Retry short limit:7   RTS thr:off   Fragment thr:off";
      "          Power Management:on";
      "          Link Quality=70/70  Signal level=-40 dBm";
      "          Rx invalid nwid:0  Rx invalid crypt:0  Rx invalid frag:0" ]) l.

Definition case_host : Handler := fun c l =>
  let hostname := arg c 1 in
  if negb (truthy hostname) then fail "host: missing hostname" l
  else say (text
    [ (show hostname) +:+ " has address 142.250.191.14";
      (show hostname) +:+ " has IPv6 address 2607:f8b0:4004:c1b::65";
      (show hostname) +:+ " mail is handled by 10 smtp." +:+ (show hostname) +:+ "." ]) l.

Definition case_tracepath : Handler := fun c l =>
  let host_ := or_else (arg c 1) "google.com" in
  say (text
    [ "tracepath to " +:+ host_ +:+ " (142.250.191.14), 30 hops max";
      " 1:  192.168.1.1                                           1.234ms";
      " 2:  10.0.0.1                                             5.678ms";
      " 3:  203.0.113.1                                         12.345ms";
      " 4:  no reply";
      " 5:  142.250.191.14                                      15.678ms reached" ]) l.

Definition case_lsusb : Handler := fun c l =>
  if has c "-v" then
    say (text
      [ "Bus 001 Device 001: ID 1d6b:0002 Linux Foundation 2.0 root hub";
        "Device Descriptor:";
        "  bLength                18";
        "  bDescriptorType         1";
        "  bcdUSB               2.00" ]) l
  else
    say (text
      [ "Bus 001 Device 001: ID 1d6b:0002 Linux Foundation 2.0 root hub";
        "Bus 001 Device 002: ID 8087:0024 Intel Corp. Integrated Rate Matching Hub";
        "Bus 001 Device 003: ID 046d:c52b Logitech, Inc. Unifying Receiver" ]) l.

Definition case_lspci : Handler := fun c l =>
  if has c "-v" then
    say (text
      [ "00:00.0 Host bridge: Intel Corporation Device 1234";
        tab +:+ "Subsystem: Intel Corporation Device 5678";
        tab +:+ "Flags: bus master, fast devsel, latency 0" ]) l
  else
    say (text
      [ "00:00.0 Host bridge: Intel Corporation Device 1234";
        "00:02.0 VGA compatible controller: Intel Corporation Device 5678";
        "00:1f.0 ISA bridge: Intel Corporation Device 9abc" ]) l.

Definition case_mount : Handler := fun c l =>
  if Nat.eqb (length (args c)) 1 then
    say (text
      [ "/dev/sda1 on / type ext4 (rw,relatime)";
        "/dev/sda2 on /home type ext4 (rw,relatime)";
        "tmpfs on /tmp type tmpfs (rw,nosuid,nodev)";
        "proc on /proc type proc (rw,nosuid,nodev,noexec,relatime)" ]) l
  else
    let device := arg c 1 in
    let mountpoint := arg c 2 in
    say ("Mounted " +:+ (show device) +:+ " on " +:+ (show mountpoint)) l.

Definition case_umount : Handler := fun c l =>
  let mountpoint := arg c 1 in
  if negb (truthy mountpoint) then fail "umount: missing mountpoint" l
  else say ("Unmounted " +:+ (show mountpoint)) l.

Definition case_nohup : Handler := fun c l =>
  let command := join " " (drop 1 (args c)) in
  if negb (nonempty command) then fail "nohup: missing command" l
  else say (text
    [ "nohup: ignoring input and appending output to 'nohup.out'";
      "[1] 12345" ]) l.

(** The [default:] branch. *)
Definition case_default : Handler := fun c l =>
  Normal {| output := (text
    [ (cmd c) +:+ ": command not found";
      "";
      "Try 'help' to see available commands or ask the AI assistant for guidance!" ]);
            exitCode := 127;
            newDirectory := newDirectory l |}.

(** The [case] labels of the [switch], in source order, each with its
    body; [switch] compares with [===]. *)
Definition cases : list (string * Handler) :=
  [ ("ls", case_ls); ("pwd", case_pwd); ("cd", case_cd); ("cat", case_cat);
    ("ping", case_ping); ("curl", case_curl); ("wget", case_wget);
    ("netstat", case_netstat); ("ss", case_ss);
    ("traceroute", case_traceroute); ("nslookup", case_nslookup);
    ("dig", case_dig); ("ps", case_ps); ("df", case_df); ("du", case_du);
    ("free", case_free); ("lsof", case_lsof); ("whoami", case_whoami);
    ("date", case_date); ("uname", case_uname); ("lscpu", case_lscpu);
    ("echo", case_echo); ("find", case_find); ("grep", case_grep);
    ("clear", case_clear); ("mkdir", case_mkdir); ("rmdir", case_rmdir);
    ("rm", case_rm); ("cp", case_cp); ("mv", case_mv);
    ("touch", case_touch); ("ln", case_ln); ("which", case_which);
    ("whereis", case_whereis); ("locate", case_locate);
    ("less", case_less_more); ("more", case_less_more);
    ("head", case_head); ("tail", case_tail); ("wc", case_wc);
    ("sort", case_sort); ("uniq", case_uniq); ("cut", case_cut);
    ("tr", case_tr); ("sed", case_sed); ("awk", case_awk);
    ("kill", case_kill); ("killall", case_killall);
    ("pgrep", case_pgrep); ("pkill", case_pkill); ("jobs", case_jobs);
    ("bg", case_bg); ("fg", case_fg); ("uptime", case_uptime);
    ("who", case_who); ("w", case_w); ("last", case_last); ("id", case_id);
    ("history", case_history); ("alias", case_alias);
    ("unalias", case_unalias); ("type", case_type); ("file", case_file);
    ("stat", case_stat); ("basename", case_basename);
    ("dirname", case_dirname); ("cal", case_cal); ("gzip", case_gzip);
    ("gunzip", case_gunzip); ("zip", case_zip); ("chgrp", case_chgrp);
    ("umask", case_umask); ("watch", case_watch); ("screen", case_screen);
    ("tmux", case_tmux); ("xargs", case_xargs); ("tee", case_tee);
    ("help", case_help); ("nc", case_nc); ("telnet", case_telnet);
    ("ssh", case_ssh); ("scp", case_scp); ("rsync", case_rsync);
    ("arp", case_arp); ("route", case_route); ("ip", case_ip);
    ("ifconfig", case_ifconfig); ("iwconfig", case_iwconfig);
    ("host", case_host); ("tracepath", case_tracepath);
    ("lsusb", case_lsusb); ("lspci", case_lspci); ("mount", case_mount);
    ("umount", case_umount); ("nohup", case_nohup) ].

(** [switch cmd]: the body of the first label equal to [cmd], else the
    default branch. *)
Definition dispatch (name : string) : Handler :=
  match List.find (fun entry => String.eqb (fst entry) name) cases with
  | Some entry => snd entry
  | None => case_default
  end.

(** [try { switch ... } catch error { ... }] *)
Definition try_catch (h : Host) (r : Completion) : Locals :=
  match r with
  | Normal l => l
  | Throw e l =>
      {| output := ("Error executing command: " +:+ (errorToString h e));
         exitCode := 1;
         newDirectory := newDirectory l |}
  end.

(** [executeCommand]: the record it resolves to, and the state after its
    last [setState].  The first clock reading is [Date.now()], the second
    [new Date()]; the first draw is the one of the simulated delay.  A
    command runs to completion in one step: the component submits nothing
    while [isExecuting] holds, so the state the closure read is the state
    the last [setState] updates. *)
Definition executeCommand (h : Host) (e : Env) (state : TerminalState.t)
    (command : string) : TerminalCommand.t * TerminalState.t :=
  let commandId := decimal (clock e 0) in
  let timestamp := clock e 1 in
  let init := {| output := ""; exitCode := 0;
                 newDirectory := currentDirectory state |} in
  let args := split " " (trim command) in
  let cmd := default "" (head args) in
  let c := {| host := h; env := e; state := state; cmd := cmd; args := args |} in
  let fin := try_catch h (dispatch cmd c init) in
  let terminalCommand :=
    TerminalCommand.mk commandId command (output fin) timestamp
      (exitCode fin) (currentDirectory state) in
  (terminalCommand,
   TerminalState.mk (newDirectory fin) (history state ++ [terminalCommand])
     (fileSystem state) false).

(** [clearHistory] *)
Definition clearHistory (state : TerminalState.t) : TerminalState.t :=
  TerminalState.mk (currentDirectory state) [] (fileSystem state)
    (isExecuting state).

(** [handleSubmit] of the terminal component: the state it leaves. *)
Definition handleSubmit (h : Host) (e : Env) (state : TerminalState.t)
    (currentCommand : string) : TerminalState.t :=
  if negb (nonempty (trim currentCommand)) || isExecuting state then state
  else
    let command := trim currentCommand in
    if String.eqb command "clear" then clearHistory state
    else snd (executeCommand h e state command).

(** [mockFileSystem] *)
Definition dir (n : string) : FileSystemItem.t :=
  FileSystemItem.mk n FileSystemItem.directory None (Some "drwxr-xr-x") None.
Definition reg (n : string) (sz : N) (perm : string) : FileSystemItem.t :=
  FileSystemItem.mk n FileSystemItem.file (Some sz) (Some perm) None.

Definition mockFileSystem : gmap string (list FileSystemItem.t) :=
  list_to_map
    [ ("/", [dir "home"; dir "etc"; dir "var"; dir "usr"; dir "bin"]);
      ("/home", [dir "user"; dir "guest"]);
      ("/home/user",
       [dir "documents"; dir "downloads"; dir "projects";
        reg ".bashrc" 3423 "-rw-r--r--"; reg "readme.txt" 1024 "-rw-r--r--"]);
      ("/home/user/projects",
       [dir "ai-terminal"; dir "web-app"; reg "script.sh" 512 "-rwxr-xr-x"]) ].

(** The state [useState] starts from. *)
Definition initialState : TerminalState.t :=
  TerminalState.mk "/home/user" [] mockFileSystem false.

End Executor.

(** ** Notions the properties are stated with *)

Module Notions.
Import JS Predictor Executor.

(** An entry is eligible for [input] when its key extends it properly. *)
Definition extends (input : string) (entry : string * string) : Prop :=
  startsWith (fst entry) input = true /\ fst entry <> input.

(** The reading under which the key is a prefix of the input instead. *)
Definition key_prefix (input : string) (entry : string * string) : Prop :=
  startsWith input (toLowerCase (fst entry)) = true /\ fst entry <> input.

(** "The first suggestion whose key qualifies, none if no key does". *)
Definition first_such (qualifies : string * string -> Prop)
    (result : option string) : Prop :=
  match result with
  | Some suggestion =>
      exists before pattern after,
        workflowPatterns = before ++ (pattern, suggestion) :: after /\
        qualifies (pattern, suggestion) /\
        Forall (fun entry => ~ qualifies entry) before
  | None => Forall (fun entry => ~ qualifies entry) workflowPatterns
  end.

(** The completions the rules on the last command can produce from an
    input that is not [git]. *)
Definition context_completions : list string :=
  [ "traceroute google.com"; "nslookup google.com";
    "grep -r " +:+ dq +:+ "pattern" +:+ dq +:+ " ." ].

(** A record of the history, as far as the predictor reads it. *)
Definition ran (command : string) : TerminalCommand.t :=
  TerminalCommand.mk "1700000000000" command "" 1700000000000 0 "/home/user".

(** The tokens of a raw line, and the command name among them. *)
Definition tokens (command : string) : list string :=
  split " " (trim command).

(** [args[0]] *)
Definition commandName (command : string) : string :=
  default "" (head (tokens command)).

(** The record an execution resolves to, and the state it leaves. *)
Definition record_of (h : Host) (e : Env) (st : TerminalState.t)
    (command : string) : TerminalCommand.t :=
  fst (executeCommand h e st command).

Definition state_after (h : Host) (e : Env) (st : TerminalState.t)
    (command : string) : TerminalState.t :=
  snd (executeCommand h e st command).

(** The labels of the [switch]. *)
Definition handlerNames : list string := fst <$> cases.

(** The commands that show or describe the content of a file. *)
Definition contentCommands : list string :=
  [ "cat"; "head"; "tail"; "less"; "more"; "wc"; "stat"; "file" ].

(** The file names each content command knows: [cat] the readme and the
    dotfile; [file] the readme and the script; [tail] the system log, or
    any name once [-f] is among the tokens; the others the readme only. *)
Definition recognizes (name : string) (argv : list string)
    (fileName : string) : bool :=
  if String.eqb name "cat" then
    String.eqb fileName "readme.txt" || String.eqb fileName ".bashrc"
  else if String.eqb name "file" then
    String.eqb fileName "readme.txt" || String.eqb fileName "script.sh"
  else if String.eqb name "tail" then
    String.eqb fileName "/var/log/syslog" || mem "-f" argv
  else String.eqb fileName "readme.txt".

(** The segments of a path: what lies between its slashes. *)
Definition segments (path : string) : list string :=
  List.filter nonempty (split "/" path).

(** A relative target, appended to the current directory. *)
Definition append_path (cwd target : string) : string :=
  if String.eqb cwd "/" then "/" +:+ target else cwd +:+ "/" +:+ target.

(** The target of [cd], in the words of the specification: no argument
    (or an empty one) and [~] are the home directory, [..] is the path
    without its last segment, a target with a leading slash is taken as it
    is, any other target is appended to the current directory. *)
Inductive cd_target (cwd : string) : option string -> string -> Prop :=
| cd_home_absent : cd_target cwd None "/home/user"
| cd_home_empty : cd_target cwd (Some "") "/home/user"
| cd_home_tilde : cd_target cwd (Some "~") "/home/user"
| cd_parent :
    cd_target cwd (Some "..") ("/" +:+ join "/" (removelast (segments cwd)))
| cd_absolute target :
    startsWith target "/" = true -> cd_target cwd (Some target) target
| cd_relative target :
    target <> "" -> target <> "~" -> target <> ".." ->
    startsWith target "/" = false ->
    cd_target cwd (Some target) (append_path cwd target).

(** The locals a completion carries, normal or not. *)
Definition locals_of (r : Completion) : Locals :=
  match r with Normal l => l | Throw _ l => l end.

(** A handler that never assigns [newDirectory]. *)
Definition keeps_directory (handler : Handler) : Prop :=
  forall c l, newDirectory (locals_of (handler c l)) = newDirectory l.

(** Two environments that give the same readings and the same draws. *)
Definition agree (e1 e2 : Env) : Prop :=
  (forall k, clock e1 k = clock e2 k) /\ (forall k, random e1 k = random e2 k).

(** A handler that reads the environment through its readings only. *)
Definition reads_only (handler : Handler) : Prop :=
  forall h e1 e2 st name argv l,
    agree e1 e2 ->
    handler {| host := h; env := e1; state := st; cmd := name; args := argv |} l
    = handler {| host := h; env := e2; state := st; cmd := name; args := argv |} l.

(** What a content command leaves, given the tokens after its name: a
    usage error without a file name, success on a file it knows, a
    not-found error on any other. *)
Definition content_outcome (name : string) (rest : list string)
    (out : string) (code : Z) : Prop :=
  match rest with
  | fileName :: _ =>
      if nonempty fileName then
        if recognizes name (name :: rest) fileName then code = 0
        else code = 1 /\ includes out "No such file or directory" = true
      else out = name +:+ ": missing file operand" /\ code = 1
  | [] => out = name +:+ ": missing file operand" /\ code = 1
  end.

(** A handler that behaves so when [executeCommand] calls it under [name]. *)
Definition content_handler_ok (name : string) (handler : Handler) : Prop :=
  forall h e st rest,
    let l := try_catch h (handler
      {| host := h; env := e; state := st; cmd := name; args := name :: rest |}
      {| output := ""; exitCode := 0;
         newDirectory := TerminalState.currentDirectory st |}) in
    content_outcome name rest (output l) (exitCode l).

(** A host and an environment to evaluate examples with. *)
Definition sampleHost : Host :=
  {| toLocaleDateString := fun _ => "1/20/2024";
     toUTCString := fun _ => "Sat, 20 Jan 2024 09:00:00 GMT";
     toISOString := fun _ => "2024-01-20T09:00:00.000Z";
     dateToString := fun _ => "Sat Jan 20 2024 09:00:00 GMT+0000";
     scaledFixed3 := fun _ b _ => decimal b +:+ ".500";
     numberToString := fun _ => "1e+23";
     errorToString := fun error =>
       match error with
       | NotAFunction => "TypeError: items.map is not a function"
       | InvalidArrayLength => "RangeError: Invalid array length"
       end |}.

Definition sampleEnv : Env :=
  {| clock := fun k => 1705741200000 + Z.of_nat k;
     random := fun k => N.of_nat k |}.

(** The same readings and draws, computed another way. *)
Definition sampleEnv' : Env :=
  {| clock := fun k => Z.of_nat k + 1705741200000;
     random := fun k => N.of_nat (k + 0) |}.

End Notions.

(** ** The command registry *)

Module CommandInfo.
Record t := mk {
  name : string;
  description : string;
  category : string;
  usage : string;
  examples : list string;
}.
End CommandInfo.

Module Commands.
Import JS.

(** [LINUX_COMMANDS], in the order [Object.values] lists it. *)
Definition LINUX_COMMANDS : list (string * CommandInfo.t) :=
[ ("ls",
   CommandInfo.mk "ls" "List directory contents" "file"
     "ls [options] [directory]"
     ["ls -la"; "ls -lh"; "ls -R"]);
  ("cd",
   CommandInfo.mk "cd" "Change directory" "file"
     "cd [directory]"
     ["cd /home"; "cd .."; "cd ~"]);
  ("pwd",
   CommandInfo.mk "pwd" "Print working directory" "file"
     "pwd"
     ["pwd"]);
  ("mkdir",
   CommandInfo.mk "mkdir" "Create directories" "file"
     "mkdir [options] directory"
     ["mkdir newdir"; "mkdir -p path/to/dir"]);
  ("rmdir",
   CommandInfo.mk "rmdir" "Remove empty directories" "file"
     "rmdir directory"
     ["rmdir emptydir"]);
  ("rm",
   CommandInfo.mk "rm" "Remove files and directories" "file"
     "rm [options] file"
     ["rm file.txt"; "rm -rf directory"; "rm -i file.txt"]);
  ("cp",
   CommandInfo.mk "cp" "Copy files and directories" "file"
     "cp [options] source destination"
     ["cp file.txt backup.txt"; "cp -r dir1 dir2"]);
  ("mv",
   CommandInfo.mk "mv" "Move/rename files and directories" "file"
     "mv source destination"
     ["mv old.txt new.txt"; "mv file.txt /home/user/"]);
  ("ln",
   CommandInfo.mk "ln" "Create links between files" "file"
     "ln [options] target linkname"
     ["ln -s /path/to/file symlink"; "ln file hardlink"]);
  ("find",
   CommandInfo.mk "find" "Search for files and directories" "search"
     "find [path] [expression]"
     [("find . -name " +:+ dq +:+ "*.txt" +:+ dq); "find /home -type f -size +1M"; "find . -mtime -7"]);
  ("locate",
   CommandInfo.mk "locate" "Find files by name (database)" "search"
     "locate pattern"
     ["locate filename"; ("locate " +:+ dq +:+ "*.conf" +:+ dq)]);
  ("which",
   CommandInfo.mk "which" "Locate command" "search"
     "which command"
     ["which python"; "which ls"]);
  ("whereis",
   CommandInfo.mk "whereis" "Locate binary, source, manual" "search"
     "whereis command"
     ["whereis ls"; "whereis python"]);
  ("cat",
   CommandInfo.mk "cat" "Display file contents" "text"
     "cat [options] file"
     ["cat file.txt"; "cat -n file.txt"]);
  ("less",
   CommandInfo.mk "less" "View file contents page by page" "text"
     "less file"
     ["less file.txt"; "less +G file.txt"]);
  ("more",
   CommandInfo.mk "more" "View file contents page by page" "text"
     "more file"
     ["more file.txt"]);
  ("head",
   CommandInfo.mk "head" "Display first lines of file" "text"
     "head [options] file"
     ["head file.txt"; "head -n 20 file.txt"]);
  ("tail",
   CommandInfo.mk "tail" "Display last lines of file" "text"
     "tail [options] file"
     ["tail file.txt"; "tail -f /var/log/syslog"; "tail -n 50 file.txt"]);
  ("grep",
   CommandInfo.mk "grep" "Search text patterns in files" "search"
     "grep [options] pattern [file]"
     [("grep " +:+ dq +:+ "pattern" +:+ dq +:+ " file.txt"); ("grep -r " +:+ dq +:+ "text" +:+ dq +:+ " ."); ("grep -i " +:+ dq +:+ "case" +:+ dq +:+ " file.txt")]);
  ("egrep",
   CommandInfo.mk "egrep" "Extended grep with regex" "search"
     "egrep pattern file"
     [("egrep " +:+ dq +:+ "pattern1|pattern2" +:+ dq +:+ " file.txt")]);
  ("fgrep",
   CommandInfo.mk "fgrep" "Fixed string grep" "search"
     "fgrep string file"
     [("fgrep " +:+ dq +:+ "exact string" +:+ dq +:+ " file.txt")]);
  ("sed",
   CommandInfo.mk "sed" "Stream editor for filtering and transforming text" "text"
     "sed [options] script [file]"
     [("sed " +:+ dq +:+ "s/old/new/g" +:+ dq +:+ " file.txt"); ("sed -n " +:+ dq +:+ "1,5p" +:+ dq +:+ " file.txt")]);
  ("awk",
   CommandInfo.mk "awk" "Text processing tool" "text"
     "awk pattern { action } file"
     [("awk " +:+ dq +:+ "{print $1}" +:+ dq +:+ " file.txt"); ("awk " +:+ dq +:+ "/pattern/ {print}" +:+ dq +:+ " file.txt")]);
  ("cut",
   CommandInfo.mk "cut" "Extract columns from text" "text"
     "cut [options] file"
     [("cut -d" +:+ dq +:+ ":" +:+ dq +:+ " -f1 /etc/passwd"); "cut -c1-10 file.txt"]);
  ("sort",
   CommandInfo.mk "sort" "Sort lines in text files" "text"
     "sort [options] file"
     ["sort file.txt"; "sort -n numbers.txt"; "sort -r file.txt"]);
  ("uniq",
   CommandInfo.mk "uniq" "Report or omit repeated lines" "text"
     "uniq [options] file"
     ["uniq file.txt"; "sort file.txt | uniq -c"]);
  ("wc",
   CommandInfo.mk "wc" "Word, line, character, and byte count" "text"
     "wc [options] file"
     ["wc file.txt"; "wc -l file.txt"; "wc -w file.txt"]);
  ("tr",
   CommandInfo.mk "tr" "Translate or delete characters" "text"
     "tr [options] set1 [set2]"
     [("tr " +:+ dq +:+ "a-z" +:+ dq +:+ " " +:+ dq +:+ "A-Z" +:+ dq); ("tr -d " +:+ dq +:+ "0-9" +:+ dq)]);
  ("ping",
   CommandInfo.mk "ping" "Send ICMP echo requests" "network"
     "ping [options] host"
     ["ping google.com"; "ping -c 4 8.8.8.8"; "ping6 ipv6.google.com"]);
  ("curl",
   CommandInfo.mk "curl" "Transfer data from/to servers" "network"
     "curl [options] URL"
     ["curl https://api.github.com"; "curl -I https://google.com"; ("curl -X POST -d " +:+ dq +:+ "data" +:+ dq +:+ " url")]);
  ("wget",
   CommandInfo.mk "wget" "Download files from web" "network"
     "wget [options] URL"
     ["wget https://example.com/file.zip"; "wget -r https://site.com"]);
  ("netstat",
   CommandInfo.mk "netstat" "Display network connections" "network"
     "netstat [options]"
     ["netstat -tuln"; "netstat -an"; "netstat -r"]);
  ("ss",
   CommandInfo.mk "ss" "Modern netstat replacement" "network"
     "ss [options]"
     ["ss -tuln"; "ss -an"; "ss -s"]);
  ("traceroute",
   CommandInfo.mk "traceroute" "Trace network path to destination" "network"
     "traceroute host"
     ["traceroute google.com"; "traceroute -n 8.8.8.8"]);
  ("tracepath",
   CommandInfo.mk "tracepath" "Trace network path (no root required)" "network"
     "tracepath host"
     ["tracepath google.com"]);
  ("nslookup",
   CommandInfo.mk "nslookup" "DNS lookup utility" "network"
     "nslookup [host] [server]"
     ["nslookup google.com"; "nslookup google.com 8.8.8.8"]);
  ("dig",
   CommandInfo.mk "dig" "Advanced DNS lookup tool" "network"
     "dig [options] host [type]"
     ["dig google.com"; "dig @8.8.8.8 google.com MX"; "dig +short google.com"]);
  ("host",
   CommandInfo.mk "host" "DNS lookup utility" "network"
     "host [options] host [server]"
     ["host google.com"; "host -t MX google.com"]);
  ("arp",
   CommandInfo.mk "arp" "Display/modify ARP table" "network"
     "arp [options]"
     ["arp -a"; "arp -n"]);
  ("route",
   CommandInfo.mk "route" "Display/modify routing table" "network"
     "route [options]"
     ["route -n"; "route add default gw 192.168.1.1"]);
  ("ip",
   CommandInfo.mk "ip" "Show/manipulate routing, devices" "network"
     "ip [options] object command"
     ["ip addr show"; "ip route show"; "ip link show"]);
  ("ifconfig",
   CommandInfo.mk "ifconfig" "Configure network interface" "network"
     "ifconfig [interface] [options]"
     ["ifconfig"; "ifconfig eth0"; "ifconfig eth0 up"]);
  ("iwconfig",
   CommandInfo.mk "iwconfig" "Configure wireless interface" "network"
     "iwconfig [interface] [options]"
     ["iwconfig"; "iwconfig wlan0"]);
  ("lsof",
   CommandInfo.mk "lsof" "List open files and network connections" "network"
     "lsof [options]"
     ["lsof -i :80"; "lsof -u user"; "lsof /path/to/file"]);
  ("nc",
   CommandInfo.mk "nc" "Netcat - network utility" "network"
     "nc [options] host port"
     ["nc -l 8080"; "nc google.com 80"; "nc -z host 20-30"]);
  ("telnet",
   CommandInfo.mk "telnet" "Connect to remote host" "network"
     "telnet host [port]"
     ["telnet google.com 80"; "telnet 192.168.1.1"]);
  ("ssh",
   CommandInfo.mk "ssh" "Secure shell remote login" "network"
     "ssh [options] user@host"
     ["ssh user@server.com"; "ssh -p 2222 user@host"]);
  ("scp",
   CommandInfo.mk "scp" "Secure copy over SSH" "network"
     "scp [options] source destination"
     ["scp file.txt user@host:/path/"; "scp -r dir/ user@host:/path/"]);
  ("rsync",
   CommandInfo.mk "rsync" "Synchronize files/directories" "network"
     "rsync [options] source destination"
     ["rsync -av dir/ user@host:/backup/"; "rsync -az --delete src/ dst/"]);
  ("ps",
   CommandInfo.mk "ps" "Display running processes" "process"
     "ps [options]"
     ["ps aux"; "ps -ef"; "ps -u user"]);
  ("top",
   CommandInfo.mk "top" "Display running processes (real-time)" "process"
     "top [options]"
     ["top"; "top -u user"; "top -p PID"]);
  ("htop",
   CommandInfo.mk "htop" "Interactive process viewer" "process"
     "htop [options]"
     ["htop"; "htop -u user"]);
  ("kill",
   CommandInfo.mk "kill" "Terminate processes" "process"
     "kill [signal] PID"
     ["kill 1234"; "kill -9 1234"; "kill -TERM 1234"]);
  ("killall",
   CommandInfo.mk "killall" "Kill processes by name" "process"
     "killall [options] name"
     ["killall firefox"; "killall -9 chrome"]);
  ("pgrep",
   CommandInfo.mk "pgrep" "Find process IDs by name" "process"
     "pgrep [options] pattern"
     ["pgrep firefox"; "pgrep -u user python"]);
  ("pkill",
   CommandInfo.mk "pkill" "Kill processes by name" "process"
     "pkill [options] pattern"
     ["pkill firefox"; "pkill -u user python"]);
  ("jobs",
   CommandInfo.mk "jobs" "Display active jobs" "process"
     "jobs [options]"
     ["jobs"; "jobs -l"]);
  ("bg",
   CommandInfo.mk "bg" "Put job in background" "process"
     "bg [job]"
     ["bg"; "bg %1"]);
  ("fg",
   CommandInfo.mk "fg" "Bring job to foreground" "process"
     "fg [job]"
     ["fg"; "fg %1"]);
  ("nohup",
   CommandInfo.mk "nohup" "Run command immune to hangups" "process"
     "nohup command [args]"
     ["nohup long-running-script &"]);
  ("df",
   CommandInfo.mk "df" "Display filesystem disk space" "system"
     "df [options] [filesystem]"
     ["df -h"; "df -i"; "df /home"]);
  ("du",
   CommandInfo.mk "du" "Display directory space usage" "system"
     "du [options] [directory]"
     ["du -sh *"; "du -h --max-depth=1"; "du -sk * | sort -n"]);
  ("free",
   CommandInfo.mk "free" "Display memory usage" "system"
     "free [options]"
     ["free -h"; "free -m"; "free -s 5"]);
  ("uptime",
   CommandInfo.mk "uptime" "Show system uptime and load" "system"
     "uptime"
     ["uptime"]);
  ("uname",
   CommandInfo.mk "uname" "System information" "system"
     "uname [options]"
     ["uname -a"; "uname -r"; "uname -m"]);
  ("lscpu",
   CommandInfo.mk "lscpu" "Display CPU information" "system"
     "lscpu"
     ["lscpu"]);
  ("lsblk",
   CommandInfo.mk "lsblk" "List block devices" "system"
     "lsblk [options]"
     ["lsblk"; "lsblk -f"]);
  ("lsusb",
   CommandInfo.mk "lsusb" "List USB devices" "system"
     "lsusb [options]"
     ["lsusb"; "lsusb -v"]);
  ("lspci",
   CommandInfo.mk "lspci" "List PCI devices" "system"
     "lspci [options]"
     ["lspci"; "lspci -v"]);
  ("mount",
   CommandInfo.mk "mount" "Mount filesystems" "system"
     "mount [options] device mountpoint"
     ["mount"; "mount /dev/sdb1 /mnt"; "mount -t ext4 /dev/sdb1 /mnt"]);
  ("umount",
   CommandInfo.mk "umount" "Unmount filesystems" "system"
     "umount [options] mountpoint"
     ["umount /mnt"; "umount -f /mnt"]);
  ("chmod",
   CommandInfo.mk "chmod" "Change file permissions" "permission"
     "chmod [options] mode file"
     ["chmod 755 file.txt"; "chmod +x script.sh"; "chmod -R 644 dir/"]);
  ("chown",
   CommandInfo.mk "chown" "Change file ownership" "permission"
     "chown [options] owner[:group] file"
     ["chown user file.txt"; "chown user:group file.txt"; "chown -R user dir/"]);
  ("chgrp",
   CommandInfo.mk "chgrp" "Change group ownership" "permission"
     "chgrp [options] group file"
     ["chgrp group file.txt"; "chgrp -R group dir/"]);
  ("umask",
   CommandInfo.mk "umask" "Set default file permissions" "permission"
     "umask [mode]"
     ["umask"; "umask 022"; "umask 077"]);
  ("tar",
   CommandInfo.mk "tar" "Archive files" "archive"
     "tar [options] archive files"
     ["tar -czf archive.tar.gz dir/"; "tar -xzf archive.tar.gz"; "tar -tzf archive.tar.gz"]);
  ("gzip",
   CommandInfo.mk "gzip" "Compress files" "archive"
     "gzip [options] file"
     ["gzip file.txt"; "gzip -d file.txt.gz"]);
  ("gunzip",
   CommandInfo.mk "gunzip" "Decompress gzip files" "archive"
     "gunzip file.gz"
     ["gunzip file.txt.gz"]);
  ("zip",
   CommandInfo.mk "zip" "Create zip archives" "archive"
     "zip [options] archive files"
     ["zip archive.zip file1 file2"; "zip -r archive.zip dir/"]);
  ("unzip",
   CommandInfo.mk "unzip" "Extract zip archives" "archive"
     "unzip [options] archive"
     ["unzip archive.zip"; "unzip -l archive.zip"]);
  ("echo",
   CommandInfo.mk "echo" "Display text" "text"
     "echo [options] text"
     [("echo " +:+ dq +:+ "Hello World" +:+ dq); ("echo -n " +:+ dq +:+ "No newline" +:+ dq); "echo $PATH"]);
  ("date",
   CommandInfo.mk "date" "Display or set date" "system"
     "date [options] [format]"
     ["date"; ("date +" +:+ dq +:+ "%Y-%m-%d" +:+ dq); ("date -d " +:+ dq +:+ "tomorrow" +:+ dq)]);
  ("cal",
   CommandInfo.mk "cal" "Display calendar" "system"
     "cal [month] [year]"
     ["cal"; "cal 12 2024"; "cal -y"]);
  ("whoami",
   CommandInfo.mk "whoami" "Display current username" "system"
     "whoami"
     ["whoami"]);
  ("id",
   CommandInfo.mk "id" "Display user and group IDs" "system"
     "id [user]"
     ["id"; "id user"]);
  ("who",
   CommandInfo.mk "who" "Show logged in users" "system"
     "who [options]"
     ["who"; "who -a"]);
  ("w",
   CommandInfo.mk "w" "Show logged in users and activity" "system"
     "w [user]"
     ["w"; "w user"]);
  ("last",
   CommandInfo.mk "last" "Show last logged in users" "system"
     "last [options] [user]"
     ["last"; "last user"; "last -n 10"]);
  ("history",
   CommandInfo.mk "history" "Command history" "system"
     "history [options]"
     ["history"; "history 10"; "history -c"]);
  ("alias",
   CommandInfo.mk "alias" "Create command aliases" "system"
     "alias [name=value]"
     ["alias"; ("alias ll=" +:+ dq +:+ "ls -la" +:+ dq); ("alias grep=" +:+ dq +:+ "grep --color" +:+ dq)]);
  ("unalias",
   CommandInfo.mk "unalias" "Remove aliases" "system"
     "unalias name"
     ["unalias ll"; "unalias -a"]);
  ("type",
   CommandInfo.mk "type" "Display command type" "system"
     "type command"
     ["type ls"; "type cd"]);
  ("file",
   CommandInfo.mk "file" "Determine file type" "file"
     "file [options] file"
     ["file document.pdf"; "file *"]);
  ("stat",
   CommandInfo.mk "stat" "Display file statistics" "file"
     "stat [options] file"
     ["stat file.txt"; ("stat -c " +:+ dq +:+ "%n %s" +:+ dq +:+ " *")]);
  ("touch",
   CommandInfo.mk "touch" "Create empty files or update timestamps" "file"
     "touch [options] file"
     ["touch newfile.txt"; "touch -t 202401011200 file.txt"]);
  ("basename",
   CommandInfo.mk "basename" "Extract filename from path" "text"
     "basename path [suffix]"
     ["basename /path/to/file.txt"; "basename /path/to/file.txt .txt"]);
  ("dirname",
   CommandInfo.mk "dirname" "Extract directory from path" "text"
     "dirname path"
     ["dirname /path/to/file.txt"]);
  ("xargs",
   CommandInfo.mk "xargs" "Build and execute commands from input" "text"
     "xargs [options] command"
     [("find . -name " +:+ dq +:+ "*.txt" +:+ dq +:+ " | xargs grep " +:+ dq +:+ "pattern" +:+ dq); ("echo " +:+ dq +:+ "file1 file2" +:+ dq +:+ " | xargs rm")]);
  ("tee",
   CommandInfo.mk "tee" "Write output to both file and stdout" "text"
     "tee [options] file"
     ["command | tee output.txt"; "command | tee -a log.txt"]);
  ("watch",
   CommandInfo.mk "watch" "Execute command repeatedly" "system"
     "watch [options] command"
     [("watch " +:+ dq +:+ "ps aux" +:+ dq); ("watch -n 5 " +:+ dq +:+ "df -h" +:+ dq)]);
  ("screen",
   CommandInfo.mk "screen" "Terminal multiplexer" "system"
     "screen [options] [command]"
     ["screen"; "screen -S session_name"; "screen -r session_name"]);
  ("tmux",
   CommandInfo.mk "tmux" "Terminal multiplexer" "system"
     "tmux [command]"
     ["tmux"; "tmux new -s session"; "tmux attach -t session"]) ].

(** [Object.values(LINUX_COMMANDS)] *)
Definition values : list CommandInfo.t := snd <$> LINUX_COMMANDS.

(** [getCommandsByCategory] *)
Definition getCommandsByCategory (category : string) : list CommandInfo.t :=
  List.filter (fun cmd => String.eqb (CommandInfo.category cmd) category) values.

(** [searchCommands] *)
Definition searchCommands (query : string) : list CommandInfo.t :=
  let lowerQuery := toLowerCase query in
  List.filter (fun cmd =>
    includes (CommandInfo.name cmd) lowerQuery
    || includes (toLowerCase (CommandInfo.description cmd)) lowerQuery) values.

(** What [LINUX_COMMANDS[commandName]] can be: an own entry, a member
    inherited from [Object.prototype], or [undefined]. *)
Inductive Member :=
| Own (info : CommandInfo.t)
| InheritedMember
| Absent.

(** [getCommandInfo] *)
Definition getCommandInfo (commandName : string) : Member :=
  match List.find (fun entry => String.eqb (fst entry) commandName) LINUX_COMMANDS with
  | Some entry => Own (snd entry)
  | None =>
      if mem commandName Executor.objectPrototypeKeys then InheritedMember
      else Absent
  end.

End Commands.

(** ** The terminal component: the input line and its keys *)

Module TerminalComponent.
Import JS TerminalState.

(** The state of the component: its own, and the one of [useTerminal]. *)
Record t := mk {
  currentCommand : string;
  cursorPosition : Z;
  session : TerminalState.t;
}.

(** [workflowPrediction], as the effect on [currentCommand], [history] and
    [isExecuting] leaves it before the next event. *)
Definition workflowPrediction (ui : t) : option string :=
  if Nat.ltb 2 (String.length (currentCommand ui))
     && negb (isExecuting (session ui))
  then Predictor.predictWorkflow (currentCommand ui) (history (session ui))
  else None.

(** The prediction the component shows under the input line. *)
Definition shownPrediction (ui : t) : option string :=
  match workflowPrediction ui with
  | Some p =>
      if truthy (Some p) && negb (String.eqb p (currentCommand ui))
      then Some p else None
  | None => None
  end.

(** [handleSubmit] *)
Definition handleSubmit (h : Executor.Host) (e : Executor.Env) (ui : t) : t :=
  if negb (Executor.nonempty (trim (currentCommand ui)))
     || isExecuting (session ui)
  then ui
  else mk "" 0 (Executor.handleSubmit h e (session ui) (currentCommand ui)).

(** [handleKeyDown]; a key it does not handle leaves the state as it is. *)
Definition handleKeyDown (h : Executor.Host) (e : Executor.Env) (ui : t)
    (key : string) : t :=
  if String.eqb key "Enter" then handleSubmit h e ui
  else if String.eqb key "Tab" && truthy (workflowPrediction ui) then
    let p := show (workflowPrediction ui) in
    mk p (Z.of_nat (String.length p)) (session ui)
  else if String.eqb key "ArrowLeft" then
    mk (currentCommand ui) (Z.max 0 (cursorPosition ui - 1)) (session ui)
  else if String.eqb key "ArrowRight" then
    mk (currentCommand ui)
       (Z.min (Z.of_nat (String.length (currentCommand ui)))
              (cursorPosition ui + 1))
       (session ui)
  else ui.

(** [selectionStart || 0] *)
Definition selection (selectionStart : option Z) : Z :=
  match selectionStart with
  | Some n => n
  | None => 0
  end.

(** [onChange] of the input element. *)
Definition onChange (ui : t) (value : string) (selectionStart : option Z) : t :=
  mk value (selection selectionStart) (session ui).

(** [onSelect] of the input element. *)
Definition onSelect (ui : t) (selectionStart : option Z) : t :=
  mk (currentCommand ui) (selection selectionStart) (session ui).

(** The events the component reacts to: a key, an edit of the input line
    with the caret the browser reports, a move of the caret, and the
    Clear button. *)
Inductive Event :=
| KeyDown (key : string)
| Change (value : string) (selectionStart : option Z)
| Select (selectionStart : option Z)
| ClearClicked.

Definition step (h : Executor.Host) (e : Executor.Env) (ui : t)
    (event : Event) : t :=
  match event with
  | KeyDown key => handleKeyDown h e ui key
  | Change value selectionStart => onChange ui value selectionStart
  | Select selectionStart => onSelect ui selectionStart
  | ClearClicked =>
      mk (currentCommand ui) (cursorPosition ui)
         (Executor.clearHistory (session ui))
  end.

(** A session: the events in order, each with the environment its command
    would run in. *)
Fixpoint run (h : Executor.Host) (ui : t)
    (events : list (Executor.Env * Event)) : t :=
  match events with
  | [] => ui
  | (e, event) :: rest => run h (step h e ui event) rest
  end.

(** The component as it mounts. *)
Definition initial : t := mk "" 0 Executor.initialState.

End TerminalComponent.

(** ** Notions for the further properties *)

Module Laws.
Import JS Predictor TerminalState Executor Notions.
Import TerminalComponent.

(** A string of white space only. *)
Fixpoint blank (s : string) : bool :=
  match s with
  | EmptyString => true
  | String ch s' => Ascii.is_space ch && blank s'
  end.

(** What [trimStart] leaves does not begin with white space. *)
Definition starts_clean (s : string) : Prop :=
  match s with
  | EmptyString => True
  | String ch _ => Ascii.is_space ch = false
  end.

(** Every suggestion the predictor can return. *)
Definition allSuggestions : list string :=
  (snd <$> workflowPatterns)
  ++ [ "git add ."; "git commit -m " +:+ dq +:+ "Update" +:+ dq;
       "git push origin main"; "traceroute google.com";
       "nslookup google.com"; "grep -r " +:+ dq +:+ "pattern" +:+ dq +:+ " ." ].

(** A path in the form [cd] itself produces: a slash, then the segments
    with single slashes between them. *)
Definition canonical (path : string) : Prop :=
  path = "/" +:+ join "/" (segments path).

(** A session state whose current directory is a key of its file system,
    and whose records were all made in such a directory. *)
Definition well_placed (st : TerminalState.t) : Prop :=
  is_Some (fileSystem st !! currentDirectory st) /\
  Forall (fun r => is_Some (fileSystem st !! TerminalCommand.directory r))
    (history st).

(** A handler that leaves the exit code 0 or sets it to 1. *)
Definition exits_0_or_1 (handler : Handler) : Prop :=
  forall c l,
    exitCode l = 0 ->
    exitCode (try_catch (host c) (handler c l)) = 0 \/
    exitCode (try_catch (host c) (handler c l)) = 1.

(** A handler whose output and exit code are the same in every session
    state. *)
Definition ignores_state (handler : Handler) : Prop :=
  forall h e st1 st2 name argv l1 l2,
    exitCode l1 = exitCode l2 ->
    let r1 := try_catch h (handler
      {| host := h; env := e; state := st1; cmd := name; args := argv |} l1) in
    let r2 := try_catch h (handler
      {| host := h; env := e; state := st2; cmd := name; args := argv |} l2) in
    output r1 = output r2 /\ exitCode r1 = exitCode r2.

(** A handler that reads the session state through the current directory
    and the file system only. *)
Definition reads_place_only (handler : Handler) : Prop :=
  forall h e st1 st2 name argv l,
    currentDirectory st1 = currentDirectory st2 ->
    fileSystem st1 = fileSystem st2 ->
    handler {| host := h; env := e; state := st1; cmd := name; args := argv |} l
    = handler {| host := h; env := e; state := st2; cmd := name; args := argv |} l.

(** The commands that read the session state. *)
Definition stateReaders : list string := [ "ls"; "pwd"; "cd" ].

(** The registered commands the executor has no case for. *)
Definition unhandled : list string :=
  [ "egrep"; "fgrep"; "top"; "htop"; "lsblk"; "chmod"; "chown"; "tar"; "unzip" ].

(** The keys of the prediction table whose suggestion names a command the
    executor has no case for. *)
Definition deadSuggestions : list string :=
  [ "top"; "htop"; "chmod"; "chown"; "tar"; "unzip"; "lsblk" ].

(** The caret lies within the input line. *)
Definition caret_in_range (ui : TerminalComponent.t) : Prop :=
  0 <= cursorPosition ui <= Z.of_nat (String.length (currentCommand ui)).

(** What the browser guarantees of an event: the caret it reports lies
    within the text of the input element. *)
Definition reported (ui : TerminalComponent.t) (event : Event) : Prop :=
  match event with
  | Change value selectionStart =>
      0 <= selection selectionStart <= Z.of_nat (String.length value)
  | Select selectionStart =>
      0 <= selection selectionStart
        <= Z.of_nat (String.length (currentCommand ui))
  | _ => True
  end.

Fixpoint all_reported (h : Host) (ui : TerminalComponent.t)
    (events : list (Env * Event)) : Prop :=
  match events with
  | [] => True
  | (e, event) :: rest =>
      reported ui event /\ all_reported h (step h e ui event) rest
  end.

(** The categories of the registry. *)
Definition categories : list string :=
  [ "file"; "network"; "system"; "process"; "text"; "archive"; "permission";
    "search" ].

(** The keys of the registry. *)
Definition registered : list string := fst <$> Commands.LINUX_COMMANDS.

(** The labels of the switch that the registry does not have. *)
Definition unregistered : list string := [ "clear"; "help" ].

(** The commands that only check how many operands they got, with the
    number they need. *)
Definition operandCommands : list (string * nat) :=
  [ ("mkdir", 1); ("rmdir", 1); ("rm", 1); ("touch", 1); ("which", 1);
    ("whereis", 1); ("locate", 1); ("sort", 1); ("uniq", 1); ("kill", 1);
    ("killall", 1); ("pgrep", 1); ("pkill", 1); ("unalias", 1); ("type", 1);
    ("basename", 1); ("dirname", 1); ("gzip", 1); ("gunzip", 1); ("tee", 1);
    ("telnet", 1); ("ssh", 1); ("host", 1); ("umount", 1);
    ("cp", 2); ("mv", 2); ("ln", 2); ("chgrp", 2); ("scp", 2); ("rsync", 2) ]%nat.

(** The first [n] operands are all there and none is empty. *)
Definition operands_given (n : nat) (rest : list string) : bool :=
  forallb (fun i => truthy (rest !! i)) (seq 0 n).

(** A handler that fails exactly for want of one of its [n] operands. *)
Definition checks_operands (n : nat) (handler : Handler) : Prop :=
  forall h e st name rest,
    exitCode (try_catch h (handler
      {| host := h; env := e; state := st; cmd := name; args := name :: rest |}
      {| output := ""; exitCode := 0;
         newDirectory := currentDirectory st |}))
    = if operands_given n rest then 0 else 1.

(** The commands that cannot fail. *)
Definition infallible : list string :=
  [ "pwd"; "curl"; "wget"; "netstat"; "ss"; "traceroute"; "nslookup"; "dig";
    "ps"; "df"; "du"; "free"; "lsof"; "whoami"; "date"; "uname"; "lscpu";
    "echo"; "find"; "clear"; "jobs"; "bg"; "fg"; "uptime"; "who"; "w"; "last";
    "id"; "history"; "alias"; "cal"; "umask"; "screen"; "tmux"; "help"; "arp";
    "route"; "ifconfig"; "iwconfig"; "tracepath"; "lsusb"; "lspci"; "mount" ].

(** A handler that leaves the exit code as it found it. *)
Definition never_fails (handler : Handler) : Prop :=
  forall c l, exitCode (try_catch (host c) (handler c l)) = exitCode l.

End Laws.

(** ** Facts about the string primitives *)

Module StringFacts.
Import JS.

Lemma startsWith_empty (s : string) : startsWith s "" = true.
Proof. now destruct s. Qed.

Lemma startsWith_cons (ch : ascii) (s p : string) :
  startsWith (String ch s) (String ch p) = startsWith s p.
Proof.
  unfold startsWith. simpl.
  destruct (ascii_dec ch ch) as [_|Hne]; [reflexivity | now elim Hne].
Qed.

Lemma startsWith_refl (s : string) : startsWith s s = true.
Proof.
  induction s as [|ch s IH]; [reflexivity|]. now rewrite startsWith_cons.
Qed.

Lemma startsWith_app (p s : string) : startsWith (p +:+ s) p = true.
Proof.
  induction p as [|ch p IH]; [apply startsWith_empty|].
  change (String ch p +:+ s) with (String ch (p +:+ s)).
  now rewrite startsWith_cons.
Qed.

(** A proper prefix is strictly shorter. *)
Lemma startsWith_shorter (s p : string) :
  startsWith s p = true -> s <> p -> (String.length p < String.length s)%nat.
Proof.
  unfold startsWith. revert s.
  induction p as [|ch p IH]; intros [|ch' s] Hp Hne; simpl in *;
    try lia; try congruence.
  destruct (ascii_dec ch ch') as [->|]; [|discriminate].
  assert (Hne' : s <> p) by (intros ->; now apply Hne).
  specialize (IH s Hp Hne'). lia.
Qed.

Lemma includes_here (s sub : string) :
  startsWith s sub = true -> includes s sub = true.
Proof. intros H. destruct s; cbn [includes]; rewrite H; reflexivity. Qed.

Lemma startsWith_app_l (s t p : string) :
  startsWith s p = true -> startsWith (s +:+ t) p = true.
Proof.
  unfold startsWith. revert s.
  induction p as [|ch p IH]; intros s H.
  - apply startsWith_empty.
  - destruct s as [|ch' s]; [discriminate|]. simpl in H.
    change (String ch' s +:+ t) with (String ch' (s +:+ t)). simpl.
    destruct (ascii_dec ch ch'); [now apply IH | discriminate].
Qed.

Lemma includes_skip (ch : ascii) (s sub : string) :
  includes s sub = true -> includes (String ch s) sub = true.
Proof. intros H. cbn [includes]. rewrite H. apply orb_true_r. Qed.

(** A string includes whatever stands in its middle. *)
Lemma includes_app (before sub after : string) :
  includes (before +:+ sub +:+ after) sub = true.
Proof.
  induction before as [|ch before IH].
  - change (includes (sub +:+ after) sub = true).
    apply includes_here, startsWith_app.
  - change (includes (String ch (before +:+ sub +:+ after)) sub = true).
    apply includes_skip, IH.
Qed.

Lemma includes_app_r (before s sub : string) :
  includes s sub = true -> includes (before +:+ s) sub = true.
Proof.
  intros H. induction before as [|ch before IH]; [exact H|].
  change (includes (String ch (before +:+ s)) sub = true).
  apply includes_skip, IH.
Qed.

Lemma includes_app_l (s after sub : string) :
  includes s sub = true -> includes (s +:+ after) sub = true.
Proof.
  induction s as [|ch s IH]; cbn [includes]; intros H.
  - rewrite orb_false_r in H. destruct sub; [|discriminate].
    apply includes_here, startsWith_empty.
  - apply orb_true_iff in H as [H | H].
    + apply includes_here. now apply startsWith_app_l.
    + change (includes (String ch (s +:+ after)) sub = true).
      apply includes_skip, IH, H.
Qed.

End StringFacts.

(** ** The predictor: its two phases *)

Module PredictorSpec.
Import JS Predictor Notions StringFacts.

Lemma matches_extends (input : string) (entry : string * string) :
  matches input entry = true <-> extends input entry.
Proof.
  unfold matches, extends.
  rewrite andb_true_iff, negb_true_iff, String.eqb_neq. reflexivity.
Qed.

(** [List.find] returns the first element that passes the test. *)
Lemma find_first {A} (f : A -> bool) (xs : list A) :
  match List.find f xs with
  | Some x => exists before after,
      xs = before ++ x :: after /\ f x = true /\
      Forall (fun y => f y = false) before
  | None => Forall (fun y => f y = false) xs
  end.
Proof.
  induction xs as [|x xs IH]; simpl; [constructor|].
  destruct (f x) eqn:Hx.
  - exists [], xs. repeat split; [exact Hx | constructor].
  - destruct (List.find f xs) as [y|].
    + destruct IH as (before & after & -> & Hy & Hbefore).
      exists (x :: before), after. repeat split; [exact Hy|].
      constructor; assumption.
    + constructor; assumption.
Qed.

Lemma directMatch_first (input : string) :
  first_such (extends input) (directMatch input).
Proof.
  unfold directMatch, first_such.
  pose proof (find_first (matches input) workflowPatterns) as H.
  destruct (List.find (matches input) workflowPatterns) as [[pattern suggestion]|];
    simpl.
  - destruct H as (before & after & Heq & Hm & Hbefore).
    exists before, pattern, after. split; [exact Heq|].
    split; [now apply matches_extends|].
    eapply Forall_impl; [exact Hbefore|]. intros entry Hf He.
    apply matches_extends in He. congruence.
  - eapply Forall_impl; [exact H|]. intros entry Hf He.
    apply matches_extends in He. congruence.
Qed.

Lemma directMatch_In (input suggestion : string) :
  directMatch input = Some suggestion ->
  exists pattern, In (pattern, suggestion) workflowPatterns /\
                  extends input (pattern, suggestion).
Proof.
  intros H. pose proof (directMatch_first input) as Hf. rewrite H in Hf.
  destruct Hf as (before & pattern & after & Heq & Hq & _).
  exists pattern. split; [|exact Hq]. rewrite Heq. apply in_elt.
Qed.

(** No suggestion of the table is shorter than its key. *)
Lemma suggestions_not_shorter :
  Forall (fun entry =>
    (String.length (fst entry) <= String.length (snd entry))%nat)
    workflowPatterns.
Proof.
  unfold workflowPatterns.
  repeat (apply Forall_cons_2; [vm_compute; lia|]). apply Forall_nil_2.
Qed.

(** The static phase never hands the input back. *)
Lemma directMatch_irreflexive (input : string) :
  directMatch input <> Some input.
Proof.
  intros H. apply directMatch_In in H as (pattern & Hin & Hpre & Hne).
  simpl in Hpre, Hne.
  pose proof (startsWith_shorter _ _ Hpre Hne) as Hlt.
  pose proof suggestions_not_shorter as Hall.
  rewrite List.Forall_forall in Hall. specialize (Hall _ Hin).
  simpl in Hall. lia.
Qed.

(** C1, as amended: the static phase returns the suggestion of the first
    entry of the table, in table order, whose key starts with the
    normalized input (the input is a prefix of the key) and differs from
    it; when no key does, the static phase has no match and the
    prediction is left to the rules on the last command. *)
Theorem static_phase_first_extension (x : string)
    (history : list TerminalCommand.t) :
  let input := normalize x in
  first_such (extends input) (directMatch input) /\
  match directMatch input with
  | Some suggestion => predictWorkflow x history = Some suggestion
  | None =>
      predictWorkflow x history =
      match last history with
      | Some r => contextMatch (toLowerCase (TerminalCommand.command r)) input
      | None => None
      end
  end.
Proof.
  intros input. split; [apply directMatch_first|].
  unfold predictWorkflow, predictNormalized. fold input.
  destruct (directMatch input); reflexivity.
Qed.

(** C1, as the claim states it, fails: no key of the table is a prefix of
    the input [fin], yet the static phase answers it; and the key [find] is
    a proper prefix of the input [find .], yet the static phase has no
    match for it. *)
Lemma static_phase_key_prefix_fails :
  normalize "fin" = "fin" /\ normalize "find ." = "find ." /\
  ~ first_such (key_prefix "fin") (directMatch "fin") /\
  ~ first_such (key_prefix "find .") (directMatch "find .").
Proof.
  split; [reflexivity|]. split; [reflexivity|]. split.
  - intros H.
    assert (Hnone : Forall (fun entry => ~ key_prefix "fin" entry)
                      workflowPatterns).
    { unfold workflowPatterns, key_prefix.
      repeat (apply Forall_cons_2;
              [intros [Hp _]; vm_compute in Hp; discriminate|]).
      apply Forall_nil_2. }
    destruct (directMatch "fin") as [suggestion|] eqn:E;
      [|vm_compute in E; discriminate].
    destruct H as (before & pattern & after & Heq & Hq & _).
    rewrite Heq in Hnone. apply Forall_app in Hnone as [_ Hnone].
    apply Forall_cons in Hnone as [Hnone _]. exact (Hnone Hq).
  - intros H.
    destruct (directMatch "find .") as [suggestion|] eqn:E;
      [vm_compute in E; discriminate|].
    unfold first_such, workflowPatterns in H.
    apply Forall_cons in H as [H _]. apply H.
    split; [reflexivity | discriminate].
Qed.

(** C2, as the claim states it, fails: after a [ping], the input
    [traceroute google.com] is answered with itself. *)
Lemma predict_returns_its_input :
  normalize "traceroute google.com" = "traceroute google.com" /\
  predictWorkflow "traceroute google.com" [ran "ping google.com"]
  = Some "traceroute google.com".
Proof. split; reflexivity. Qed.

Lemma isGit_inv (input : string) :
  isGit input = true -> input = "git" \/ input = "git ".
Proof.
  unfold isGit. rewrite orb_true_iff, !String.eqb_eq. tauto.
Qed.

(** What the rules on the last command can answer. *)
Lemma contextMatch_range (lastCommand input suggestion : string) :
  contextMatch lastCommand input = Some suggestion ->
  isGit input = true \/ In suggestion context_completions.
Proof.
  unfold contextMatch.
  repeat match goal with
         | |- context [if ?b then _ else _] => destruct b eqn:?
         end; intros [= <-];
    try (left;
         repeat match goal with
                | H : _ && _ = true |- _ => apply andb_true_iff in H as [? ?]
                end; assumption);
    right; simpl; tauto.
Qed.

Lemma contextMatch_git (lastCommand input suggestion : string) :
  contextMatch lastCommand input = Some suggestion ->
  isGit input = true -> suggestion <> input.
Proof.
  intros H Hgit. apply isGit_inv in Hgit as [-> | ->]; revert H;
    unfold contextMatch;
    repeat match goal with
           | |- context [if ?b then _ else _] => destruct b
           end; intros [= <-]; discriminate.
Qed.

(** C2, as amended: [predictWorkflow] never returns the normalized input,
    unless that input is already one of the three completions that the
    rules on the last command produce ([traceroute google.com],
    [nslookup google.com] and the recursive [grep]); the static phase
    never returns the normalized input at all. *)
Theorem predict_non_reflexive (x : string)
    (history : list TerminalCommand.t) :
  ~ In (normalize x) context_completions ->
  predictWorkflow x history <> Some (normalize x) /\
  directMatch (normalize x) <> Some (normalize x).
Proof.
  intros Hout. split; [|apply directMatch_irreflexive].
  unfold predictWorkflow, predictNormalized.
  destruct (directMatch (normalize x)) as [suggestion|] eqn:E.
  - rewrite <- E. apply directMatch_irreflexive.
  - destruct (last history) as [r|]; [|discriminate].
    intros H. destruct (contextMatch_range _ _ _ H) as [Hgit | Hin].
    + exact (contextMatch_git _ _ _ H Hgit eq_refl).
    + exact (Hout Hin).
Qed.

Lemma predict_non_reflexive_witness :
  ~ In (normalize "Git ") context_completions /\
  predictWorkflow "Git " [ran "git status"] <> Some (normalize "Git ").
Proof.
  assert (Hout : ~ In (normalize "Git ") context_completions).
  { vm_compute. intros [H | [H | [H | []]]]; discriminate. }
  split; [exact Hout|].
  exact (proj1 (predict_non_reflexive "Git " [ran "git status"] Hout)).
Defined.

(** C8: when the most recent command, lower-cased, contains [git status]
    and the input is exactly [git] or [git ], no static pattern matches and
    the prediction is [git add .]. *)
Theorem git_status_suggests_add (x : string)
    (history : list TerminalCommand.t) (r : TerminalCommand.t) :
  last history = Some r ->
  includes (toLowerCase (TerminalCommand.command r)) "git status" = true ->
  normalize x = "git" \/ normalize x = "git " ->
  directMatch (normalize x) = None /\
  predictWorkflow x history = Some "git add .".
Proof.
  intros Hlast Hinc Hx. unfold predictWorkflow, predictNormalized.
  rewrite Hlast. unfold contextMatch. rewrite Hinc.
  destruct Hx as [-> | ->]; split; reflexivity.
Qed.

Lemma git_status_suggests_add_witness :
  predictWorkflow "git" [ran "git status"] = Some "git add .".
Proof.
  apply (git_status_suggests_add "git" [ran "git status"] (ran "git status"));
    [reflexivity | reflexivity | left; reflexivity].
Defined.

Lemma predictNormalized_last (input : string)
    (h1 h2 : list TerminalCommand.t) :
  TerminalCommand.command <$> last h1 = TerminalCommand.command <$> last h2 ->
  predictNormalized input h1 = predictNormalized input h2.
Proof.
  intros H. unfold predictNormalized.
  destruct (directMatch input); [reflexivity|].
  destruct (last h1) as [r1|], (last h2) as [r2|]; simpl in H;
    try discriminate; [|reflexivity].
  injection H as ->. reflexivity.
Qed.

(** C9: the prediction depends on the history through the command text of
    its most recent record only: two histories that are both empty, or
    both non-empty with the same last command text, give the same
    prediction for every input. *)
Theorem predict_reads_last_command_only (x : string)
    (h1 h2 : list TerminalCommand.t) :
  TerminalCommand.command <$> last h1 = TerminalCommand.command <$> last h2 ->
  predictWorkflow x h1 = predictWorkflow x h2.
Proof. intros H. now apply predictNormalized_last. Qed.

Lemma predict_reads_last_command_only_witness :
  predictWorkflow "tr" [ran "ls"; ran "ping a"]
  = predictWorkflow "tr"
      [TerminalCommand.mk "7" "ping a" "PONG" 7 1 "/"].
Proof.
  apply (predict_reads_last_command_only "tr"). reflexivity.
Defined.

End PredictorSpec.

(** ** The executor: dispatch, frame and dependence on the environment *)

Module ExecutorFacts.
Import JS TerminalState Executor Notions StringFacts.

Ltac unfold_handler :=
  match goal with
  | |- keeps_directory ?handler => unfold handler; intros c l
  | |- reads_only ?handler =>
      unfold handler; intros h e1 e2 st name argv l [Hclock Hrandom]
  end;
  unfold say, fail, arg, has, lastArg, argAfter; cbv zeta.

Ltac keeps := unfold_handler; repeat case_match; reflexivity.

Ltac use_agreement :=
  repeat match goal with
         | H : forall k : nat, clock _ k = clock _ k |- _ =>
             rewrite ?H; clear H
         | H : forall k : nat, random _ k = random _ k |- _ =>
             rewrite ?H; clear H
         end.

Ltac blind :=
  unfold_handler; cbn [host env state cmd args];
  use_agreement; reflexivity.

Lemma case_default_keeps : keeps_directory case_default.
Proof. keeps. Qed.

Lemma cases_keep_directory :
  Forall (fun entry => fst entry = "cd" \/ keeps_directory (snd entry)) cases.
Proof.
  unfold cases.
  repeat (apply Forall_cons_2;
          [first [left; reflexivity | right; cbn [snd]; keeps]|]).
  apply Forall_nil_2.
Qed.

Lemma case_ls_reads_only : reads_only case_ls.
Proof.
  unfold_handler. cbn [host env state cmd args].
  repeat case_match; try reflexivity.
  all: do 3 f_equal; apply imap_ext; intros j item _; now rewrite Hclock.
Qed.

Lemma case_ping_reads_only : reads_only case_ping.
Proof.
  unfold_handler. cbn [host env state cmd args].
  case_match; [reflexivity|]. rewrite Hrandom.
  do 6 f_equal. apply list_fmap_ext. intros i k _. now rewrite Hrandom.
Qed.

Lemma case_default_reads_only : reads_only case_default.
Proof. blind. Qed.

Lemma cases_read_only :
  Forall (fun entry => reads_only (snd entry)) cases.
Proof.
  unfold cases.
  repeat (apply Forall_cons_2;
          [cbn [snd];
           first [exact case_ls_reads_only | exact case_ping_reads_only
                 | blind]|]).
  apply Forall_nil_2.
Qed.

(** [switch] runs the default branch or the body of a label equal to the
    name. *)
Lemma dispatch_cases (name : string) :
  dispatch name = case_default /\ ~ In name (fst <$> cases) \/
  In (name, dispatch name) cases.
Proof.
  unfold dispatch.
  destruct (List.find _ cases) as [[label body]|] eqn:E.
  - right. apply find_some in E as [Hin Heq]. simpl in Heq.
    apply String.eqb_eq in Heq as ->. exact Hin.
  - left. split; [reflexivity|]. intros Hin.
    apply in_map_iff in Hin as ([label body] & <- & Hin).
    pose proof (find_none _ _ E _ Hin) as Hne. simpl in Hne.
    now rewrite String.eqb_refl in Hne.
Qed.

(** No label occurs twice, so the order of the cases does not matter. *)
Lemma labels_distinct : NoDup handlerNames /\ length cases = 95%nat.
Proof.
  split; [|reflexivity].
  apply (bool_decide_unpack _). vm_compute. reflexivity.
Qed.

Lemma dispatch_unknown (name : string) :
  ~ In name (fst <$> cases) -> dispatch name = case_default.
Proof.
  intros Hout. destruct (dispatch_cases name) as [[H _] | Hin]; [exact H|].
  elim Hout. apply in_map_iff. now exists (name, dispatch name).
Qed.

Lemma dispatch_keeps_directory (name : string) :
  name <> "cd" -> keeps_directory (dispatch name).
Proof.
  intros Hne. destruct (dispatch_cases name) as [[-> _] | Hin].
  - apply case_default_keeps.
  - pose proof cases_keep_directory as Hall.
    rewrite List.Forall_forall in Hall.
    destruct (Hall _ Hin) as [Hcd | Hkeep]; [now elim Hne | exact Hkeep].
Qed.

Lemma dispatch_reads_only (name : string) : reads_only (dispatch name).
Proof.
  destruct (dispatch_cases name) as [[-> _] | Hin].
  - apply case_default_reads_only.
  - pose proof cases_read_only as Hall.
    rewrite List.Forall_forall in Hall. exact (Hall _ Hin).
Qed.

End ExecutorFacts.

(** ** The executor: the properties of the specification *)

Module ExecutorSpec.
Import JS TerminalState Executor Notions StringFacts ExecutorFacts.

(** [executeCommand], with its handler call singled out. *)
Lemma executeCommand_unfold (h : Host) (e : Env) (st : TerminalState.t)
    (command : string) :
  let c := {| host := h; env := e; state := st;
              cmd := commandName command; args := tokens command |} in
  let fin :=
    try_catch h (dispatch (commandName command) c
      {| output := ""; exitCode := 0; newDirectory := currentDirectory st |}) in
  let r := TerminalCommand.mk (decimal (clock e 0)) command (output fin)
             (clock e 1) (exitCode fin) (currentDirectory st) in
  executeCommand h e st command
  = (r, TerminalState.mk (newDirectory fin) (history st ++ [r])
          (fileSystem st) false).
Proof. reflexivity. Qed.

Lemma try_catch_directory (h : Host) (r : Completion) :
  newDirectory (try_catch h r) = newDirectory (locals_of r).
Proof. destruct r; reflexivity. Qed.

Lemma dispatch_cd : dispatch "cd" = case_cd.
Proof. reflexivity. Qed.

(** C10: every execution, whatever its exit code, appends exactly one
    record to the history and leaves the file system as it was; the
    record holds the directory the command was run in; the current
    directory changes only when the command is [cd] and its exit code is
    0, and then to the path [cd] resolved. *)
Theorem execute_frame (h : Host) (e : Env) (st : TerminalState.t)
    (command : string) :
  let r := record_of h e st command in
  let st' := state_after h e st command in
  history st' = history st ++ [r] /\
  length (history st') = S (length (history st)) /\
  fileSystem st' = fileSystem st /\
  TerminalCommand.directory r = currentDirectory st /\
  currentDirectory st' =
    if String.eqb (commandName command) "cd"
       && (TerminalCommand.exitCode r =? 0)
    then resolve (currentDirectory st) (tokens command !! 1%nat)
    else currentDirectory st.
Proof.
  unfold record_of, state_after. rewrite executeCommand_unfold.
  cbn [fst snd history fileSystem currentDirectory
       TerminalCommand.directory TerminalCommand.exitCode].
  split; [reflexivity|]. split; [rewrite length_app; simpl; lia|].
  split; [reflexivity|]. split; [reflexivity|].
  destruct (String.eqb_spec (commandName command) "cd") as [-> | Hne].
  - rewrite dispatch_cd. unfold case_cd, arg.
    cbn [host env state cmd args].
    destruct (slot_truthy _); reflexivity.
  - rewrite try_catch_directory, (dispatch_keeps_directory _ Hne).
    reflexivity.
Qed.

(** C6: a command name that equals no label of the [switch] gets exit
    code 127 and an output that says the command is not found and points
    to [help]; the session state is otherwise as after any command. *)
Theorem unknown_command_not_found (h : Host) (e : Env)
    (st : TerminalState.t) (command : string) :
  ~ In (commandName command) handlerNames ->
  let r := record_of h e st command in
  TerminalCommand.exitCode r = 127 /\
  TerminalCommand.output r
  = text [ commandName command +:+ ": command not found"; "";
           "Try 'help' to see available commands or ask the AI assistant for guidance!" ] /\
  includes (TerminalCommand.output r) "command not found" = true /\
  includes (TerminalCommand.output r) "help" = true.
Proof.
  intros Hout r. unfold r, record_of. rewrite executeCommand_unfold.
  cbn [fst TerminalCommand.exitCode TerminalCommand.output].
  rewrite (dispatch_unknown _ Hout). unfold case_default.
  cbn [try_catch output exitCode cmd].
  split; [reflexivity|]. split; [reflexivity|].
  unfold text, join. cbn [String.concat]. split.
  - apply includes_app_l, includes_app_r. reflexivity.
  - apply includes_app_r. reflexivity.
Qed.

Lemma unknown_command_not_found_witness :
  TerminalCommand.exitCode
    (record_of sampleHost sampleEnv initialState "LS -la") = 127.
Proof.
  apply (unknown_command_not_found sampleHost sampleEnv initialState "LS -la").
  vm_compute. intuition discriminate.
Defined.

(** C7: with the clock and the random source injected, [executeCommand]
    and [predictWorkflow] are functions of their inputs: two runs on the
    same raw line and session state (file system included), under
    environments that deliver the same clock readings and the same random
    draws, resolve to the same record and leave the same state, for every
    handler; and two predictions for the same input over histories with
    the same command texts are the same, whatever the identifiers and
    timestamps the clock gave the records. *)
Theorem execute_predict_deterministic (h : Host) (e1 e2 : Env)
    (st : TerminalState.t) (command x : string)
    (hist1 hist2 : list TerminalCommand.t) :
  agree e1 e2 ->
  TerminalCommand.command <$> hist1 = TerminalCommand.command <$> hist2 ->
  executeCommand h e1 st command = executeCommand h e2 st command /\
  Predictor.predictWorkflow x hist1 = Predictor.predictWorkflow x hist2.
Proof.
  intros Hagree Hhist. split.
  - rewrite !executeCommand_unfold. cbv zeta.
    rewrite (dispatch_reads_only (commandName command) h e1 e2 st _ _ _ Hagree).
    destruct Hagree as [Hclock _]. rewrite !Hclock. reflexivity.
  - apply PredictorSpec.predictNormalized_last.
    rewrite <- !fmap_last, Hhist. reflexivity.
Qed.

Lemma sample_envs_agree : agree sampleEnv sampleEnv'.
Proof.
  split; intros k; cbn [clock random sampleEnv sampleEnv'].
  - lia.
  - now rewrite Nat.add_0_r.
Qed.

Lemma execute_predict_deterministic_witness :
  executeCommand sampleHost sampleEnv initialState "ping -c 3 example.org"
  = executeCommand sampleHost sampleEnv' initialState "ping -c 3 example.org" /\
  Predictor.predictWorkflow "git" [ran "git status"]
  = Predictor.predictWorkflow "git"
      [TerminalCommand.mk "9" "git status" "clean" 9 0 "/"].
Proof.
  apply (execute_predict_deterministic sampleHost sampleEnv sampleEnv'
           initialState "ping -c 3 example.org" "git").
  - exact sample_envs_agree.
  - reflexivity.
Defined.

(** C5: an accepted submission other than [clear] leaves a history that
    is the former one with exactly one record appended at its end, so
    one longer and with the earlier records in place; [clearHistory]
    leaves an empty history and the current directory untouched, without
    making a record, whether or not a command is executing; and a
    submitted [clear] is a call of [clearHistory]. *)
Theorem history_append_only (h : Host) (e : Env) (st : TerminalState.t)
    (line : string) :
  (history (clearHistory st) = [] /\
   currentDirectory (clearHistory st) = currentDirectory st /\
   fileSystem (clearHistory st) = fileSystem st) /\
  (nonempty (trim line) = true -> isExecuting st = false ->
   if String.eqb (trim line) "clear"
   then handleSubmit h e st line = clearHistory st
   else
     let r := record_of h e st (trim line) in
     let st' := handleSubmit h e st line in
     st' = state_after h e st (trim line) /\
     history st' = history st ++ [r] /\
     length (history st') = S (length (history st))).
Proof.
  split; [repeat split|]. intros Hne Hidle. unfold handleSubmit.
  rewrite Hne, Hidle. cbn [negb orb].
  destruct (String.eqb (trim line) "clear"); [reflexivity|].
  unfold record_of, state_after. rewrite executeCommand_unfold.
  cbn [fst snd history]. split; [reflexivity|]. split; [reflexivity|].
  rewrite length_app. simpl. lia.
Qed.

Lemma history_append_only_witness :
  length (history (handleSubmit sampleHost sampleEnv initialState "  cat nothing "))
  = S (length (history initialState)).
Proof.
  apply (proj2 (history_append_only sampleHost sampleEnv initialState
                  "  cat nothing ") eq_refl eq_refl).
Defined.

Ltac content_handler handler :=
  intros h e st rest;
  unfold handler, say, fail, arg, has, truthy, is_, content_outcome, recognizes;
  cbv zeta; cbn [host env state cmd args try_catch output exitCode];
  destruct rest as [|fileName rest];
  [split; reflexivity|];
  change ((?a :: fileName :: rest) !! 1%nat) with (Some fileName);
  unfold nonempty, show; cbn [negb];
  destruct (String.eqb fileName "") eqn:Hempty; cbn [negb];
  [split; reflexivity|];
  repeat match goal with
         | |- context [String.eqb fileName ?s] =>
             destruct (String.eqb fileName s) eqn:?
         | |- context [mem ?a ?b] => destruct (mem a b) eqn:?
         end;
  cbn [orb andb String.eqb Ascii.eqb Bool.eqb try_catch output exitCode];
  try reflexivity;
  (split; [reflexivity|]);
  repeat apply includes_app_r; reflexivity.

Lemma case_cat_content : content_handler_ok "cat" case_cat.
Proof. content_handler case_cat. Qed.

Lemma case_head_content : content_handler_ok "head" case_head.
Proof. content_handler case_head. Qed.

Lemma case_tail_content : content_handler_ok "tail" case_tail.
Proof. content_handler case_tail. Qed.

Lemma case_less_content : content_handler_ok "less" case_less_more.
Proof. content_handler case_less_more. Qed.

Lemma case_more_content : content_handler_ok "more" case_less_more.
Proof. content_handler case_less_more. Qed.

Lemma case_wc_content : content_handler_ok "wc" case_wc.
Proof. content_handler case_wc. Qed.

Lemma case_stat_content : content_handler_ok "stat" case_stat.
Proof. content_handler case_stat. Qed.

Lemma case_file_content : content_handler_ok "file" case_file.
Proof. content_handler case_file. Qed.

Lemma content_dispatch (name : string) :
  In name contentCommands -> content_handler_ok name (dispatch name).
Proof.
  intros Hin. simpl in Hin.
  destruct Hin as [<- | [<- | [<- | [<- | [<- | [<- | [<- | [<- | []]]]]]]]].
  - exact case_cat_content.
  - exact case_head_content.
  - exact case_tail_content.
  - exact case_less_content.
  - exact case_more_content.
  - exact case_wc_content.
  - exact case_stat_content.
  - exact case_file_content.
Qed.

Lemma prototype_keys_have_no_slash :
  Forall (fun key => includes key "/" = false) objectPrototypeKeys.
Proof.
  unfold objectPrototypeKeys.
  repeat (apply Forall_cons_2; [reflexivity|]). apply Forall_nil_2.
Qed.

(** Every path [cd] resolves to has a slash in it. *)
Lemma resolve_has_slash (cwd : string) (target : option string) :
  includes (resolve cwd target) "/" = true.
Proof.
  unfold resolve.
  repeat match goal with
         | |- context [if ?b then _ else _] => destruct b eqn:?
         end.
  - reflexivity.
  - apply includes_here, startsWith_app.
  - now apply includes_here.
  - apply includes_here, startsWith_app.
  - apply includes_app_r, includes_here, startsWith_app.
Qed.

(** So it names no inherited member of the file system object: looking it
    up finds an own entry or nothing. *)
Lemma resolved_slot (fs : gmap string (list FileSystemItem.t))
    (cwd : string) (target : option string) :
  slot_truthy (property fs (resolve cwd target))
  = match fs !! resolve cwd target with Some _ => true | None => false end.
Proof.
  unfold property. destruct (fs !! resolve cwd target); [reflexivity|].
  destruct (mem _ objectPrototypeKeys) eqn:Hmem; [|reflexivity].
  unfold mem in Hmem. apply existsb_exists in Hmem as (key & Hin & Heq).
  apply String.eqb_eq in Heq as <-.
  pose proof prototype_keys_have_no_slash as Hall.
  rewrite List.Forall_forall in Hall. specialize (Hall _ Hin). cbv beta in Hall.
  rewrite resolve_has_slash in Hall. discriminate.
Qed.

(** [resolve] computes the target the specification describes. *)
Lemma resolve_cd_target (cwd : string) (target : option string) :
  cd_target cwd target (resolve cwd target).
Proof.
  destruct target as [target|]; [|constructor].
  unfold resolve, truthy, is_, show, segments.
  destruct (String.eqb_spec target "") as [-> | Hempty]; [constructor|].
  destruct (String.eqb_spec target "~") as [-> | Htilde]; [constructor|].
  cbn [negb orb].
  destruct (String.eqb_spec target "..") as [-> | Hparent]; [constructor|].
  destruct (startsWith target "/") eqn:Hslash; [now constructor|].
  change (cd_target cwd (Some target) (append_path cwd target)).
  now constructor.
Qed.

(** The description leaves no choice. *)
Lemma cd_target_functional (cwd : string) (target : option string)
    (p q : string) :
  cd_target cwd target p -> cd_target cwd target q -> p = q.
Proof.
  intros Hp Hq.
  destruct Hp; inversion Hq; subst; try reflexivity; try discriminate;
    congruence.
Qed.

(** C4: [cd] resolves its target as the specification says (no argument
    or [~]: the home directory; [..]: the current path without its last
    segment, the root staying the root; a leading slash: the target as it
    is; anything else: appended to the current directory).  When the
    resolved path is a key of the file system, the directory changes to
    it, with an empty output and exit code 0; otherwise the current
    directory is what it was, the output reports [No such file or
    directory] and the exit code is 1.  So the current directory after
    [cd] is a key of the file system whenever it was one before. *)
Theorem cd_resolves_and_checks (h : Host) (e : Env) (st : TerminalState.t)
    (command : string) (rest : list string) :
  tokens command = "cd" :: rest ->
  let cwd := currentDirectory st in
  let r := record_of h e st command in
  let st' := state_after h e st command in
  exists resolved,
    cd_target cwd (rest !! 0%nat) resolved /\
    match fileSystem st !! resolved with
    | Some _ =>
        currentDirectory st' = resolved /\
        TerminalCommand.output r = "" /\ TerminalCommand.exitCode r = 0
    | None =>
        currentDirectory st' = cwd /\
        includes (TerminalCommand.output r) "No such file or directory" = true /\
        TerminalCommand.exitCode r = 1
    end /\
    (is_Some (fileSystem st !! cwd) ->
     is_Some (fileSystem st' !! currentDirectory st')) /\
    cd_target "/" (Some "..") "/".
Proof.
  intros Htokens cwd r st'.
  exists (resolve cwd (rest !! 0%nat)).
  split; [apply resolve_cd_target|].
  unfold r, st', record_of, state_after. rewrite executeCommand_unfold.
  cbn [fst snd currentDirectory fileSystem
       TerminalCommand.output TerminalCommand.exitCode].
  unfold commandName. rewrite Htokens.
  change (default "" (head ("cd" :: rest))) with "cd".
  rewrite dispatch_cd. unfold case_cd, arg.
  cbn [host env state cmd args].
  change (("cd" :: rest) !! 1%nat) with (rest !! 0%nat).
  fold cwd. rewrite resolved_slot.
  destruct (fileSystem st !! resolve cwd (rest !! 0%nat)) as [items|] eqn:Hkey;
    cbn [try_catch output exitCode newDirectory].
  - split; [repeat split|]. split; [|apply (cd_parent "/")].
    intros _. rewrite Hkey. now exists items.
  - split; [|split; [intros Hcwd; exact Hcwd | apply (cd_parent "/")]].
    split; [reflexivity|]. split; [|reflexivity].
    repeat apply includes_app_r. reflexivity.
Qed.

Lemma cd_resolves_and_checks_witness :
  currentDirectory (state_after sampleHost sampleEnv initialState "cd projects")
  = "/home/user/projects" /\
  currentDirectory (state_after sampleHost sampleEnv initialState "cd nowhere")
  = "/home/user".
Proof.
  destruct (cd_resolves_and_checks sampleHost sampleEnv initialState
              "cd projects" ["projects"] eq_refl)
    as (p & Hp & Hfound & _).
  destruct (cd_resolves_and_checks sampleHost sampleEnv initialState
              "cd nowhere" ["nowhere"] eq_refl)
    as (q & Hq & Hmissing & _).
  rewrite (cd_target_functional _ _ _ _ Hp
             (resolve_cd_target "/home/user" (Some "projects"))) in Hfound.
  rewrite (cd_target_functional _ _ _ _ Hq
             (resolve_cd_target "/home/user" (Some "nowhere"))) in Hmissing.
  split; [exact (proj1 Hfound) | exact (proj1 Hmissing)].
Defined.

(** C3, as amended: for each of [cat], [head], [tail], [less], [more],
    [wc], [stat] and [file], a missing (or empty) file name gives the
    error [<name>: missing file operand] with exit code 1; each command
    knows its own fixed file names ([cat]: the readme and the dotfile;
    [head], [less], [more], [wc], [stat]: the readme; [file]: the readme
    and [script.sh]; [tail]: [/var/log/syslog], or any name when [-f] is
    among the tokens) and exits with code 0 on them; any other file name
    gives an output that contains [No such file or directory], with exit
    code 1. *)
Theorem content_commands (h : Host) (e : Env) (st : TerminalState.t)
    (command name : string) (rest : list string) :
  In name contentCommands ->
  tokens command = name :: rest ->
  let r := record_of h e st command in
  content_outcome name rest
    (TerminalCommand.output r) (TerminalCommand.exitCode r).
Proof.
  intros Hin Htokens r. unfold r, record_of. rewrite executeCommand_unfold.
  cbn [fst TerminalCommand.output TerminalCommand.exitCode].
  unfold commandName. rewrite Htokens.
  exact (content_dispatch name Hin h e st rest).
Qed.

(** C3, as the claim states it, fails: [tail] knows the system log, which
    is neither the readme nor the dotfile, and [file] knows the script;
    both exit with code 0 and report no missing file. *)
Lemma tail_knows_the_system_log :
  let r := record_of sampleHost sampleEnv initialState "tail /var/log/syslog" in
  let r' := record_of sampleHost sampleEnv initialState "file script.sh" in
  In "tail" contentCommands /\ In "file" contentCommands /\
  "/var/log/syslog" <> "readme.txt" /\ "/var/log/syslog" <> ".bashrc" /\
  "script.sh" <> "readme.txt" /\ "script.sh" <> ".bashrc" /\
  TerminalCommand.exitCode r = 0 /\
  includes (TerminalCommand.output r) "No such file or directory" = false /\
  TerminalCommand.exitCode r' = 0 /\
  includes (TerminalCommand.output r') "No such file or directory" = false.
Proof.
  cbv zeta. repeat split; try discriminate; try reflexivity.
  - simpl. tauto.
  - simpl. tauto.
Qed.

Lemma content_commands_witness :
  let r := record_of sampleHost sampleEnv initialState "head .bashrc" in
  TerminalCommand.exitCode r = 1 /\
  includes (TerminalCommand.output r) "No such file or directory" = true.
Proof.
  apply (content_commands sampleHost sampleEnv initialState "head .bashrc"
           "head" [".bashrc"]).
  - simpl. tauto.
  - reflexivity.
Defined.

End ExecutorSpec.

(** ** The example scenarios of the specification *)

Module Scenarios.
Import JS TerminalState Predictor Executor Notions.

Example pwd_prints_the_directory :
  let r := record_of sampleHost sampleEnv initialState "pwd" in
  TerminalCommand.output r = "/home/user" /\
  TerminalCommand.exitCode r = 0 /\
  currentDirectory (state_after sampleHost sampleEnv initialState "pwd")
  = "/home/user".
Proof. repeat split. Qed.

Example cd_nowhere_fails :
  let r := record_of sampleHost sampleEnv initialState "cd nowhere" in
  TerminalCommand.output r = "cd: nowhere: No such file or directory" /\
  TerminalCommand.exitCode r = 1 /\
  currentDirectory (state_after sampleHost sampleEnv initialState "cd nowhere")
  = "/home/user".
Proof. repeat split. Qed.

Example cd_parent_and_root :
  resolve "/home/user" (Some "..") = "/home" /\
  resolve "/" (Some "..") = "/" /\
  resolve "/" (Some "home") = "/home" /\
  resolve "/home" (Some "user") = "/home/user" /\
  resolve "/home" None = "/home/user".
Proof. repeat split. Qed.

Example cat_missing_file :
  let r := record_of sampleHost sampleEnv initialState "cat missing.txt" in
  TerminalCommand.output r = "cat: missing.txt: No such file or directory" /\
  TerminalCommand.exitCode r = 1.
Proof. repeat split. Qed.

Example predict_fin :
  predictWorkflow "fin" []
  = Some ("find . -name " +:+ dq +:+ "*.txt" +:+ dq +:+ " -type f").
Proof. reflexivity. Qed.

Example predict_git_after_status :
  predictWorkflow "git" [ran "git status"] = Some "git add .".
Proof. reflexivity. Qed.

Example unknowncmd_is_not_found :
  let r := record_of sampleHost sampleEnv initialState "unknowncmd" in
  TerminalCommand.exitCode r = 127 /\
  includes (TerminalCommand.output r) "command not found" = true.
Proof. repeat split. Qed.

(** Errors are recorded like successes. *)
Example errors_are_recorded :
  length (history (state_after sampleHost sampleEnv initialState "cat missing.txt"))
  = 1%nat /\
  length (history (state_after sampleHost sampleEnv initialState "unknowncmd"))
  = 1%nat.
Proof. repeat split. Qed.

End Scenarios.

(** ** Further facts about the string primitives *)

Module StringLaws.
Import JS Executor Laws StringFacts.

Lemma lower_char_idempotent (ch : ascii) :
  lower_char (lower_char ch) = lower_char ch.
Proof. destruct ch as [[] [] [] [] [] [] [] []]; reflexivity. Qed.

Lemma lower_char_space (ch : ascii) :
  Ascii.is_space (lower_char ch) = Ascii.is_space ch.
Proof. destruct ch as [[] [] [] [] [] [] [] []]; reflexivity. Qed.

Lemma toLowerCase_idempotent (s : string) :
  toLowerCase (toLowerCase s) = toLowerCase s.
Proof.
  induction s as [|ch s IH]; [reflexivity|]. simpl.
  now rewrite lower_char_idempotent, IH.
Qed.

Lemma toLowerCase_empty (s : string) :
  String.eqb (toLowerCase s) "" = String.eqb s "".
Proof. now destruct s. Qed.

Lemma toLowerCase_trimStart (s : string) :
  toLowerCase (trimStart s) = trimStart (toLowerCase s).
Proof.
  induction s as [|ch s IH]; [reflexivity|]. simpl.
  rewrite lower_char_space. now destruct (Ascii.is_space ch).
Qed.

Lemma toLowerCase_trimEnd (s : string) :
  toLowerCase (trimEnd s) = trimEnd (toLowerCase s).
Proof.
  induction s as [|ch s IH]; [reflexivity|]. simpl.
  rewrite lower_char_space, <- IH, toLowerCase_empty.
  now destruct (Ascii.is_space ch && String.eqb (trimEnd s) "").
Qed.

Lemma toLowerCase_trim (s : string) :
  toLowerCase (trim s) = trim (toLowerCase s).
Proof. unfold trim. now rewrite toLowerCase_trimEnd, toLowerCase_trimStart. Qed.

Lemma trimStart_clean (s : string) : starts_clean (trimStart s).
Proof.
  induction s as [|ch s IH]; [exact I|]. simpl.
  destruct (Ascii.is_space ch) eqn:E; [exact IH | exact E].
Qed.

Lemma trimStart_fixed (s : string) : starts_clean s -> trimStart s = s.
Proof. destruct s as [|ch s]; [reflexivity|]. simpl. now intros ->. Qed.

Lemma trimEnd_clean (s : string) : starts_clean s -> starts_clean (trimEnd s).
Proof.
  destruct s as [|ch s]; [exact id|]. simpl. intros E. now rewrite E.
Qed.

Lemma trimEnd_idempotent (s : string) : trimEnd (trimEnd s) = trimEnd s.
Proof.
  induction s as [|ch s IH]; [reflexivity|]. simpl.
  destruct (Ascii.is_space ch && String.eqb (trimEnd s) "") eqn:E;
    [reflexivity|].
  simpl. now rewrite IH, E.
Qed.

Lemma trim_idempotent (s : string) : trim (trim s) = trim s.
Proof.
  unfold trim.
  rewrite (trimStart_fixed (trimEnd (trimStart s))).
  - apply trimEnd_idempotent.
  - apply trimEnd_clean, trimStart_clean.
Qed.

Lemma trimEnd_blank (s : string) : trimEnd s = "" <-> blank s = true.
Proof.
  induction s as [|ch s IH]; [easy|]. simpl.
  destruct (Ascii.is_space ch); simpl.
  - destruct (String.eqb_spec (trimEnd s) "") as [E | E].
    + split; [intros _; now apply IH | reflexivity].
    + split; [discriminate|]. intros H. apply IH in H. contradiction.
  - split; discriminate.
Qed.

Lemma trimStart_blank (s : string) : trimStart s = "" <-> blank s = true.
Proof.
  induction s as [|ch s IH]; [easy|]. simpl.
  destruct (Ascii.is_space ch); simpl; [exact IH|]. split; discriminate.
Qed.

Lemma blank_trimStart (s : string) :
  blank (trimStart s) = true -> trimStart s = "".
Proof.
  pose proof (trimStart_clean s) as H.
  destruct (trimStart s) as [|ch t]; [reflexivity|]. simpl in *.
  now rewrite H.
Qed.

(** A line trims to nothing exactly when it is white space only. *)
Lemma trim_blank (s : string) : trim s = "" <-> blank s = true.
Proof.
  unfold trim. rewrite trimEnd_blank. split.
  - intros H. now apply trimStart_blank, blank_trimStart.
  - intros H. apply trimStart_blank in H. now rewrite H.
Qed.

Lemma split_nonempty (sep : ascii) (s : string) : split sep s <> [].
Proof.
  destruct s as [|ch s]; simpl; [discriminate|].
  destruct (Ascii.eqb ch sep); [discriminate|].
  destruct (split sep s); discriminate.
Qed.

(** Joining the pieces with the separator gives the string back. *)
Lemma join_split (sep : ascii) (s : string) :
  join (String sep "") (split sep s) = s.
Proof.
  unfold join. induction s as [|ch s IH]; [reflexivity|]. simpl.
  pose proof (split_nonempty sep s) as Hne.
  destruct (Ascii.eqb_spec ch sep) as [-> | Hch].
  - destruct (split sep s) as [|t ts]; [contradiction|].
    change (String.concat (String sep "") ("" :: t :: ts))
      with (String sep (String.concat (String sep "") (t :: ts))).
    now rewrite IH.
  - destruct (split sep s) as [|t ts]; [contradiction|].
    rewrite <- IH. destruct ts; reflexivity.
Qed.

(** Splitting at a separator splits the halves. *)
Lemma split_app (sep : ascii) (a b : string) :
  split sep (a +:+ String sep b) = split sep a ++ split sep b.
Proof.
  induction a as [|ch a IH].
  - change ("" +:+ String sep b) with (String sep b). simpl.
    now rewrite Ascii.eqb_refl.
  - change (String ch a +:+ String sep b) with (String ch (a +:+ String sep b)).
    simpl. rewrite IH.
    pose proof (split_nonempty sep a) as Hne.
    destruct (Ascii.eqb ch sep); [reflexivity|].
    destruct (split sep a) as [|t ts]; [contradiction | reflexivity].
Qed.

(** A string without the separator is one piece. *)
Lemma split_single (sep : ascii) (s : string) :
  includes s (String sep "") = false -> split sep s = [s].
Proof.
  induction s as [|ch s IH]; [reflexivity|]. cbn [includes]. intros H.
  apply orb_false_iff in H as [Hhere Hrest]. simpl.
  destruct (Ascii.eqb_spec ch sep) as [-> | Hch].
  - now rewrite startsWith_cons, startsWith_empty in Hhere.
  - now rewrite (IH Hrest).
Qed.

Lemma split_pieces (sep : ascii) (s : string) :
  Forall (fun piece => includes piece (String sep "") = false) (split sep s).
Proof.
  induction s as [|ch s IH]; [repeat constructor|]. simpl.
  destruct (Ascii.eqb_spec ch sep) as [-> | Hch].
  - constructor; [reflexivity | exact IH].
  - destruct (split sep s) as [|t ts]; [repeat constructor|].
    + cbn [includes]. unfold startsWith. simpl.
      destruct (ascii_dec sep ch) as [E|_]; [now elim Hch | reflexivity].
    + apply Forall_cons in IH as [Ht Hts]. constructor; [|exact Hts].
      cbn [includes]. rewrite Ht, orb_false_r. unfold startsWith. simpl.
      destruct (ascii_dec sep ch) as [E|_]; [now elim Hch | reflexivity].
Qed.

End StringLaws.

(** ** Further properties of the predictor *)

Module PredictorLaws.
Import JS Predictor Notions Laws StringFacts StringLaws PredictorSpec.

Lemma normalize_idempotent (x : string) : normalize (normalize x) = normalize x.
Proof.
  unfold normalize.
  now rewrite toLowerCase_trim, toLowerCase_idempotent, trim_idempotent.
Qed.

(** X1: the prediction does not depend on the case of the input nor on the
    white space around it, nor on the case of the last command: an input
    and its normalized form get the same prediction, and so do two
    histories whose last commands differ in case only. *)
Theorem predict_ignores_case_and_padding (x : string)
    (h1 h2 : list TerminalCommand.t) :
  (toLowerCase <$> (TerminalCommand.command <$> last h1))
  = (toLowerCase <$> (TerminalCommand.command <$> last h2)) ->
  predictWorkflow x h1 = predictWorkflow (normalize x) h2.
Proof.
  intros H. unfold predictWorkflow. rewrite normalize_idempotent.
  unfold predictNormalized.
  destruct (directMatch (normalize x)); [reflexivity|].
  destruct (last h1) as [r1|], (last h2) as [r2|]; simpl in H;
    try discriminate; [|reflexivity].
  injection H as ->. reflexivity.
Qed.

Lemma predict_ignores_case_and_padding_witness :
  predictWorkflow "  GIT " [ran "Git Status"]
  = predictWorkflow (normalize "  GIT ") [ran "git status"].
Proof.
  apply (predict_ignores_case_and_padding "  GIT "). reflexivity.
Defined.

Lemma startsWith_trans (a b c : string) :
  startsWith a b = true -> startsWith b c = true -> startsWith a c = true.
Proof.
  unfold startsWith. revert a b.
  induction c as [|ch c IH]; intros a b Hab Hbc; [now destruct a|].
  destruct b as [|ch' b]; [discriminate|]. simpl in Hbc.
  destruct (ascii_dec ch ch') as [<-|]; [|discriminate].
  destruct a as [|ch'' a]; [discriminate|]. simpl in Hab |- *.
  destruct (ascii_dec ch ch'') as [<-|]; [|discriminate].
  exact (IH a b Hab Hbc).
Qed.

(** Every suggestion of the table starts with its key. *)
Lemma suggestions_extend_keys :
  Forall (fun entry => startsWith (snd entry) (fst entry) = true)
    workflowPatterns.
Proof.
  unfold workflowPatterns.
  repeat (apply Forall_cons_2; [reflexivity|]). apply Forall_nil_2.
Qed.

(** X2: a prediction of the static phase is a completion of what was
    typed: it starts with the normalized input and is strictly longer. *)
Theorem static_prediction_completes_input (input suggestion : string) :
  directMatch input = Some suggestion ->
  startsWith suggestion input = true /\
  (String.length input < String.length suggestion)%nat.
Proof.
  intros H. apply directMatch_In in H as (pattern & Hin & Hpre & Hne).
  simpl in Hpre, Hne.
  pose proof suggestions_extend_keys as Hext.
  pose proof suggestions_not_shorter as Hlen.
  rewrite List.Forall_forall in Hext, Hlen.
  specialize (Hext _ Hin). specialize (Hlen _ Hin). simpl in Hext, Hlen.
  split; [exact (startsWith_trans _ _ _ Hext Hpre)|].
  pose proof (startsWith_shorter _ _ Hpre Hne). lia.
Qed.

Lemma static_prediction_completes_input_witness :
  startsWith "whoami" "wh" = true /\
  (String.length "wh" < String.length "whoami")%nat.
Proof.
  apply (static_prediction_completes_input "wh" "whoami"). reflexivity.
Defined.

(** Whatever the predictor returns is one of its forty suggestions. *)
Lemma predictNormalized_range (input suggestion : string)
    (history : list TerminalCommand.t) :
  predictNormalized input history = Some suggestion ->
  In suggestion allSuggestions.
Proof.
  unfold predictNormalized, allSuggestions. intros H. apply in_or_app.
  destruct (directMatch input) as [s|] eqn:E.
  - injection H as ->. left.
    apply directMatch_In in E as (pattern & Hin & _).
    apply in_map_iff. now exists (pattern, suggestion).
  - right. destruct (last history) as [r|]; [|discriminate].
    revert H. unfold contextMatch.
    repeat match goal with
           | |- context [if ?b then _ else _] => destruct b
           end; intros [= <-]; simpl; tauto.
Qed.

(** No key of the table properly extends a suggestion, and the rules on
    the last command answer a suggestion with itself or not at all. *)
Lemma suggestions_are_stable :
  Forall (fun s =>
    directMatch (normalize s) = None /\
    forall lastCommand,
      contextMatch lastCommand (normalize s) = None \/
      contextMatch lastCommand (normalize s) = Some s) allSuggestions.
Proof.
  unfold allSuggestions, workflowPatterns. cbn [fmap list_fmap snd app].
  repeat (apply Forall_cons_2;
    [split; [reflexivity|];
     intros lastCommand;
     match goal with
     | |- context [normalize ?s] =>
         let x := eval vm_compute in (normalize s) in
         change (normalize s) with x
     end;
     unfold contextMatch, isGit, startsWith;
     cbn [String.prefix String.eqb Ascii.eqb Bool.eqb ascii_dec ascii_rec
          ascii_rect bool_dec bool_rec bool_rect sumbool_rec sumbool_rect
          andb orb];
     repeat case_match; rewrite ?andb_false_r in *; try discriminate; auto|]).
  apply Forall_nil_2.
Qed.

(** Accepting a prediction is stable: for the suggestion itself as input,
    the predictor returns nothing or that same suggestion. *)
Lemma accepted_prediction_is_stable (x suggestion : string)
    (history : list TerminalCommand.t) :
  predictWorkflow x history = Some suggestion ->
  predictWorkflow suggestion history = None \/
  predictWorkflow suggestion history = Some suggestion.
Proof.
  intros H. apply predictNormalized_range in H.
  pose proof suggestions_are_stable as Hall.
  rewrite List.Forall_forall in Hall. destruct (Hall _ H) as [Hd Hc].
  unfold predictWorkflow, predictNormalized. rewrite Hd.
  destruct (last history) as [r|]; [apply Hc | now left].
Qed.

End PredictorLaws.

(** ** Further properties of the executor *)

Module ExecutorLaws.
Import JS TerminalState Executor Notions Laws StringFacts StringLaws.
Import ExecutorFacts ExecutorSpec.

Ltac open_handler handler :=
  unfold handler, say, fail, arg, has, lastArg, argAfter; cbv zeta.

Ltac exits handler :=
  intros c l Hl; open_handler handler;
  repeat case_match; cbn [try_catch exitCode]; auto.

Ltac stateless handler :=
  intros h e st1 st2 name argv l1 l2 Hl; open_handler handler;
  cbn [host env state cmd args];
  repeat case_match; cbn [try_catch output exitCode]; auto.

Ltac placed handler :=
  intros h e st1 st2 name argv l Hcwd Hfs; open_handler handler;
  cbn [host env state cmd args]; rewrite ?Hcwd, ?Hfs; reflexivity.

Ltac for_each_case tac :=
  unfold cases;
  repeat (apply Forall_cons_2;
          [cbn [fst snd];
           match goal with
           | |- _ \/ ?P ?handler => first [left; reflexivity | right; tac handler]
           | |- ?P ?handler => tac handler
           end|]);
  apply Forall_nil_2.

Lemma cases_exit_0_or_1 :
  Forall (fun entry => exits_0_or_1 (snd entry)) cases.
Proof. for_each_case exits. Qed.

Lemma cases_ignore_state :
  Forall (fun entry => In (fst entry) stateReaders \/ ignores_state (snd entry))
    cases.
Proof.
  unfold cases.
  repeat (apply Forall_cons_2;
          [cbn [fst snd];
           first [left; simpl; tauto
                 | right;
                   match goal with |- ignores_state ?handler => stateless handler end]|]).
  apply Forall_nil_2.
Qed.

Lemma cases_read_place_only :
  Forall (fun entry => reads_place_only (snd entry)) cases.
Proof. for_each_case placed. Qed.

Lemma handler_names_iff (name : string) :
  In name handlerNames <-> In (name, dispatch name) cases.
Proof.
  split.
  - intros Hin. destruct (dispatch_cases name) as [[_ Hout] | H];
      [now elim Hout | exact H].
  - intros Hin. apply in_map_iff. now exists (name, dispatch name).
Qed.

(** The exit code of a command, by whether the switch has its name. *)
Lemma exit_code_cases (h : Host) (e : Env) (st : TerminalState.t)
    (command : string) :
  let code := TerminalCommand.exitCode (record_of h e st command) in
  (In (commandName command) handlerNames /\ (code = 0 \/ code = 1)) \/
  (~ In (commandName command) handlerNames /\ code = 127).
Proof.
  unfold record_of. rewrite executeCommand_unfold.
  cbn [fst TerminalCommand.exitCode].
  destruct (dispatch_cases (commandName command)) as [[Hd Hout] | Hin].
  - right. split; [exact Hout|]. rewrite Hd. reflexivity.
  - left. split; [now apply handler_names_iff|].
    pose proof cases_exit_0_or_1 as Hall.
    rewrite List.Forall_forall in Hall.
    exact (Hall _ Hin {| host := h; env := e; state := st;
                         cmd := commandName command;
                         args := tokens command |}
             {| output := ""; exitCode := 0;
                newDirectory := currentDirectory st |} eq_refl).
Qed.

(** X3: the exit code of every execution is 0, 1 or 127, and it is 127
    exactly when the command name is none of the labels of the switch: no
    handler, failing or raising, ever reports 127 or any other code. *)
Theorem exit_code_partition (h : Host) (e : Env) (st : TerminalState.t)
    (command : string) :
  let code := TerminalCommand.exitCode (record_of h e st command) in
  (code = 0 \/ code = 1 \/ code = 127) /\
  (code = 127 <-> ~ In (commandName command) handlerNames).
Proof.
  cbv zeta. destruct (exit_code_cases h e st command) as [[Hin Hc] | [Hout Hc]].
  - split; [tauto|]. split; [|tauto]. intros H127.
    destruct Hc as [Hc | Hc]; rewrite Hc in H127; discriminate.
  - split; [tauto|]. tauto.
Qed.

(** X4: apart from [ls], [pwd] and [cd], no command reads the session
    state: its output and exit code are the same whatever the current
    directory, the history and the file system are. *)
Theorem output_ignores_state (h : Host) (e : Env)
    (st1 st2 : TerminalState.t) (command : string) :
  ~ In (commandName command) stateReaders ->
  TerminalCommand.output (record_of h e st1 command)
  = TerminalCommand.output (record_of h e st2 command) /\
  TerminalCommand.exitCode (record_of h e st1 command)
  = TerminalCommand.exitCode (record_of h e st2 command).
Proof.
  intros Hout. unfold record_of. rewrite !executeCommand_unfold.
  cbn [fst TerminalCommand.output TerminalCommand.exitCode].
  destruct (dispatch_cases (commandName command)) as [[Hd _] | Hin].
  - rewrite Hd. split; reflexivity.
  - pose proof cases_ignore_state as Hall.
    rewrite List.Forall_forall in Hall.
    destruct (Hall _ Hin) as [Hreader | Hblind]; [now elim Hout|].
    exact (Hblind h e st1 st2 _ _
             {| output := ""; exitCode := 0;
                newDirectory := currentDirectory st1 |}
             {| output := ""; exitCode := 0;
                newDirectory := currentDirectory st2 |} eq_refl).
Qed.

Lemma output_ignores_state_witness :
  TerminalCommand.output
    (record_of sampleHost sampleEnv initialState "cat readme.txt")
  = TerminalCommand.output
      (record_of sampleHost sampleEnv
         (TerminalState.mk "/nowhere" [ran "ls"] ∅ true) "cat readme.txt").
Proof.
  apply (output_ignores_state sampleHost sampleEnv initialState
           (TerminalState.mk "/nowhere" [ran "ls"] ∅ true) "cat readme.txt").
  vm_compute. intuition discriminate.
Defined.

(** X5: no command reads the history or the executing flag: two states
    with the same current directory and the same file system give the same
    record and the same next directory. *)
Theorem record_ignores_history (h : Host) (e : Env)
    (st1 st2 : TerminalState.t) (command : string) :
  currentDirectory st1 = currentDirectory st2 ->
  fileSystem st1 = fileSystem st2 ->
  record_of h e st1 command = record_of h e st2 command /\
  currentDirectory (state_after h e st1 command)
  = currentDirectory (state_after h e st2 command).
Proof.
  intros Hcwd Hfs. unfold record_of, state_after.
  rewrite !executeCommand_unfold. cbn [fst snd currentDirectory].
  assert (Hrun : forall l,
    dispatch (commandName command)
      {| host := h; env := e; state := st1;
         cmd := commandName command; args := tokens command |} l
    = dispatch (commandName command)
        {| host := h; env := e; state := st2;
           cmd := commandName command; args := tokens command |} l).
  { intros l. destruct (dispatch_cases (commandName command)) as [[Hd _] | Hin].
    - rewrite Hd. reflexivity.
    - pose proof cases_read_place_only as Hall.
      rewrite List.Forall_forall in Hall.
      exact (Hall _ Hin h e st1 st2 _ _ l Hcwd Hfs). }
  rewrite Hcwd, Hrun. split; reflexivity.
Qed.

Lemma record_ignores_history_witness :
  record_of sampleHost sampleEnv initialState "ls"
  = record_of sampleHost sampleEnv
      (TerminalState.mk "/home/user" [ran "pwd"; ran "ls"] mockFileSystem true)
      "ls".
Proof.
  apply (record_ignores_history sampleHost sampleEnv initialState
           (TerminalState.mk "/home/user" [ran "pwd"; ran "ls"]
              mockFileSystem true) "ls"); reflexivity.
Defined.

Lemma tokens_trim (command : string) : tokens (trim command) = tokens command.
Proof. unfold tokens. now rewrite trim_idempotent. Qed.

(** X6: [executeCommand] trims the line itself: white space around the
    line changes nothing but the command text the record keeps. *)
Theorem execute_ignores_padding (h : Host) (e : Env) (st : TerminalState.t)
    (command : string) :
  let r := record_of h e st command in
  let r' := record_of h e st (trim command) in
  TerminalCommand.output r = TerminalCommand.output r' /\
  TerminalCommand.exitCode r = TerminalCommand.exitCode r' /\
  TerminalCommand.command r = command /\
  currentDirectory (state_after h e st command)
  = currentDirectory (state_after h e st (trim command)).
Proof.
  unfold record_of, state_after. rewrite !executeCommand_unfold.
  cbn [fst snd currentDirectory TerminalCommand.output
       TerminalCommand.exitCode TerminalCommand.command].
  unfold commandName. rewrite tokens_trim. repeat split.
Qed.

(** Where [cd] leaves the session. *)
Lemma execute_cd (h : Host) (e : Env) (st : TerminalState.t)
    (command : string) (rest : list string) :
  tokens command = "cd" :: rest ->
  currentDirectory (state_after h e st command)
  = match fileSystem st !! resolve (currentDirectory st) (rest !! 0%nat) with
    | Some _ => resolve (currentDirectory st) (rest !! 0%nat)
    | None => currentDirectory st
    end.
Proof.
  intros Htokens. unfold state_after. rewrite executeCommand_unfold.
  cbn [snd currentDirectory]. unfold commandName. rewrite Htokens.
  change (default "" (head ("cd" :: rest))) with "cd".
  rewrite dispatch_cd. unfold case_cd, arg. cbn [host env state cmd args].
  change (("cd" :: rest) !! 1%nat) with (rest !! 0%nat).
  rewrite resolved_slot.
  now destruct (fileSystem st !! resolve (currentDirectory st) (rest !! 0%nat)).
Qed.

Lemma filter_nonempty_snoc (xs : list string) (x : string) :
  x <> "" ->
  List.filter nonempty (xs ++ [x]) = List.filter nonempty xs ++ [x].
Proof.
  intros Hx. rewrite List.filter_app. simpl. unfold nonempty at 2.
  now destruct (String.eqb_spec x "").
Qed.

(** The segments of a path with one more name at its end. *)
Lemma segments_child (cwd child : string) :
  child <> "" -> includes child "/" = false ->
  segments (cwd +:+ "/" +:+ child) = segments cwd ++ [child].
Proof.
  intros Hne Hslash. unfold segments.
  change (cwd +:+ "/" +:+ child) with (cwd +:+ String "/" child).
  rewrite split_app, (split_single _ _ Hslash).
  now apply filter_nonempty_snoc.
Qed.

Lemma resolve_child (cwd child : string) :
  child <> "" -> child <> "~" -> child <> ".." ->
  includes child "/" = false ->
  resolve cwd (Some child) = append_path cwd child.
Proof.
  intros Hne Htilde Hparent Hslash. unfold resolve, truthy, is_, show.
  destruct (String.eqb_spec child ""); [contradiction|].
  destruct (String.eqb_spec child "~"); [contradiction|].
  destruct (String.eqb_spec child ".."); [contradiction|].
  cbn [negb orb].
  destruct (startsWith child "/") eqn:E; [|reflexivity].
  apply includes_here in E. congruence.
Qed.

(** The parent of a child is where one came from. *)
Lemma resolve_parent_of_child (cwd child : string) :
  canonical cwd -> child <> "" -> includes child "/" = false ->
  resolve (append_path cwd child) (Some "..") = cwd.
Proof.
  intros Hcanon Hne Hslash.
  change (resolve (append_path cwd child) (Some ".."))
    with ("/" +:+ join "/" (removelast (segments (append_path cwd child)))).
  assert (Hseg : segments (append_path cwd child) = segments cwd ++ [child]).
  { unfold append_path. destruct (String.eqb_spec cwd "/") as [-> | _].
    - exact (segments_child "" child Hne Hslash).
    - now apply segments_child. }
  rewrite Hseg, removelast_last. symmetry. exact Hcanon.
Qed.

(** X7: going into a child directory and then to the parent leads back:
    from a current directory in canonical form that is a key of the file
    system, a successful [cd child] followed by [cd ..] ends where it
    started. *)
Theorem cd_child_then_parent (h : Host) (e e' : Env) (st : TerminalState.t)
    (command child : string) :
  tokens command = ["cd"; child] ->
  child <> "" -> child <> "~" -> child <> ".." ->
  includes child "/" = false ->
  canonical (currentDirectory st) ->
  is_Some (fileSystem st !! currentDirectory st) ->
  is_Some (fileSystem st !! append_path (currentDirectory st) child) ->
  let st1 := state_after h e st command in
  currentDirectory st1 = append_path (currentDirectory st) child /\
  currentDirectory (state_after h e' st1 "cd ..") = currentDirectory st.
Proof.
  intros Htokens Hne Htilde Hparent Hslash Hcanon [items Hcwd] [items' Hchild] st1.
  assert (H1 : currentDirectory st1 = append_path (currentDirectory st) child).
  { unfold st1. rewrite (execute_cd h e st command [child] Htokens).
    change ([child] !! 0%nat) with (Some child).
    rewrite (resolve_child _ _ Hne Htilde Hparent Hslash). now rewrite Hchild. }
  split; [exact H1|].
  rewrite (execute_cd h e' st1 "cd .." [".."] eq_refl).
  change ([".."] !! 0%nat) with (Some "..").
  assert (Hfs : fileSystem st1 = fileSystem st) by reflexivity.
  rewrite H1, Hfs, (resolve_parent_of_child _ _ Hcanon Hne Hslash).
  now rewrite Hcwd.
Qed.

Lemma cd_child_then_parent_witness :
  currentDirectory
    (state_after sampleHost sampleEnv
       (state_after sampleHost sampleEnv initialState "cd projects") "cd ..")
  = "/home/user".
Proof.
  apply (cd_child_then_parent sampleHost sampleEnv sampleEnv initialState
           "cd projects" "projects");
    try reflexivity; try discriminate.
  - now exists (default [] (mockFileSystem !! "/home/user")).
  - now exists (default [] (mockFileSystem !! "/home/user/projects")).
Defined.

Lemma dispatch_echo : dispatch "echo" = case_echo.
Proof. reflexivity. Qed.

(** X8: [echo] prints the rest of the line as it was typed, runs of spaces
    included: splitting at single spaces and joining with single spaces
    loses nothing. *)
Theorem echo_prints_the_rest (h : Host) (e : Env) (st : TerminalState.t)
    (command body : string) :
  trim command = "echo " +:+ body ->
  TerminalCommand.output (record_of h e st command) = body /\
  TerminalCommand.exitCode (record_of h e st command) = 0.
Proof.
  intros Htrim. unfold record_of. rewrite executeCommand_unfold.
  cbn [fst TerminalCommand.output TerminalCommand.exitCode].
  assert (Htokens : tokens command = "echo" :: split " " body).
  { unfold tokens. rewrite Htrim.
    change ("echo " +:+ body) with ("echo" +:+ String " " body).
    now rewrite split_app. }
  unfold commandName. rewrite Htokens.
  change (default "" (head ("echo" :: split " " body))) with "echo".
  rewrite dispatch_echo. unfold case_echo, say.
  cbn [host env state cmd args try_catch output exitCode drop].
  split; [|reflexivity]. apply (join_split " ").
Qed.

Lemma echo_prints_the_rest_witness :
  TerminalCommand.output
    (record_of sampleHost sampleEnv initialState "  echo a   b  c ")
  = "a   b  c".
Proof.
  apply (echo_prints_the_rest sampleHost sampleEnv initialState
           "  echo a   b  c " "a   b  c").
  reflexivity.
Defined.

Lemma dispatch_basename : dispatch "basename" = case_basename.
Proof. reflexivity. Qed.

Lemma dispatch_dirname : dispatch "dirname" = case_dirname.
Proof. reflexivity. Qed.

Lemma dispatch_ls : dispatch "ls" = case_ls.
Proof. reflexivity. Qed.

(** A string with the separator in it splits into two pieces at least. *)
Lemma split_two (sep : ascii) (s : string) :
  includes s (String sep "") = true -> (2 <= length (split sep s))%nat.
Proof.
  induction s as [|ch s IH]; [discriminate|]. cbn [includes]. intros H.
  simpl. pose proof (split_nonempty sep s) as Hne.
  destruct (Ascii.eqb_spec ch sep) as [-> | Hch].
  - destruct (split sep s); [contradiction | simpl; lia].
  - apply orb_true_iff in H as [H | H].
    + unfold startsWith in H. simpl in H.
      destruct (ascii_dec sep ch) as [E|_]; [now elim Hch | discriminate].
    + specialize (IH H). destruct (split sep s); simpl in *; lia.
Qed.

Lemma append_assoc (a b c : string) : (a +:+ b) +:+ c = a +:+ b +:+ c.
Proof.
  induction a as [|ch a IH]; [reflexivity|].
  change (String ch ((a +:+ b) +:+ c) = String ch (a +:+ b +:+ c)).
  now rewrite IH.
Qed.

(** All pieces but the last, the separator, the last piece. *)
Lemma join_removelast (sep : string) (xs : list string) :
  (2 <= length xs)%nat ->
  join sep xs = join sep (removelast xs) +:+ sep +:+ default "" (last xs).
Proof.
  unfold join. induction xs as [|x xs IH]; simpl; [lia|]. intros Hlen.
  destruct xs as [|y ys]; [simpl in Hlen; lia|].
  destruct ys as [|z zs]; [reflexivity|].
  change (String.concat sep (x :: y :: z :: zs))
    with (x +:+ sep +:+ String.concat sep (y :: z :: zs)).
  rewrite IH by (simpl; lia).
  change (removelast (x :: y :: z :: zs)) with (x :: removelast (y :: z :: zs)).
  change (last (x :: y :: z :: zs)) with (last (y :: z :: zs)).
  destruct (removelast (y :: z :: zs)) as [|w ws] eqn:E; [discriminate|].
  change (String.concat sep (x :: w :: ws))
    with (x +:+ sep +:+ String.concat sep (w :: ws)).
  now rewrite !append_assoc.
Qed.

Lemma last_piece (sep : ascii) (s : string) :
  includes (default "" (last (split sep s))) (String sep "") = false.
Proof.
  pose proof (split_pieces sep s) as Hall.
  destruct (last (split sep s)) as [piece|] eqn:E; [|reflexivity].
  rewrite List.Forall_forall in Hall. apply Hall.
  apply list_elem_of_In. now apply last_Some_elem_of.
Qed.

(** X9: [basename] and [dirname] take a path apart at its last slash:
    the base name has no slash in it; for a path with a slash, the
    directory name, a slash and the base name give the path back (the
    directory name being [/] when nothing stands before the last slash);
    for a path without a slash the base name is the path and the directory
    name is [/]. *)
Theorem dirname_basename_recompose (h : Host) (e : Env)
    (st : TerminalState.t) (command command' path : string)
    (rest rest' : list string) :
  tokens command = "basename" :: path :: rest ->
  tokens command' = "dirname" :: path :: rest' ->
  path <> "" ->
  let base := TerminalCommand.output (record_of h e st command) in
  let dir := TerminalCommand.output (record_of h e st command') in
  TerminalCommand.exitCode (record_of h e st command) = 0 /\
  TerminalCommand.exitCode (record_of h e st command') = 0 /\
  includes base "/" = false /\
  if includes path "/"
  then path = dir +:+ "/" +:+ base \/ (dir = "/" /\ path = "/" +:+ base)
  else base = path /\ dir = "/".
Proof.
  intros Hb Hd Hne. unfold record_of. rewrite !executeCommand_unfold.
  cbn [fst TerminalCommand.output TerminalCommand.exitCode].
  unfold commandName. rewrite Hb, Hd.
  change (default "" (head ("basename" :: path :: rest))) with "basename".
  change (default "" (head ("dirname" :: path :: rest'))) with "dirname".
  rewrite dispatch_basename, dispatch_dirname.
  unfold case_basename, case_dirname, say, fail, arg, truthy.
  cbn [host env state cmd args].
  change (("basename" :: path :: rest) !! 1%nat) with (Some path).
  change (("dirname" :: path :: rest') !! 1%nat) with (Some path).
  cbv beta iota.
  destruct (String.eqb_spec path ""); [contradiction|].
  cbn [negb show try_catch output exitCode].
  split; [reflexivity|]. split; [reflexivity|].
  split; [apply (last_piece "/")|].
  destruct (includes path "/") eqn:Hslash.
  - pose proof (join_removelast "/" _ (split_two "/" _ Hslash)) as Hjoin.
    rewrite (join_split "/") in Hjoin.
    unfold nonempty.
    destruct (String.eqb_spec (join "/" (removelast (split "/" path))) "")
      as [Hempty | _]; cbn [negb].
    + right. split; [reflexivity|]. now rewrite Hempty in Hjoin.
    + left. exact Hjoin.
  - rewrite (split_single "/" _ Hslash). split; reflexivity.
Qed.

Lemma dirname_basename_recompose_witness :
  "/var/log/syslog"
  = TerminalCommand.output
      (record_of sampleHost sampleEnv initialState "dirname /var/log/syslog")
    +:+ "/"
    +:+ TerminalCommand.output
          (record_of sampleHost sampleEnv initialState "basename /var/log/syslog")
  \/ (TerminalCommand.output
        (record_of sampleHost sampleEnv initialState "dirname /var/log/syslog")
      = "/" /\
      "/var/log/syslog"
      = "/" +:+ TerminalCommand.output
          (record_of sampleHost sampleEnv initialState "basename /var/log/syslog")).
Proof.
  apply (dirname_basename_recompose sampleHost sampleEnv initialState
           "basename /var/log/syslog" "dirname /var/log/syslog"
           "/var/log/syslog" [] []);
    [reflexivity | reflexivity | discriminate].
Defined.

(** X10: [ls] takes its first argument for the path even when it is a
    flag, and never reports a missing directory: when that argument (or,
    without one, the current directory) is no key of the file system and no
    inherited member of the object, the output is empty and the exit code
    0. *)
Theorem ls_of_unknown_path_is_empty (h : Host) (e : Env)
    (st : TerminalState.t) (command : string) (rest : list string) :
  tokens command = "ls" :: rest ->
  let path := or_else (rest !! 0%nat) (currentDirectory st) in
  fileSystem st !! path = None ->
  ~ In path objectPrototypeKeys ->
  TerminalCommand.output (record_of h e st command) = "" /\
  TerminalCommand.exitCode (record_of h e st command) = 0.
Proof.
  intros Htokens path Hmissing Hown. unfold record_of.
  rewrite executeCommand_unfold.
  cbn [fst TerminalCommand.output TerminalCommand.exitCode].
  unfold commandName. rewrite Htokens.
  change (default "" (head ("ls" :: rest))) with "ls".
  rewrite dispatch_ls. unfold case_ls, say, arg, has.
  cbn [host env state cmd args].
  change (("ls" :: rest) !! 1%nat) with (rest !! 0%nat). fold path.
  unfold property. rewrite Hmissing.
  assert (Hmem : mem path objectPrototypeKeys = false).
  { destruct (mem path objectPrototypeKeys) eqn:E; [|reflexivity].
    unfold mem in E. apply existsb_exists in E as (key & Hin & Heq).
    apply String.eqb_eq in Heq as <-. contradiction. }
  rewrite Hmem.
  destruct (mem "-la" ("ls" :: rest) || mem "-l" ("ls" :: rest));
    split; reflexivity.
Qed.

Lemma ls_of_unknown_path_is_empty_witness :
  TerminalCommand.output (record_of sampleHost sampleEnv initialState "ls -la")
  = "".
Proof.
  apply (ls_of_unknown_path_is_empty sampleHost sampleEnv initialState
           "ls -la" ["-la"]).
  - reflexivity.
  - reflexivity.
  - vm_compute. intuition discriminate.
Defined.

Ltac operands handler :=
  intros h e st name rest; open_handler handler;
  cbn [host env state cmd args];
  unfold operands_given; cbn [seq forallb andb];
  change ((name :: rest) !! 1%nat) with (rest !! 0%nat);
  change ((name :: rest) !! 2%nat) with (rest !! 1%nat);
  repeat match goal with
         | |- context [truthy ?v] => destruct (truthy v) eqn:?
         end;
  cbn [negb orb andb]; repeat case_match; reflexivity.

Ltac infallibly handler :=
  intros c l; open_handler handler; repeat case_match; reflexivity.

Ltac with_handler tac :=
  match goal with
  | |- _ _ (dispatch ?name) =>
      let handler :=
        eval lazy [dispatch cases List.find fst snd String.eqb Ascii.eqb
                   Bool.eqb] in (dispatch name) in
      change (dispatch name) with handler; tac handler
  | |- _ (dispatch ?name) =>
      let handler :=
        eval lazy [dispatch cases List.find fst snd String.eqb Ascii.eqb
                   Bool.eqb] in (dispatch name) in
      change (dispatch name) with handler; tac handler
  end.

(** Each of them is a label of the switch with such a handler. *)
Lemma operand_handlers :
  Forall (fun entry => checks_operands (snd entry) (dispatch (fst entry)))
    operandCommands.
Proof.
  unfold operandCommands.
  repeat (apply Forall_cons_2; [cbn [fst snd]; with_handler operands|]).
  apply Forall_nil_2.
Qed.

(** X11: thirty commands only check that their operands are there: a
    command that needs one operand ([mkdir], [rm], [touch], [kill], ...)
    exits with code 1 when the first token after its name is missing or
    empty and with code 0 otherwise, whatever the operand is; a command
    that needs two ([cp], [mv], [ln], [chgrp], [scp], [rsync]) exits with
    code 0 exactly when the first two are there. *)
Theorem operand_commands_check_presence (h : Host) (e : Env)
    (st : TerminalState.t) (command name : string) (rest : list string)
    (n : nat) :
  In (name, n) operandCommands ->
  tokens command = name :: rest ->
  TerminalCommand.exitCode (record_of h e st command)
  = if operands_given n rest then 0 else 1.
Proof.
  intros Hin Htokens. unfold record_of. rewrite executeCommand_unfold.
  cbn [fst TerminalCommand.exitCode]. unfold commandName. rewrite Htokens.
  pose proof operand_handlers as Hall. rewrite List.Forall_forall in Hall.
  exact (Hall _ Hin h e st name rest).
Qed.

Lemma operand_commands_check_presence_witness :
  TerminalCommand.exitCode
    (record_of sampleHost sampleEnv initialState "cp only-one") = 1.
Proof.
  apply (operand_commands_check_presence sampleHost sampleEnv initialState
           "cp only-one" "cp" ["only-one"] 2).
  - simpl. tauto.
  - reflexivity.
Defined.

Lemma infallible_handlers :
  Forall (fun name => never_fails (dispatch name)) infallible.
Proof.
  unfold infallible.
  repeat (apply Forall_cons_2; [with_handler infallibly|]).
  apply Forall_nil_2.
Qed.

(** X12: forty-three commands cannot fail: [pwd], [echo], [help], [date],
    [ps], [df], [curl], [find] and the others of the list exit with code 0
    whatever their arguments and whatever the session state. *)
Theorem infallible_commands_succeed (h : Host) (e : Env)
    (st : TerminalState.t) (command : string) :
  In (commandName command) infallible ->
  TerminalCommand.exitCode (record_of h e st command) = 0.
Proof.
  intros Hin. unfold record_of. rewrite executeCommand_unfold.
  cbn [fst TerminalCommand.exitCode].
  pose proof infallible_handlers as Hall. rewrite List.Forall_forall in Hall.
  exact (Hall _ Hin {| host := h; env := e; state := st;
                       cmd := commandName command; args := tokens command |}
           {| output := ""; exitCode := 0;
              newDirectory := currentDirectory st |}).
Qed.

Lemma infallible_commands_succeed_witness :
  TerminalCommand.exitCode
    (record_of sampleHost sampleEnv initialState "find /nowhere -name x") = 0.
Proof.
  apply (infallible_commands_succeed sampleHost sampleEnv initialState
           "find /nowhere -name x").
  vm_compute. tauto.
Defined.

Lemma decimal_injective (a b : Z) : decimal a = decimal b -> a = b.
Proof.
  unfold decimal. intros H. apply DecimalZ.to_int_inj.
  pose proof (NilEmpty.isi (Z.to_int a)) as Ha.
  rewrite H, NilEmpty.isi in Ha. now injection Ha.
Qed.

(** X13: the identifier of a record is the reading of [Date.now()] in
    decimal, and nothing else: two records get the same identifier exactly
    when the clock read the same millisecond for both, whatever the
    commands and the states were. *)
Theorem record_ids_follow_the_clock (h : Host) (e1 e2 : Env)
    (st1 st2 : TerminalState.t) (command1 command2 : string) :
  TerminalCommand.id (record_of h e1 st1 command1)
  = TerminalCommand.id (record_of h e2 st2 command2)
  <-> clock e1 0 = clock e2 0.
Proof.
  unfold record_of. rewrite !executeCommand_unfold.
  cbn [fst TerminalCommand.id]. split.
  - apply decimal_injective.
  - now intros ->.
Qed.

End ExecutorLaws.

(** ** Properties of the terminal component *)

Module ComponentLaws.
Import JS Predictor TerminalState Executor Notions Laws StringFacts StringLaws.
Import ExecutorFacts ExecutorSpec ExecutorLaws PredictorSpec PredictorLaws.
Import TerminalComponent.

Lemma nonempty_trim (line : string) :
  nonempty (trim line) = negb (blank line).
Proof.
  unfold nonempty. destruct (String.eqb_spec (trim line) "") as [E | E].
  - apply trim_blank in E. now rewrite E.
  - destruct (blank line) eqn:B; [|reflexivity].
    apply trim_blank in B. contradiction.
Qed.

(** X14: Enter on a line of white space only, or while a command is
    executing, changes nothing, not even the line; any other Enter empties
    the line, puts the caret at 0, leaves no prediction, and either clears
    the history or appends exactly one record to it. *)
Theorem enter_submits_or_does_nothing (h : Host) (e : Env)
    (ui : TerminalComponent.t) :
  let ui' := handleKeyDown h e ui "Enter" in
  if blank (currentCommand ui) || isExecuting (session ui)
  then ui' = ui
  else currentCommand ui' = "" /\ cursorPosition ui' = 0 /\
       workflowPrediction ui' = None /\
       (history (session ui') = [] \/
        exists r, history (session ui') = history (session ui) ++ [r]).
Proof.
  cbv zeta. unfold handleKeyDown. cbn [String.eqb Ascii.eqb Bool.eqb].
  unfold TerminalComponent.handleSubmit. rewrite nonempty_trim, negb_involutive.
  destruct (blank (currentCommand ui) || isExecuting (session ui)) eqn:Hrej;
    [reflexivity|].
  cbn [currentCommand cursorPosition session].
  repeat split.
  apply orb_false_iff in Hrej as [Hblank Hidle].
  unfold Executor.handleSubmit. rewrite nonempty_trim, Hblank, Hidle.
  cbn [negb orb].
  destruct (String.eqb (trim (currentCommand ui)) "clear"); [now left|].
  right. rewrite executeCommand_unfold. cbn [snd history]. eauto.
Qed.

(** Where a command leaves the session. *)
Lemma execute_place (h : Host) (e : Env) (st : TerminalState.t)
    (command : string) :
  well_placed st ->
  well_placed (state_after h e st command) /\
  fileSystem (state_after h e st command) = fileSystem st.
Proof.
  intros [Hcwd Hhist]. split; [|reflexivity]. unfold state_after, well_placed.
  rewrite executeCommand_unfold.
  cbn [snd currentDirectory fileSystem history]. split.
  - destruct (String.eqb_spec (commandName command) "cd") as [-> | Hne].
    + rewrite dispatch_cd. unfold case_cd, arg.
      cbn [host env state cmd args]. rewrite resolved_slot.
      destruct (fileSystem st !! resolve _ _) as [items|] eqn:Hkey;
        cbn [try_catch newDirectory]; [|exact Hcwd].
      rewrite Hkey. now exists items.
    + rewrite try_catch_directory, (dispatch_keeps_directory _ Hne). exact Hcwd.
  - apply Forall_app. split; [exact Hhist|].
    apply Forall_cons_2; [exact Hcwd | apply Forall_nil_2].
Qed.

Lemma submit_place (h : Host) (e : Env) (st : TerminalState.t)
    (line : string) :
  well_placed st ->
  well_placed (Executor.handleSubmit h e st line) /\
  fileSystem (Executor.handleSubmit h e st line) = fileSystem st.
Proof.
  intros Hst. unfold Executor.handleSubmit.
  destruct (negb (nonempty (trim line)) || isExecuting st); [now split|].
  destruct (String.eqb (trim line) "clear").
  - split; [|reflexivity]. destruct Hst as [Hcwd _].
    split; [exact Hcwd | apply Forall_nil_2].
  - now apply execute_place.
Qed.

Lemma step_place (h : Host) (e : Env) (ui : TerminalComponent.t)
    (event : Event) :
  well_placed (session ui) ->
  well_placed (session (step h e ui event)) /\
  fileSystem (session (step h e ui event)) = fileSystem (session ui).
Proof.
  intros Hst. destruct event as [key | value sel | sel |];
    cbn [step onChange onSelect session]; try (now split).
  - unfold handleKeyDown, TerminalComponent.handleSubmit.
    repeat case_match; cbn [session]; try (now split).
    now apply submit_place.
  - split; [|reflexivity]. destruct Hst as [Hcwd _].
    split; [exact Hcwd | apply Forall_nil_2].
Qed.

(** X15: whatever is typed, submitted or cleared, the session stays in
    place: after any sequence of events the file system is the one the
    session started with, the current directory is one of its keys, and
    every record of the history was made in one of its keys, provided this
    held at the start. *)
Theorem session_stays_in_place (h : Host) (ui : TerminalComponent.t)
    (events : list (Env * Event)) :
  well_placed (session ui) ->
  well_placed (session (run h ui events)) /\
  fileSystem (session (run h ui events)) = fileSystem (session ui).
Proof.
  revert ui. induction events as [|[e event] events IH]; intros ui Hst;
    [now split|].
  cbn [run]. destruct (step_place h e ui event Hst) as [Hnext Hfs].
  destruct (IH _ Hnext) as [Hend Hfs']. split; [exact Hend|].
  now rewrite Hfs', Hfs.
Qed.

Lemma initial_well_placed : well_placed (session initial).
Proof.
  split; [|apply Forall_nil_2].
  now exists (default [] (mockFileSystem !! "/home/user")).
Qed.

Lemma session_stays_in_place_witness :
  fileSystem (session (run sampleHost initial
    [ (sampleEnv, Change "cd /home" (Some 8)); (sampleEnv, KeyDown "Enter");
      (sampleEnv, Change "cd nowhere" (Some 10)); (sampleEnv, KeyDown "Enter");
      (sampleEnv, ClearClicked) ]))
  = mockFileSystem.
Proof.
  apply (session_stays_in_place sampleHost initial). exact initial_well_placed.
Defined.

(** X16: the caret stays within the input line: Enter, Tab, the arrow
    keys and Clear keep it between 0 and the length of the line, as long
    as the carets the browser reports are within the text. *)
Theorem caret_stays_in_range (h : Host) (ui : TerminalComponent.t)
    (events : list (Env * Event)) :
  caret_in_range ui ->
  all_reported h ui events ->
  caret_in_range (run h ui events).
Proof.
  revert ui. induction events as [|[e event] events IH]; intros ui Hui Hev;
    [exact Hui|].
  cbn [run]. destruct Hev as [Hhere Hrest]. apply IH; [|exact Hrest].
  clear IH Hrest. unfold caret_in_range in *.
  destruct event as [key | value sel | sel |];
    cbn [step onChange onSelect currentCommand cursorPosition];
    try exact Hhere; try exact Hui.
  unfold handleKeyDown, TerminalComponent.handleSubmit.
  repeat case_match; cbn [currentCommand cursorPosition String.length]; lia.
Qed.

Lemma caret_stays_in_range_witness :
  caret_in_range (run sampleHost initial
    [ (sampleEnv, Change "fin" (Some 3)); (sampleEnv, KeyDown "Tab");
      (sampleEnv, KeyDown "ArrowRight"); (sampleEnv, KeyDown "ArrowLeft") ]).
Proof.
  apply (caret_stays_in_range sampleHost initial).
  - unfold caret_in_range. simpl. lia.
  - simpl. lia.
Defined.

Lemma suggestions_nonempty :
  Forall (fun s => s <> "") allSuggestions.
Proof.
  unfold allSuggestions, workflowPatterns. cbn [fmap list_fmap snd app].
  repeat (apply Forall_cons_2; [discriminate|]). apply Forall_nil_2.
Qed.

Lemma workflowPrediction_inv (ui : TerminalComponent.t) (p : string) :
  workflowPrediction ui = Some p ->
  isExecuting (session ui) = false /\
  predictWorkflow (currentCommand ui) (history (session ui)) = Some p /\
  p <> "".
Proof.
  unfold workflowPrediction.
  destruct (Nat.ltb 2 _); [|discriminate].
  destruct (isExecuting (session ui)); [discriminate|]. cbn [negb andb].
  intros H. split; [reflexivity|]. split; [exact H|].
  apply predictNormalized_range in H.
  pose proof suggestions_nonempty as Hall.
  rewrite List.Forall_forall in Hall. now apply Hall.
Qed.

(** X17: Tab accepts the prediction: the line becomes the prediction and
    the caret goes to its end; without a prediction Tab changes nothing.
    Accepting is final: a second Tab leaves the line as the first one
    made it. *)
Theorem tab_accepts_once (h : Host) (e e' : Env) (ui : TerminalComponent.t) :
  let ui' := handleKeyDown h e ui "Tab" in
  match workflowPrediction ui with
  | Some p =>
      currentCommand ui' = p /\
      cursorPosition ui' = Z.of_nat (String.length p) /\
      session ui' = session ui
  | None => ui' = ui
  end /\
  handleKeyDown h e' ui' "Tab" = ui'.
Proof.
  cbv zeta. unfold handleKeyDown.
  change (String.eqb "Tab" "Enter") with false.
  change (String.eqb "Tab" "Tab") with true.
  change (String.eqb "Tab" "ArrowLeft") with false.
  change (String.eqb "Tab" "ArrowRight") with false. cbn [andb].
  destruct (workflowPrediction ui) as [p|] eqn:Hp.
  - destruct (workflowPrediction_inv ui p Hp) as (Hidle & Hpred & Hne).
    cbn [truthy show]. destruct (String.eqb_spec p ""); [contradiction|].
    cbn [negb currentCommand cursorPosition session].
    split; [repeat split|].
    assert (Hnext :
      workflowPrediction (mk p (Z.of_nat (String.length p)) (session ui)) = None \/
      workflowPrediction (mk p (Z.of_nat (String.length p)) (session ui)) = Some p).
    { unfold workflowPrediction. cbn [currentCommand session].
      destruct (Nat.ltb 2 (String.length p) && negb (isExecuting (session ui)));
        [|now left].
      exact (accepted_prediction_is_stable _ _ _ Hpred). }
    destruct Hnext as [-> | ->]; cbn [truthy show]; [reflexivity|].
    now destruct (String.eqb_spec p "").
  - cbn [truthy]. split; [reflexivity|]. rewrite Hp. reflexivity.
Qed.

End ComponentLaws.

(** ** Properties of the command registry *)

Module RegistryLaws.
Import JS Predictor Executor Notions Laws StringFacts StringLaws.
Import ExecutorFacts ExecutorSpec ExecutorLaws Commands.

Lemma mem_In (x : string) (xs : list string) : mem x xs = true <-> In x xs.
Proof.
  unfold mem. rewrite existsb_exists. split.
  - intros (y & Hin & Heq). apply String.eqb_eq in Heq as ->. exact Hin.
  - intros Hin. exists x. split; [exact Hin | apply String.eqb_refl].
Qed.

Lemma mem_not_In (x : string) (xs : list string) :
  mem x xs = false <-> ~ In x xs.
Proof.
  rewrite <- mem_In. destruct (mem x xs); split; intros H;
    try reflexivity; try discriminate; try (intros [=]). now elim H.
Qed.

(** In a table without repeated keys, a key finds its entry. *)
Lemma find_key {A} (table : list (string * A)) (key : string) (value : A) :
  NoDup (fst <$> table) -> In (key, value) table ->
  List.find (fun entry => String.eqb (fst entry) key) table = Some (key, value).
Proof.
  induction table as [|[k v] table IH]; intros Hnd Hin; [contradiction|].
  apply NoDup_cons in Hnd as [Hk Hnd]. simpl.
  destruct Hin as [[= -> ->] | Hin].
  - now rewrite String.eqb_refl.
  - destruct (String.eqb_spec k key) as [-> | _]; [|now apply IH].
    elim Hk. apply list_elem_of_In, in_map_iff. now exists (key, value).
Qed.

Lemma registered_distinct : NoDup registered.
Proof. apply (bool_decide_unpack _). vm_compute. reflexivity. Qed.

(** Every entry is filed under its own name, and no name of
    [Object.prototype] is a key. *)
Lemma registry_keys_are_names :
  Forall (fun entry => CommandInfo.name (snd entry) = fst entry) LINUX_COMMANDS
  /\ Forall (fun key => mem key objectPrototypeKeys = false) registered.
Proof.
  split.
  - unfold LINUX_COMMANDS.
    repeat (apply Forall_cons_2; [reflexivity|]). apply Forall_nil_2.
  - unfold registered, LINUX_COMMANDS. cbn [fmap list_fmap fst].
    repeat (apply Forall_cons_2; [reflexivity|]). apply Forall_nil_2.
Qed.

(** X18: [getCommandInfo] finds a command exactly under its own name: it
    returns an entry for a name if and only if that entry is in the
    registry and carries that name; and it returns an inherited member of
    the object, not [undefined], exactly for the names of
    [Object.prototype]. *)
Theorem getCommandInfo_finds_by_name (commandName : string) :
  (forall info,
     getCommandInfo commandName = Own info <->
     In info values /\ CommandInfo.name info = commandName) /\
  (getCommandInfo commandName = InheritedMember <->
   In commandName objectPrototypeKeys).
Proof.
  destruct registry_keys_are_names as [Hnames Hproto].
  rewrite List.Forall_forall in Hnames, Hproto.
  unfold getCommandInfo. split.
  - intros info. split.
    + destruct (List.find _ LINUX_COMMANDS) as [[key value]|] eqn:E.
      * intros [= <-]. apply find_some in E as [Hin Heq]. simpl in Heq.
        apply String.eqb_eq in Heq as ->. split.
        -- apply in_map_iff. now exists (commandName, value).
        -- exact (Hnames _ Hin).
      * now destruct (mem commandName objectPrototypeKeys).
    + intros [Hin Hname]. apply in_map_iff in Hin as ([key value] & <- & Hin).
      pose proof (Hnames _ Hin) as Hkey. simpl in Hkey, Hname.
      rewrite Hname in Hkey. subst key.
      now rewrite (find_key _ _ _ registered_distinct Hin).
  - destruct (List.find _ LINUX_COMMANDS) as [[key value]|] eqn:E.
    + split; [discriminate|]. intros Hin. exfalso.
      apply find_some in E as [Hentry Heq]. simpl in Heq.
      apply String.eqb_eq in Heq as ->.
      assert (Hreg : In commandName registered).
      { apply in_map_iff. now exists (commandName, value). }
      apply mem_In in Hin. rewrite (Hproto _ Hreg) in Hin. discriminate.
    + rewrite <- mem_In. now destruct (mem commandName objectPrototypeKeys).
Qed.

Lemma includes_empty (s : string) : includes s "" = true.
Proof. apply includes_here, startsWith_empty. Qed.

Lemma includes_refl (s : string) : includes s s = true.
Proof. apply includes_here, startsWith_refl. Qed.

Lemma filter_all {A} (keep : A -> bool) (xs : list A) :
  (forall x, keep x = true) -> List.filter keep xs = xs.
Proof.
  intros Hall. induction xs as [|x xs IH]; [reflexivity|]. simpl.
  now rewrite Hall, IH.
Qed.

(** X19: [searchCommands] ignores the case of the query, finds every
    registered command by its own name in any case, and returns the whole
    registry for the empty query. *)
Theorem searchCommands_by_name (query : string) :
  searchCommands query = searchCommands (toLowerCase query) /\
  (forall info,
     In info values -> toLowerCase query = CommandInfo.name info ->
     In info (searchCommands query)) /\
  searchCommands "" = values.
Proof.
  split; [|split].
  - unfold searchCommands. cbv zeta. now rewrite toLowerCase_idempotent.
  - intros info Hin Hname. unfold searchCommands. cbv zeta.
    apply filter_In. split; [exact Hin|].
    rewrite Hname, includes_refl. reflexivity.
  - unfold searchCommands. cbv zeta. apply filter_all. intros info.
    change (toLowerCase "") with "". now rewrite includes_empty.
Qed.

Lemma searchCommands_by_name_witness :
  In (CommandInfo.mk "pwd" "Print working directory" "file" "pwd" ["pwd"])
     (searchCommands "PWD").
Proof.
  apply (proj1 (proj2 (searchCommands_by_name "PWD"))).
  - right. right. left. reflexivity.
  - reflexivity.
Defined.

(** X20: the eight categories partition the registry: a category string
    lists some command exactly when it is one of the eight, every command
    is listed under its own category and under no other, and the eight
    lists together have as many entries as the registry. *)
Theorem categories_partition (category : string) :
  (getCommandsByCategory category <> [] <-> In category categories) /\
  (forall info,
     In info (getCommandsByCategory category) <->
     In info values /\ CommandInfo.category info = category) /\
  list_sum (length <$> (getCommandsByCategory <$> categories)) = length values.
Proof.
  assert (Hcat : Forall (fun info => In (CommandInfo.category info) categories)
                   values).
  { unfold values, LINUX_COMMANDS. cbn [fmap list_fmap snd].
    repeat (apply Forall_cons_2; [simpl; tauto|]). apply Forall_nil_2. }
  rewrite List.Forall_forall in Hcat.
  assert (Hmember : forall info,
     In info (getCommandsByCategory category) <->
     In info values /\ CommandInfo.category info = category).
  { intros info. unfold getCommandsByCategory. rewrite filter_In.
    now rewrite String.eqb_eq. }
  split; [|split; [exact Hmember | reflexivity]].
  split.
  - intros Hne. destruct (getCommandsByCategory category) as [|info rest] eqn:E;
      [contradiction|].
    assert (Hin : In info (info :: rest)) by now left.
    apply Hmember in Hin as [Hin <-]. now apply Hcat.
  - intros Hin. simpl in Hin.
    destruct Hin as [<- | [<- | [<- | [<- | [<- | [<- | [<- | [<- | []]]]]]]]];
      vm_compute; discriminate.
Qed.

Lemma exit_127_iff (h : Host) (e : Env) (st : TerminalState.t)
    (command : string) :
  TerminalCommand.exitCode (record_of h e st command) = 127 <->
  mem (commandName command) handlerNames = false.
Proof.
  rewrite mem_not_In.
  destruct (exit_code_cases h e st command) as [[Hin Hc] | [Hout Hc]].
  - split; [|tauto]. intros H127.
    destruct Hc as [Hc | Hc]; rewrite Hc in H127; discriminate.
  - tauto.
Qed.

(** Which registered names have a case, and which cases are registered. *)
Lemma registry_against_cases :
  Forall (fun name => mem name handlerNames = negb (mem name unhandled))
    registered /\
  Forall (fun name => mem name registered = negb (mem name unregistered))
    handlerNames.
Proof.
  split.
  - unfold registered, LINUX_COMMANDS. cbn [fmap list_fmap fst].
    repeat (apply Forall_cons_2; [reflexivity|]). apply Forall_nil_2.
  - unfold handlerNames, cases. cbn [fmap list_fmap fst].
    repeat (apply Forall_cons_2; [vm_compute; reflexivity|]).
    apply Forall_nil_2.
Qed.

(** X21: the registry and the executor do not name the same commands: a
    registered command is answered with exit code 127 exactly when it is
    one of [egrep], [fgrep], [top], [htop], [lsblk], [chmod], [chown],
    [tar] and [unzip]; and a command that is not answered with 127 is
    missing from the registry exactly when it is [clear] or [help]. *)
Theorem registered_but_not_executable (h : Host) (e : Env)
    (st : TerminalState.t) (command : string) :
  let code := TerminalCommand.exitCode (record_of h e st command) in
  (In (commandName command) registered ->
   (code = 127 <-> In (commandName command) unhandled)) /\
  (code <> 127 ->
   (~ In (commandName command) registered <->
    In (commandName command) unregistered)).
Proof.
  cbv zeta. destruct registry_against_cases as [Hreg Hcases].
  rewrite List.Forall_forall in Hreg, Hcases. split.
  - intros Hin. rewrite exit_127_iff, (Hreg _ Hin), <- mem_In.
    now destruct (mem (commandName command) unhandled).
  - intros Hcode.
    assert (Hin : In (commandName command) handlerNames).
    { apply mem_In. destruct (mem _ handlerNames) eqn:E; [reflexivity|].
      apply (exit_127_iff h e st) in E. contradiction. }
    rewrite <- mem_not_In, (Hcases _ Hin), <- mem_In.
    now destruct (mem (commandName command) unregistered).
Qed.

Lemma registered_but_not_executable_witness :
  TerminalCommand.exitCode
    (record_of sampleHost sampleEnv initialState "chmod 755 script.sh") = 127.
Proof.
  apply (proj1 (registered_but_not_executable sampleHost sampleEnv
                  initialState "chmod 755 script.sh")).
  - vm_compute. tauto.
  - vm_compute. tauto.
Defined.

Lemma suggestions_against_cases :
  Forall (fun entry =>
    mem (commandName (snd entry)) handlerNames
    = negb (mem (fst entry) deadSuggestions)) workflowPatterns.
Proof.
  unfold workflowPatterns.
  repeat (apply Forall_cons_2; [vm_compute; reflexivity|]).
  apply Forall_nil_2.
Qed.

(** X22: some predictions cannot be run: executing the suggestion of an
    entry of the prediction table, as accepted, is answered with exit code
    127 exactly for the keys [top], [htop], [chmod], [chown], [tar],
    [unzip] and [lsblk]. *)
Theorem predictions_that_are_not_found (h : Host) (e : Env)
    (st : TerminalState.t) (key suggestion : string) :
  In (key, suggestion) workflowPatterns ->
  TerminalCommand.exitCode (record_of h e st suggestion) = 127 <->
  In key deadSuggestions.
Proof.
  intros Hin. pose proof suggestions_against_cases as Hall.
  rewrite List.Forall_forall in Hall. specialize (Hall _ Hin).
  cbn [fst snd] in Hall. rewrite exit_127_iff, Hall, <- mem_In.
  now destruct (mem key deadSuggestions).
Qed.

Lemma predictions_that_are_not_found_witness :
  TerminalCommand.exitCode
    (record_of sampleHost sampleEnv initialState "tar -czf archive.tar.gz directory/")
  = 127.
Proof.
  apply (predictions_that_are_not_found sampleHost sampleEnv initialState
           "tar" "tar -czf archive.tar.gz directory/").
  - vm_compute. tauto.
  - vm_compute. tauto.
Defined.

End RegistryLaws.
